(** * Zoom meeting recorder: a shallow embedding of the pipeline

    The program is a sequential pipeline of calls into external tools
    (the URI opener, the UI-automation runner, the ffmpeg subprocess, the
    file system and the Gemini API).  The embedding keeps the JavaScript
    control flow of every function (try / catch / finally, early returns,
    module-level variables) and replaces each external call by an oracle of
    the environment [Env]; every call leaves an event in the trace of the
    [World], so that what was attempted, and in which order, can be stated.

    Conventions.
    - A JavaScript string is the list of its UTF-16 code units ([jsstring]);
      [lit] turns an ASCII literal into such a list.
    - The configuration is the parsed JSON document: every section and every
      field may be absent, and the fields that are present are strings (one
      boolean); reading a field of an absent section throws.
    - A promise that never settles (an event that never fires, a polling loop
      that outlives the fuel) is the outcome [Pending]; what the process
      does once nothing is left to wait for is not modelled, and an exit is
      a call of [process.exit].
    - The oracles of the commands, of the file system and of the API always
      answer, with a result or with an error: a command or a request that
      never completes is not modelled.  What can stay pending is the close
      of the encoder and of [ps], the monitor and the readiness poll.
    - What [console.error] and [console.warn] print is in the trace, and so
      are the [console.log] lines of the final report and of the notices a
      statement below refers to; the other progress lines are left out,
      together with the colour wrappers and the glyphs that start a line.
    - One session runs at a time: overlapping scheduled sessions are
      outside the model, and the interrupt handler is modelled as a
      computation of its own, started from any state. *)

From Stdlib Require Import ZArith List String Ascii Bool Lia DecimalString.
Import ListNotations.
Local Open Scope Z_scope.

(* ===================================================================== *)
(** ** JavaScript strings                                                  *)
(* ===================================================================== *)

Module JS.

Definition codeunit := Z.
Definition jsstring := list codeunit.

(** ASCII literal to code units. *)
Definition lit (s : string) : jsstring :=
  map (fun a => Z.of_N (N_of_ascii a)) (list_ascii_of_string s).

Definition str_eqb (a b : jsstring) : bool :=
  if list_eq_dec Z.eq_dec a b then true else false.

(** Truthiness of a string value: the empty string is falsy. *)
Definition truthy (s : jsstring) : bool :=
  match s with [] => false | _ => true end.

(** Truthiness of a property that may be absent ([undefined]) or a string. *)
Definition truthy_opt (v : option jsstring) : bool :=
  match v with Some s => truthy s | None => false end.

(** [v || d] for a property that may be absent. *)
Definition or_default (v : option jsstring) (d : jsstring) : jsstring :=
  match v with
  | Some s => if truthy s then s else d
  | None => d
  end.

(** Interpolation of a value that may be [null] inside a template literal. *)
Definition interp (v : option jsstring) : jsstring :=
  match v with Some s => s | None => lit "null" end.

(** [\d] : the ASCII decimal digits. *)
Definition isDigit (c : codeunit) : bool := (48 <=? c) && (c <=? 57).

Fixpoint takeWhile (f : codeunit -> bool) (s : jsstring) : jsstring :=
  match s with
  | c :: t => if f c then c :: takeWhile f t else []
  | [] => []
  end.

(** Strip a literal prefix: the anchored match of a literal. *)
Fixpoint stripPrefix (p s : jsstring) : option jsstring :=
  match p with
  | [] => Some s
  | a :: p' =>
      match s with
      | c :: t => if a =? c then stripPrefix p' t else None
      | [] => None
      end
  end.

(** [String.prototype.match] with a regular expression without the [g]
    flag: the anchored matcher [m] is tried at every index from the left
    (the end of the string included) and the first success wins. *)
Fixpoint search {A : Type} (m : jsstring -> option A) (s : jsstring) : option A :=
  match m s with
  | Some r => Some r
  | None =>
      match s with
      | [] => None
      | _ :: t => search m t
      end
  end.

(** [String.prototype.includes]. *)
Definition includes (p s : jsstring) : bool :=
  match search (fun u => match stripPrefix p u with
                         | Some _ => Some tt
                         | None => None
                         end) s with
  | Some _ => true
  | None => false
  end.

(** [Number.prototype.toString] of an integer. *)
Definition Z_to_js (z : Z) : jsstring := lit (NilZero.string_of_int (Z.to_int z)).

(** White space and line terminators, as [String.prototype.trim] sees them. *)
Definition isWhite (c : codeunit) : bool :=
  ((9 <=? c) && (c <=? 13)) || (c =? 32) || (c =? 160) || (c =? 5760)
  || ((8192 <=? c) && (c <=? 8202)) || (c =? 8232) || (c =? 8233)
  || (c =? 8239) || (c =? 8287) || (c =? 12288) || (c =? 65279).

Fixpoint dropWhile (f : codeunit -> bool) (s : jsstring) : jsstring :=
  match s with
  | c :: t => if f c then dropWhile f t else s
  | [] => []
  end.

Definition trim (s : jsstring) : jsstring :=
  rev (dropWhile isWhite (rev (dropWhile isWhite s))).

(** [s.replace(/[:.]/g, '-')]. *)
Definition replaceColonDot (s : jsstring) : jsstring :=
  map (fun c => if (c =? 58) || (c =? 46) then 45 else c) s.

(** [s.length]. *)
Definition jslength (s : jsstring) : Z := Z.of_nat (List.length s).

(** [s.substring(0, n)]: a negative [n] counts as zero. *)
Definition substring0 (n : Z) (s : jsstring) : jsstring := firstn (Z.to_nat n) s.

(** *** encodeURIComponent *)

(** The unreserved set: letters, digits and [- _ . ! ~ * ' ( )]. *)
Definition uriUnreserved (c : codeunit) : bool :=
  ((65 <=? c) && (c <=? 90)) || ((97 <=? c) && (c <=? 122)) || isDigit c
  || (c =? 45) || (c =? 95) || (c =? 46) || (c =? 33) || (c =? 126)
  || (c =? 42) || (c =? 39) || (c =? 40) || (c =? 41).

Definition isLeadSurrogate (c : codeunit) : bool := (55296 <=? c) && (c <=? 56319).
Definition isTrailSurrogate (c : codeunit) : bool := (56320 <=? c) && (c <=? 57343).

Definition codePoint (hi lo : codeunit) : Z :=
  (hi - 55296) * 1024 + (lo - 56320) + 65536.

(** Upper-case hexadecimal digit of the low four bits. *)
Definition hexDigit (n : Z) : codeunit :=
  let d := Z.land n 15 in
  if d <? 10 then 48 + d else 55 + d.

(** One octet as [%XX]. *)
Definition pct (b : Z) : jsstring := [37; hexDigit (Z.shiftr b 4); hexDigit b].

Definition utf8 (cp : Z) : list Z :=
  if cp <? 128 then [cp]
  else if cp <? 2048 then
    [Z.lor 192 (Z.shiftr cp 6); Z.lor 128 (Z.land cp 63)]
  else if cp <? 65536 then
    [Z.lor 224 (Z.shiftr cp 12); Z.lor 128 (Z.land (Z.shiftr cp 6) 63);
     Z.lor 128 (Z.land cp 63)]
  else
    [Z.lor 240 (Z.shiftr cp 18); Z.lor 128 (Z.land (Z.shiftr cp 12) 63);
     Z.lor 128 (Z.land (Z.shiftr cp 6) 63); Z.lor 128 (Z.land cp 63)].

Definition pctUtf8 (cp : Z) : jsstring := flat_map pct (utf8 cp).

(** [None] is the [URIError] raised on a lone surrogate. *)
Fixpoint encodeURIComponent (s : jsstring) : option jsstring :=
  match s with
  | [] => Some []
  | c :: t =>
      if uriUnreserved c then option_map (cons c) (encodeURIComponent t)
      else if isLeadSurrogate c then
        match t with
        | d :: t' =>
            if isTrailSurrogate d
            then option_map (app (pctUtf8 (codePoint c d))) (encodeURIComponent t')
            else None
        | [] => None
        end
      else if isTrailSurrogate c then None
      else option_map (app (pctUtf8 c)) (encodeURIComponent t)
  end.

End JS.
Import JS.

(* ===================================================================== *)
(** ** Effects: errors, outcomes, the trace and the environment           *)
(* ===================================================================== *)

(** A thrown value: the [code] property (as in [ENOENT]) and the message. *)
Record error := mkError { err_code : option jsstring; err_message : jsstring }.

Definition Error (msg : jsstring) : error := mkError None msg.

(** How an awaited computation ends. *)
Inductive outcome (A : Type) : Type :=
| Ok (a : A)
| Throw (e : error)
| Pending.
Arguments Ok {A} a.
Arguments Throw {A} e.
Arguments Pending {A}.

(** The exported functions of the pipeline, for the call markers. *)
Inductive stage :=
| LoadConfig | JoinZoomMeeting | StartScreenRecording | MonitorMeeting
| StopScreenRecording | QuitZoom | UploadToCloud | TranscribeVideo
| GenerateSummary | RunRecordingSession.

Inductive stream := Log | Warn | Err.

(** The subprocess handle returned by [spawn]. *)
Inductive proc := Proc (id : nat).

Inductive event :=
| ECall (f : stage)
| EConsole (s : stream) (text : jsstring)
| EReadFile (path : jsstring)
| EMkdir (path : jsstring)
| EWriteFile (path data : jsstring)
| EUnlink (path : jsstring)
| EAccess (path : option jsstring)
| EStat (path : option jsstring)
| EExec (cmd : jsstring)
| ESleep (ms : Z)
| ESpawn (cmd : jsstring) (args : list jsstring)
| ESpawnError (p : proc) (e : error)
| EStdinWrite (p : proc) (data : jsstring)
| EStdinEnd (p : proc)
| EClose (p : proc) (code : option Z)
| EExtractAudio (video : option jsstring) (audio : jsstring)
| EUploadFile (path mime display : jsstring)
| EGetFile (name : jsstring)
| EGenerateContent (model : jsstring) (fileUri : option jsstring) (text : jsstring)
| ESchedule (cron : option jsstring) (tz : option jsstring)
| EExit (code : Z).

(** The remote file handle of the inference service. *)
Record remoteFile := mkRemoteFile {
  rf_name : jsstring;
  rf_uri : jsstring;
  rf_mimeType : jsstring;
}.

(** What [spawn] does: throw at once, or hand back a handle; a missing
    binary is reported later, through the handle's [error] event. *)
Inductive spawnOutcome :=
| SpawnThrows (e : error)
| Spawned (asyncError : option error).

(** The JSON document of the configuration file, as parsed: every section
    and every field may be absent. *)
Record rawZoom := mkRawZoom {
  rz_meetingLink : option jsstring;
  rz_password : option jsstring;
  rz_displayName : option jsstring;
}.
Record rawCloud := mkRawCloud {
  rc_provider : option jsstring;
  rc_folderName : option jsstring;
}.
Record rawRecording := mkRawRecording {
  rr_outputDir : option jsstring;
  rr_quality : option jsstring;
}.
Record rawAi := mkRawAi {
  ra_transcriptionModel : option jsstring;
  ra_summaryModel : option jsstring;
}.
Record rawSchedule := mkRawSchedule {
  rs_enabled : bool;
  rs_cronExpression : option jsstring;
  rs_timezone : option jsstring;
}.
Record rawConfig := mkRawConfig {
  raw_zoom : option rawZoom;
  raw_cloudStorage : option rawCloud;
  raw_recording : option rawRecording;
  raw_ai : option rawAi;
  raw_schedule : option rawSchedule;
}.

(** The external collaborators.  An oracle that can answer differently from
    one call to the next takes the trace so far. *)
Class Env := {
  path_join : jsstring -> jsstring -> jsstring;
  path_basename : jsstring -> jsstring;
  os_tmpdir : jsstring;
  CONFIG_PATH : jsstring;
  joinScript : jsstring;          (* the AppleScript text of joinZoomMeeting *)
  monitorScript : jsstring;       (* the AppleScript text of monitorMeeting *)
  quitScript : jsstring;          (* the AppleScript text of quitZoom *)
  argv_now : bool;                (* process.argv.includes('--now') *)
  GEMINI_API_KEY : option jsstring;
  date_iso : list event -> jsstring;      (* new Date().toISOString() *)
  date_now : list event -> jsstring;      (* Date.now(), in decimal *)
  fs_readFile : list event -> jsstring -> error + jsstring;
  json_parse : jsstring -> error + rawConfig;
  fs_mkdir : list event -> jsstring -> option error;
  fs_writeFile : list event -> jsstring -> jsstring -> option error;
  fs_unlink : list event -> jsstring -> option error;
  fs_access : list event -> option jsstring -> option error;
  fs_stat : list event -> option jsstring -> error + Z;
  exec : list event -> jsstring -> error + jsstring;
  spawn : list event -> jsstring -> list jsstring -> spawnOutcome;
  close_event : list event -> proc -> option (option Z);
  ffmpeg_run : list event -> option jsstring -> jsstring -> option error;
  ffmpeg_null : error;            (* what ffmpeg(null) throws *)
  gemini_uploadFile : list event -> jsstring -> error + remoteFile;
  gemini_getFile : list event -> jsstring -> error + jsstring;
  gemini_generate : list event -> jsstring -> option jsstring -> jsstring
                    -> error + (error + jsstring);
  cron_schedule : option jsstring -> option jsstring -> option error;
  inspect : error -> jsstring;    (* how console.error renders an Error object *)
  (* path.join returns "." rather than a zero-length string *)
  path_join_truthy : forall a b, truthy (path_join a b) = true;
  (* the library refuses a null input: no extraction of it ever succeeds *)
  ffmpeg_run_null : forall h a, ffmpeg_run h None a = Some ffmpeg_null;
}.

(** The module-level variables of screenRecorder.js and the trace. *)
Record World := mkWorld {
  trace : list event;
  ffmpegProcess : option proc;
  recordingPath : option jsstring;
}.

Definition M (A : Type) : Type := World -> outcome A * World.

Definition ret {A} (a : A) : M A := fun w => (Ok a, w).
Definition throw {A} (e : error) : M A := fun w => (Throw e, w).
Definition pending {A} : M A := fun w => (Pending, w).

Definition bind {A B} (c : M A) (k : A -> M B) : M B :=
  fun w =>
    match c w with
    | (Ok a, w') => k a w'
    | (Throw e, w') => (Throw e, w')
    | (Pending, w') => (Pending, w')
    end.

(** [try { c } catch (e) { h e }]. *)
Definition try_catch {A} (c : M A) (h : error -> M A) : M A :=
  fun w =>
    match c w with
    | (Throw e, w') => h e w'
    | r => r
    end.

(** [try { c } finally { f }]: [f] runs on return and on throw, and its own
    failure replaces the outcome of [c]. *)
Definition try_finally {A} (c : M A) (f : M unit) : M A :=
  fun w =>
    match c w with
    | (Ok a, w') =>
        match f w' with
        | (Ok _, w'') => (Ok a, w'')
        | (Throw e, w'') => (Throw e, w'')
        | (Pending, w'') => (Pending, w'')
        end
    | (Throw e, w') =>
        match f w' with
        | (Ok _, w'') => (Throw e, w'')
        | (Throw e', w'') => (Throw e', w'')
        | (Pending, w'') => (Pending, w'')
        end
    | (Pending, w') => (Pending, w')
    end.

(** [c.catch(() => { })]: the failure of [c] is swallowed. *)
Definition swallow (c : M unit) : M unit := try_catch c (fun _ => ret tt).

Declare Scope js_scope.
Delimit Scope js_scope with js.
Notation "x <- c ;; k" := (bind c (fun x => k))
  (at level 61, c at next level, right associativity) : js_scope.
Notation "c ;; k" := (bind c (fun _ => k))
  (at level 61, right associativity) : js_scope.
Local Open Scope js_scope.

Definition emit (e : event) : M unit :=
  fun w => (Ok tt, mkWorld (trace w ++ [e]) (ffmpegProcess w) (recordingPath w)).

Definition get_trace : M (list event) := fun w => (Ok (trace w), w).
Definition get_ffmpegProcess : M (option proc) := fun w => (Ok (ffmpegProcess w), w).
Definition get_recordingPath : M (option jsstring) := fun w => (Ok (recordingPath w), w).
Definition set_ffmpegProcess (p : option proc) : M unit :=
  fun w => (Ok tt, mkWorld (trace w) p (recordingPath w)).
Definition set_recordingPath (p : option jsstring) : M unit :=
  fun w => (Ok tt, mkWorld (trace w) (ffmpegProcess w) p).

Definition console (s : stream) (text : jsstring) : M unit := emit (EConsole s text).

(** An external call that fails or succeeds: the event is recorded, then the
    oracle is asked with the trace as it was before the call. *)
Definition call_unit (e : event) (o : list event -> option error) : M unit :=
  h <- get_trace ;;
  emit e ;;
  match o h with
  | None => ret tt
  | Some err => throw err
  end.

Definition call_val {A} (e : event) (o : list event -> error + A) : M A :=
  h <- get_trace ;;
  emit e ;;
  match o h with
  | inr a => ret a
  | inl err => throw err
  end.

Definition sleep (ms : Z) : M unit := emit (ESleep ms).

(** A pure step that may throw. *)
Definition lift {A} (r : error + A) : M A :=
  match r with inr a => ret a | inl e => throw e end.

(* ===================================================================== *)
(** ** zoomJoiner.js                                                       *)
(* ===================================================================== *)

Module ZoomJoiner.

(** [/\/j\/(\d+)/] anchored at the current index: the capture is the
    longest run of digits after the literal. *)
Definition re_j_id (s : jsstring) : option jsstring :=
  match stripPrefix (lit "/j/") s with
  | Some t =>
      match takeWhile isDigit t with
      | [] => None
      | d => Some d
      end
  | None => None
  end.

(** [/(\d{9,11})/] anchored at the current index: greedy, at most eleven
    digits, at least nine. *)
Definition re_digits_9_11 (s : jsstring) : option jsstring :=
  let d := firstn 11 (takeWhile isDigit s) in
  if (9 <=? List.length d)%nat then Some d else None.

(** [/[?&]pwd=([^&]+)/] anchored at the current index. *)
Definition re_pwd (s : jsstring) : option jsstring :=
  match s with
  | c :: t =>
      if (c =? 63) || (c =? 38) then
        match stripPrefix (lit "pwd=") t with
        | Some u =>
            match takeWhile (fun x => negb (x =? 38)) u with
            | [] => None
            | v => Some v
            end
        | None => None
        end
      else None
  | [] => None
  end.

(** Lines 22-35: the meeting identifier, or the thrown error. *)
Definition extractMeetingId (meetingLink : jsstring) : error + jsstring :=
  match search re_j_id meetingLink with
  | Some id => inr id
  | None =>
      match search re_digits_9_11 meetingLink with
      | Some id => inr id
      | None =>
          inl (Error (lit "Could not extract Meeting ID from link: " ++ meetingLink))
      end
  end.

(** Lines 20 and 37-43: [config.zoom.password || ''], then the [pwd=]
    parameter of the link when that is falsy. *)
Definition extractPassword (configPassword : option jsstring)
                           (meetingLink : jsstring) : jsstring :=
  let password := or_default configPassword [] in
  if negb (truthy password) then
    match search re_pwd meetingLink with
    | Some p => p
    | None => password
    end
  else password.

Definition URIError : error := Error (lit "URI malformed").
Definition TypeError (msg : jsstring) : error := Error msg.

(** Lines 50-56: the deep link; [inl] when [encodeURIComponent] throws. *)
Definition buildZoomUrl (meetingId password displayName : jsstring)
  : error + jsstring :=
  let zoomUrl := lit "zoommtg://zoom.us/join?confno=" ++ meetingId in
  let withPwd :=
    if truthy password then
      match encodeURIComponent password with
      | Some p => inr (zoomUrl ++ lit "&pwd=" ++ p)
      | None => inl URIError
      end
    else inr zoomUrl in
  match withPwd with
  | inl e => inl e
  | inr zoomUrl =>
      match encodeURIComponent displayName with
      | Some n => inr (zoomUrl ++ lit "&uname=" ++ n)
      | None => inl URIError
      end
  end.

(** Lines 18-56: everything [joinZoomMeeting] computes before it launches
    anything: the meeting identifier and the deep link. *)
Definition prepareDeepLink (zoom : rawZoom) (meetingLink : jsstring)
  : error + (jsstring * jsstring) :=
  match extractMeetingId meetingLink with
  | inl e => inl e
  | inr meetingId =>
      let password := extractPassword (rz_password zoom) meetingLink in
      let displayName := or_default (rz_displayName zoom) (lit "Zoom Recorder") in
      match buildZoomUrl meetingId password displayName with
      | inl e => inl e
      | inr zoomUrl => inr (meetingId, zoomUrl)
      end
  end.

(** [/pwd=[^&]+/] anchored at the current index: what follows the match. *)
Definition re_pwd_span (s : jsstring) : option jsstring :=
  match stripPrefix (lit "pwd=") s with
  | Some u =>
      match takeWhile (fun x => negb (x =? 38)) u with
      | [] => None
      | _ => Some (dropWhile (fun x => negb (x =? 38)) u)
      end
  | None => None
  end.

(** Line 58: [zoomUrl.replace(/pwd=[^&]+/, 'pwd=***')], the deep link as the
    console shows it; only the first match is replaced. *)
Fixpoint maskPassword (s : jsstring) : jsstring :=
  match re_pwd_span s with
  | Some rest => lit "pwd=***" ++ rest
  | None =>
      match s with
      | [] => []
      | c :: t => c :: maskPassword t
      end
  end.

(** Lines 58-60: the three lines [joinZoomMeeting] prints about the link it
    is going to open. *)
Definition deepLinkLog (meetingId password zoomUrl : jsstring) : list jsstring :=
  [lit "Generated Deep Link: " ++ maskPassword zoomUrl;
   lit "Meeting ID: " ++ meetingId;
   lit "Password: " ++ (if truthy password then lit "***" else lit "(none)")].

Definition quoted (s : jsstring) : jsstring := [34] ++ s ++ [34].
Definition squoted (s : jsstring) : jsstring := [39] ++ s ++ [39].

Section WithEnv.
Context {E : Env}.
Local Open Scope js_scope.

Definition joinZoomMeeting (config : rawConfig) : M jsstring :=
  emit (ECall JoinZoomMeeting) ;;
  match raw_zoom config with
  | None => throw (TypeError (lit "Cannot read properties of undefined (reading 'meetingLink')"))
  | Some zoom =>
  match rz_meetingLink zoom with
  | None => throw (TypeError (lit "Cannot read properties of undefined (reading 'match')"))
  | Some meetingLink =>
      prepared <- lift (prepareDeepLink zoom meetingLink) ;;
      let meetingId := fst prepared in
      let zoomUrl := snd prepared in
      try_catch
        (let cmd := lit "open " ++ quoted zoomUrl in
         _ <- call_val (EExec cmd) (fun h => exec h cmd) ;;
         sleep 3000)
        (fun error =>
           console Err (lit "Failed to open Zoom URL: " ++ err_message error) ;;
           throw error) ;;
      try_catch
        (h <- get_trace ;;
         let scriptPath :=
           path_join os_tmpdir (lit "zoom-join-" ++ date_now h ++ lit ".scpt") in
         call_unit (EWriteFile scriptPath joinScript)
                   (fun h => fs_writeFile h scriptPath joinScript) ;;
         try_finally
           (let cmd := lit "osascript " ++ quoted scriptPath in
            _ <- call_val (EExec cmd) (fun h => exec h cmd) ;;
            ret tt)
           (swallow (call_unit (EUnlink scriptPath)
                               (fun h => fs_unlink h scriptPath))))
        (fun error =>
           console Warn (lit "AppleScript automation had issues: " ++ err_message error) ;;
           console Warn (lit "  The meeting may have joined, but audio/video might not be muted.") ;;
           console Warn (lit "  Please ensure Terminal/Node has Accessibility permissions in System Settings.")) ;;
      ret meetingId
  end
  end.

(** One tick of the 5-second interval: [true] when the promise resolves. *)
Definition monitorTick : M bool :=
  try_catch
    (let cmd := lit "osascript -e " ++ squoted monitorScript in
     stdout <- call_val (EExec cmd) (fun h => exec h cmd) ;;
     if str_eqb (trim stdout) (lit "false") then
       console Log (lit "Zoom Meeting window closed. Ending recording...") ;;
       ret true
     else ret false)
    (fun _ =>
       console Log (lit "Zoom application closed. Ending recording...") ;;
       ret true).

(** The interval has no deadline: the fuel bounds the ticks observed. *)
Fixpoint monitorLoop (fuel : nat) : M jsstring :=
  match fuel with
  | O => pending
  | S n =>
      sleep 5000 ;;
      ended <- monitorTick ;;
      if ended then ret (lit "ended") else monitorLoop n
  end.

Definition monitorMeeting (fuel : nat) : M jsstring :=
  emit (ECall MonitorMeeting) ;;
  monitorLoop fuel.

Definition quitZoom : M unit :=
  emit (ECall QuitZoom) ;;
  try_catch
    (let cmd := lit "osascript -e " ++ squoted quitScript in
     _ <- call_val (EExec cmd) (fun h => exec h cmd) ;;
     sleep 1000)
    (fun _ =>
       console Warn (lit "AppleScript quit failed, trying alternative method...") ;;
       try_catch
         (let cmd := lit "killall " ++ quoted (lit "zoom.us") in
          _ <- call_val (EExec cmd) (fun h => exec h cmd) ;;
          ret tt)
         (fun killError =>
            console Warn (lit "Could not close Zoom: " ++ err_message killError) ;;
            console Warn (lit "  Zoom may already be closed or requires manual intervention."))).

End WithEnv.
End ZoomJoiner.

(* ===================================================================== *)
(** ** screenRecorder.js                                                   *)
(* ===================================================================== *)

Module ScreenRecorder.
Import ZoomJoiner.

Record settings := mkSettings {
  resolution : jsstring;
  bitrate : jsstring;
  framerate : Z;
}.

Definition high : settings := mkSettings (lit "1920x1080") (lit "5000k") 30.
Definition medium : settings := mkSettings (lit "1280x720") (lit "2500k") 30.
Definition low : settings := mkSettings (lit "854x480") (lit "1000k") 24.

(** The properties every object literal inherits from [Object.prototype]. *)
Definition objectPrototypeKeys : list jsstring :=
  map lit ["constructor"; "__defineGetter__"; "__defineSetter__";
           "hasOwnProperty"; "__lookupGetter__"; "__lookupSetter__";
           "isPrototypeOf"; "propertyIsEnumerable"; "toString"; "valueOf";
           "__proto__"; "toLocaleString"]%string.

(** The value of [qualitySettings[quality]]: an own preset, an inherited
    member of [Object.prototype] (a function or the prototype object, all
    truthy, none with a [resolution] or [framerate] property), or
    [undefined]. *)
Inductive property :=
| Own (s : settings)
| Inherited
| Undefined.

Definition qualitySettings (quality : jsstring) : property :=
  if str_eqb quality (lit "high") then Own high
  else if str_eqb quality (lit "medium") then Own medium
  else if str_eqb quality (lit "low") then Own low
  else if existsb (str_eqb quality) objectPrototypeKeys then Inherited
  else Undefined.

(** [qualitySettings[quality] || qualitySettings.high]; [None] is an
    inherited member, on which [settings.framerate] is [undefined]. *)
Definition selectSettings (quality : jsstring) : option settings :=
  match qualitySettings quality with
  | Own s => Some s
  | Inherited => None
  | Undefined => Some high
  end.

Definition ffmpegArgs (s : settings) (recordingPath : jsstring) : list jsstring :=
  [lit "-f"; lit "avfoundation";
   lit "-framerate"; Z_to_js (framerate s);
   lit "-video_size"; resolution s;
   lit "-i"; lit "1:0";
   lit "-c:v"; lit "libx264";
   lit "-preset"; lit "fast";
   lit "-crf"; lit "23";
   lit "-pix_fmt"; lit "yuv420p";
   lit "-c:a"; lit "aac";
   lit "-b:a"; lit "128k";
   lit "-movflags"; lit "+faststart";
   recordingPath].

Definition ENOENT : jsstring := lit "ENOENT".

Definition code_is (e : error) (c : jsstring) : bool :=
  match err_code e with
  | Some x => str_eqb x c
  | None => false
  end.

Section WithEnv.
Context {E : Env}.
Local Open Scope js_scope.

(** The handler attached to the child's [error] event (lines 70-77): it
    prints and returns. *)
Definition onSpawnError (error : error) : M unit :=
  if code_is error ENOENT then
    console Err (lit "FFmpeg not found. Please install FFmpeg:") ;;
    console Err (lit "  brew install ffmpeg")
  else
    console Err (lit "FFmpeg error: " ++ err_message error).

(** [quality] is [None] when the argument is [undefined], in which case the
    default parameter applies.  The filter on the child's stderr lines is
    left out.  The function returns the module variable it has just
    assigned, here the local [path]. *)
Definition startScreenRecording (outputDir : jsstring) (quality : option jsstring)
  : M jsstring :=
  emit (ECall StartScreenRecording) ;;
  let quality := match quality with Some q => q | None => lit "high" end in
  try_catch
    (call_unit (EMkdir outputDir) (fun h => fs_mkdir h outputDir) ;;
     h <- get_trace ;;
     let timestamp := replaceColonDot (date_iso h) in
     let path := path_join outputDir (lit "zoom-recording-" ++ timestamp ++ lit ".mp4") in
     set_recordingPath (Some path) ;;
     match selectSettings quality with
     | None =>
         throw (TypeError (lit "Cannot read properties of undefined (reading 'toString')"))
     | Some settings =>
         let args := ffmpegArgs settings path in
         h <- get_trace ;;
         emit (ESpawn (lit "ffmpeg") args) ;;
         match spawn h (lit "ffmpeg") args with
         | SpawnThrows e => throw e
         | Spawned asyncError =>
             let p := Proc (List.length h) in
             set_ffmpegProcess (Some p) ;;
             match asyncError with
             | Some e => emit (ESpawnError p e) ;; onSpawnError e
             | None => ret tt
             end ;;
             sleep 2000 ;;
             ret path
         end
     end)
    (fun error =>
       console Err (lit "Error starting screen recording: " ++ err_message error) ;;
       throw error).

Definition exit_ok (code : option Z) : bool :=
  match code with
  | None => true
  | Some c => c =? 0
  end.

(** The promise settles inside the [close] handler; [close_event] is [None]
    when that event never fires. *)
Definition stopScreenRecording : M (option jsstring) :=
  emit (ECall StopScreenRecording) ;;
  held <- get_ffmpegProcess ;;
  match held with
  | None =>
      console Log (lit "No active recording to stop") ;;
      ret None
  | Some p =>
      emit (EStdinWrite p (lit "q")) ;;
      emit (EStdinEnd p) ;;
      h <- get_trace ;;
      match close_event h p with
      | None => pending
      | Some code =>
          emit (EClose p code) ;;
          settled <-
            (if exit_ok code then
               rp <- get_recordingPath ;;
               try_catch
                 (_ <- call_val (EStat rp) (fun h => fs_stat h rp) ;;
                  rp <- get_recordingPath ;;
                  ret (inr rp))
                 (fun error =>
                    console Err (lit "Recording file not found") ;;
                    ret (inl error))
             else
               let msg := lit "FFmpeg exited with code " ++
                          match code with Some c => Z_to_js c | None => lit "null" end in
               console Err msg ;;
               ret (inl (Error msg))) ;;
          set_ffmpegProcess None ;;
          match settled with
          | inr v => ret v
          | inl e => throw e
          end
      end
  end.

Definition getRecordingPath : M (option jsstring) := get_recordingPath.

(** Lines 133-151.  [output] is what the [ps] child has written on its
    standard output when it closes.  The promise resolves at the first of
    the child's [error] and [close] events; a [spawn] that throws rejects
    it. *)
Definition isZoomRunning (output : jsstring) : M bool :=
  h <- get_trace ;;
  emit (ESpawn (lit "ps") [lit "aux"]) ;;
  match spawn h (lit "ps") [lit "aux"] with
  | SpawnThrows e => throw e
  | Spawned (Some e) =>
      emit (ESpawnError (Proc (List.length h)) e) ;;
      ret true
  | Spawned None =>
      h' <- get_trace ;;
      match close_event h' (Proc (List.length h)) with
      | None => pending
      | Some code =>
          emit (EClose (Proc (List.length h)) code) ;;
          ret (includes (lit "zoom") output || includes (lit "Zoom") output)
      end
  end.

End WithEnv.
End ScreenRecorder.

(* ===================================================================== *)
(** ** cloudUpload.js                                                      *)
(* ===================================================================== *)

Module CloudUpload.

Record location := mkLocation { webUrl : jsstring; shareLink : jsstring }.

Section WithEnv.
Context {E : Env}.
Local Open Scope js_scope.

Definition uploadToCloud (filePath : option jsstring) (provider : option jsstring)
                         (folderName : option jsstring) : M location :=
  emit (ECall UploadToCloud) ;;
  try_catch
    (call_unit (EAccess filePath) (fun h => fs_access h filePath) ;;
     if match provider with Some p => str_eqb p (lit "local") | None => false end
     then
       ret (mkLocation (lit "file://" ++ interp filePath)
                       (lit "file://" ++ interp filePath))
     else
       console Warn (lit "Provider '" ++
                     match provider with Some p => p | None => lit "undefined" end
                     ++ lit "' is no longer supported. Assuming local file.") ;;
       ret (mkLocation (lit "file://" ++ interp filePath)
                       (lit "file://" ++ interp filePath)))
    (fun error =>
       console Err (lit "File verification failed: " ++ err_message error) ;;
       throw error).

End WithEnv.
End CloudUpload.

(* ===================================================================== *)
(** ** configLoader.js                                                     *)
(* ===================================================================== *)

Module ConfigLoader.
Import ScreenRecorder.

Definition knownProviders : list jsstring :=
  map lit ["google-drive"; "onedrive"; "local"]%string.

(** Lines 50-61: the three validation tests, in order. *)
Definition validate (config : rawConfig) : option error :=
  if match raw_zoom config with
     | None => true
     | Some z => negb (truthy_opt (rz_meetingLink z))
                 || negb (truthy_opt (rz_displayName z))
     end
  then Some (Error (lit "Missing required zoom configuration (meetingLink, displayName)"))
  else if match raw_cloudStorage config with
          | None => true
          | Some c => negb (truthy_opt (rc_provider c))
          end
  then Some (Error (lit "Missing cloudStorage.provider configuration"))
  else if negb (existsb (str_eqb (match raw_cloudStorage config with
                                  | Some c => or_default (rc_provider c) []
                                  | None => []
                                  end)) knownProviders)
  then Some (Error (lit "cloudStorage.provider must be either " ++
                    [34] ++ lit "google-drive" ++ [34] ++ lit ", " ++
                    [34] ++ lit "onedrive" ++ [34] ++ lit ", or " ++
                    [34] ++ lit "local" ++ [34]))
  else None.

(** Lines 63-70: the defaults written into the document. *)
Definition applyDefaults (config : rawConfig) : rawConfig :=
  let recording :=
    match raw_recording config with Some r => r | None => mkRawRecording None None end in
  let ai :=
    match raw_ai config with Some a => a | None => mkRawAi None None end in
  mkRawConfig
    (raw_zoom config)
    (raw_cloudStorage config)
    (Some (mkRawRecording
             (Some (or_default (rr_outputDir recording) (lit "./recordings")))
             (Some (or_default (rr_quality recording) (lit "high")))))
    (Some (mkRawAi
             (Some (or_default (ra_transcriptionModel ai) (lit "whisper-1")))
             (Some (or_default (ra_summaryModel ai) (lit "gpt-4")))))
    (raw_schedule config).

Section WithEnv.
Context {E : Env}.
Local Open Scope js_scope.

Definition loadConfig : M rawConfig :=
  emit (ECall LoadConfig) ;;
  try_catch
    (configData <- call_val (EReadFile CONFIG_PATH) (fun h => fs_readFile h CONFIG_PATH) ;;
     config <- lift (json_parse configData) ;;
     match validate config with
     | Some e => throw e
     | None => ret (applyDefaults config)
     end)
    (fun error =>
       (if code_is error ENOENT then
          console Err (lit "Configuration file not found at: " ++ CONFIG_PATH) ;;
          console Err (lit "Please copy config.json.example to config.json and fill in your details")
        else
          console Err (lit "Error loading configuration: " ++ err_message error)) ;;
       throw error).

End WithEnv.
End ConfigLoader.

(* ===================================================================== *)
(** ** transcription.js                                                    *)
(* ===================================================================== *)

Module Transcription.

Record transcriptResult := mkTranscriptResult {
  transcript : jsstring;
  filePath : jsstring;
}.

Definition defaultModel : jsstring := lit "gemini-1.5-flash-8b".

Definition transcriptPrompt : jsstring :=
  lit "Generate a timestamped transcript of this audio. Format it with [MM:SS] timestamps.".

Section WithEnv.
Context {E : Env}.
Local Open Scope js_scope.

(** Lines 17-37.  The command is built and run inside the executor of the
    promise: for a null path the constructor [ffmpeg(videoPath)] throws
    there, before the [error] listener exists, so the promise rejects and
    nothing is run or printed; for a path, a failure of the run reaches the
    listener, which prints it and rejects. *)
Definition extractAudio (videoPath : option jsstring) (outputDir : jsstring)
  : M jsstring :=
  h <- get_trace ;;
  let audioPath := path_join outputDir (lit "audio-" ++ date_now h ++ lit ".mp3") in
  match videoPath with
  | None => throw ffmpeg_null
  | Some _ =>
      try_catch
        (call_unit (EExtractAudio videoPath audioPath)
                   (fun h => ffmpeg_run h videoPath audioPath) ;;
         ret audioPath)
        (fun error =>
           console Err (lit "Error extracting audio: " ++ err_message error) ;;
           throw error)
  end.

(** Lines 69-74: [getFile], then again every two seconds while the state is
    [PROCESSING]; the loop has no bound, the fuel counts the polls. *)
Fixpoint pollFile (fuel : nat) (name : jsstring) : M jsstring :=
  match fuel with
  | O => pending
  | S n =>
      state <- call_val (EGetFile name) (fun h => gemini_getFile h name) ;;
      if str_eqb state (lit "PROCESSING")
      then sleep 2000 ;; pollFile n name
      else ret state
  end.

Definition unlinkAudio (audioPath : jsstring) : M unit :=
  swallow (call_unit (EUnlink audioPath) (fun h => fs_unlink h audioPath)).

(** Lines 57-112: the body of the inner [try]. *)
Definition transcribeAudio (fuel : nat) (audioPath outputDir modelName : jsstring)
  : M transcriptResult :=
  uploadResult <-
    call_val (EUploadFile audioPath (lit "audio/mp3") (path_basename audioPath))
             (fun h => gemini_uploadFile h audioPath) ;;
  state <- pollFile fuel (rf_name uploadResult) ;;
  (if str_eqb state (lit "FAILED")
   then throw (Error (lit "Gemini file processing failed"))
   else ret tt) ;;
  response <-
    call_val (EGenerateContent modelName (Some (rf_uri uploadResult)) transcriptPrompt)
             (fun h => gemini_generate h modelName (Some (rf_uri uploadResult))
                                       transcriptPrompt) ;;
  transcriptText <- lift response ;;
  unlinkAudio audioPath ;;
  h <- get_trace ;;
  let transcriptPath :=
    path_join outputDir (lit "transcript-" ++ date_now h ++ lit ".txt") in
  call_unit (EWriteFile transcriptPath transcriptText)
            (fun h => fs_writeFile h transcriptPath transcriptText) ;;
  ret (mkTranscriptResult transcriptText transcriptPath).

Definition transcribeVideo (fuel : nat) (videoPath : option jsstring)
                           (outputDir : jsstring) (modelName : option jsstring)
  : M transcriptResult :=
  emit (ECall TranscribeVideo) ;;
  let modelName := match modelName with Some m => m | None => defaultModel end in
  try_catch
    ((if truthy_opt GEMINI_API_KEY then ret tt
      else throw (Error (lit "GEMINI_API_KEY not found in environment variables"))) ;;
     audioPath <- extractAudio videoPath outputDir ;;
     try_catch
       (transcribeAudio fuel audioPath outputDir modelName)
       (fun error =>
          unlinkAudio audioPath ;;
          throw error))
    (fun error =>
       console Err (lit "Transcription error: " ++ err_message error) ;;
       throw error).

End WithEnv.
End Transcription.

(* ===================================================================== *)
(** ** summary.js                                                          *)
(* ===================================================================== *)

Module Summary.

(** The argument of [generateSummary]: a string, or an object with optional
    [transcript] and [text] fields; [json] is its [JSON.stringify]. *)
Inductive transcriptArg :=
| TString (s : jsstring)
| TObject (transcript text : option jsstring) (json : jsstring).

Definition transcriptTextOf (t : transcriptArg) : jsstring :=
  match t with
  | TString s => s
  | TObject transcript text json =>
      if truthy_opt transcript then or_default transcript []
      else if truthy_opt text then or_default text []
      else json
  end.

Definition unlines (ls : list jsstring) : jsstring :=
  flat_map (fun l => l ++ [10]) ls.

(** The fixed part of the template literal, up to and including the line
    break after [Transcript:]. *)
Definition promptHeader : jsstring :=
  unlines
    [lit "Please analyze the following meeting transcript and provide a comprehensive summary. Structure your response as follows:";
     [];
     lit "## Meeting Summary";
     [];
     lit "### Key Points";
     lit "[List the main topics and key points discussed]";
     [];
     lit "### Decisions Made";
     lit "[List any decisions or conclusions reached]";
     [];
     lit "### Action Items";
     lit "[List any action items, tasks, or follow-ups mentioned, including who is responsible if mentioned]";
     [];
     lit "### Important Details";
     lit "[Any other important information, dates, deadlines, or context]";
     [];
     lit "### Participants Mentioned";
     lit "[List any participants or stakeholders mentioned]";
     [];
     lit "---";
     [];
     lit "Transcript:"].

Definition truncationMarker : jsstring :=
  [10; 10] ++ lit "[Transcript truncated for length]".

(** Line 210: the transcript part of the prompt. *)
Definition promptBody (transcriptText : jsstring) : jsstring :=
  substring0 30000 transcriptText ++
  (if 30000 <? jslength transcriptText then truncationMarker else []).

Definition buildPrompt (transcriptText : jsstring) : jsstring :=
  promptHeader ++ promptBody transcriptText.

Record summaryResult := mkSummaryResult {
  summary : jsstring;
  filePath : jsstring;
}.

Definition defaultModel : jsstring := lit "gemini-1.5-flash-8b".

Section WithEnv.
Context {E : Env}.
Local Open Scope js_scope.

Definition generateSummary (transcript : transcriptArg) (outputDir : jsstring)
                           (modelName : option jsstring) : M summaryResult :=
  emit (ECall GenerateSummary) ;;
  let modelName := match modelName with Some m => m | None => defaultModel end in
  try_catch
    ((if truthy_opt GEMINI_API_KEY then ret tt
      else throw (Error (lit "GEMINI_API_KEY not found in environment variables"))) ;;
     let transcriptText := transcriptTextOf transcript in
     let prompt := buildPrompt transcriptText in
     response <-
       call_val (EGenerateContent modelName None prompt)
                (fun h => gemini_generate h modelName None prompt) ;;
     summary <- lift response ;;
     h <- get_trace ;;
     let summaryPath := path_join outputDir (lit "summary-" ++ date_now h ++ lit ".md") in
     call_unit (EWriteFile summaryPath summary)
               (fun h => fs_writeFile h summaryPath summary) ;;
     ret (mkSummaryResult summary summaryPath))
    (fun error =>
       console Err (lit "Summary generation error: " ++ err_message error) ;;
       throw error).

End WithEnv.
End Summary.

(* ===================================================================== *)
(** ** index.js                                                            *)
(* ===================================================================== *)

Module Index.
Import ZoomJoiner ScreenRecorder CloudUpload ConfigLoader.

Definition undefinedProperty (name : string) : error :=
  TypeError (lit "Cannot read properties of undefined (reading '" ++ lit name ++ lit "')").

Definition section {A} (v : option A) (name : string) : error + A :=
  match v with
  | Some a => inr a
  | None => inl (undefinedProperty name)
  end.

Section WithEnv.
Context {E : Env}.
Local Open Scope js_scope.

(** Lines 58-69: the verification step and its own [catch]. *)
Definition verifyRecording (config : rawConfig) (recordingPath : option jsstring)
  : M unit :=
  try_catch
    (cloudStorage <- lift (section (raw_cloudStorage config) "provider") ;;
     uploadResult <- uploadToCloud recordingPath (rc_provider cloudStorage)
                                   (rc_folderName cloudStorage) ;;
     console Log (lit "Recording verified: " ++ webUrl uploadResult))
    (fun uploadError =>
       console Err (lit "Recording verification failed, but continuing...") ;;
       console Err (lit "  Error: " ++ err_message uploadError)).

(** Lines 90-93: the [catch] of the post-processing step.  The locals
    [transcriptPath] and [summaryPath] keep the values they had when the
    error was thrown; [summaryPath] is assigned last, so it is still null. *)
Definition onTranscriptionError (transcriptPath : option jsstring)
                                (transcriptionError : error)
  : M (option jsstring * option jsstring) :=
  console Err (lit "Transcription failed:") ;;
  console Err (lit "  Error: " ++ err_message transcriptionError) ;;
  ret (transcriptPath, None).

(** Lines 71-93: transcription, then the summary; the result is the pair
    of locals ([transcriptPath], [summaryPath]). *)
Definition postProcess (fuel : nat) (config : rawConfig)
                       (recordingPath : option jsstring) (transcriptsDir : jsstring)
  : M (option jsstring * option jsstring) :=
  try_catch
    (ai <- lift (section (raw_ai config) "transcriptionModel") ;;
     transcriptResult <-
       Transcription.transcribeVideo fuel recordingPath transcriptsDir
                                     (ra_transcriptionModel ai) ;;
     let transcriptPath := Some (Transcription.filePath transcriptResult) in
     try_catch
       (summaryResult <-
          Summary.generateSummary
            (Summary.TString (Transcription.transcript transcriptResult))
            transcriptsDir (ra_summaryModel ai) ;;
        ret (transcriptPath, Some (Summary.filePath summaryResult)))
       (onTranscriptionError transcriptPath))
    (onTranscriptionError None).

(** Lines 95-109: the final report. *)
Definition finalReport (recordingPath transcriptPath summaryPath : option jsstring)
  : M unit :=
  console Log (lit "Files generated:") ;;
  (if truthy_opt recordingPath
   then console Log (lit "  Recording: " ++ interp recordingPath) else ret tt) ;;
  (if truthy_opt transcriptPath
   then console Log (lit "  Transcript: " ++ interp transcriptPath) else ret tt) ;;
  (if truthy_opt summaryPath
   then console Log (lit "  Summary: " ++ interp summaryPath) else ret tt).

(** Lines 71-109. *)
Definition postProcessAndReport (fuel : nat) (config : rawConfig)
                                (recordingPath : option jsstring)
                                (transcriptsDir : jsstring) : M unit :=
  paths <- postProcess fuel config recordingPath transcriptsDir ;;
  finalReport recordingPath (fst paths) (snd paths).

(** Lines 111-126: the [catch] of the session, for the value the local
    [recordingPath] has when the error is thrown.  The stack-trace line is
    left out. *)
Definition onSessionError (recordingPath : option jsstring) (error : error)
  : M unit :=
  console Err (lit "Session error: " ++ err_message error) ;;
  try_catch
    (if truthy_opt recordingPath then
       recording <- getRecordingPath ;;
       if truthy_opt recording
       then swallow (_ <- stopScreenRecording ;; ret tt)
       else ret tt
     else ret tt)
    (fun cleanupError =>
       console Err (lit "Cleanup error: " ++ err_message cleanupError)).

(** The single [try] of the source is written as three nested ones, one
    for each value of the local [recordingPath]: null until the recorder
    has started, the started path until the recorder has stopped, the
    stopped path afterwards.  [onSessionError] never throws, so no error
    is handled twice.  An absent [outputDir] makes [path.join] throw, which
    [section] stands for as well. *)
Definition runRecordingSession (fuel : nat) (config : rawConfig) : M unit :=
  emit (ECall RunRecordingSession) ;;
  try_catch
    (recording <- lift (section (raw_recording config) "outputDir") ;;
     outputDir <- lift (section (rr_outputDir recording) "outputDir") ;;
     let transcriptsDir := path_join outputDir (lit "../transcripts") in
     call_unit (EMkdir outputDir) (fun h => fs_mkdir h outputDir) ;;
     call_unit (EMkdir transcriptsDir) (fun h => fs_mkdir h transcriptsDir) ;;
     _ <- joinZoomMeeting config ;;
     started <- startScreenRecording outputDir (rr_quality recording) ;;
     try_catch
       (_ <- monitorMeeting fuel ;;
        sleep 2000 ;;
        stopped <- stopScreenRecording ;;
        try_catch
          (quitZoom ;;
           verifyRecording config stopped ;;
           postProcessAndReport fuel config stopped transcriptsDir)
          (onSessionError stopped))
       (onSessionError (Some started)))
    (onSessionError None).

Definition process_exit (code : Z) : M (option Z) :=
  emit (EExit code) ;;
  ret (Some code).

Definition scheduleEnabled (config : rawConfig) : bool :=
  match raw_schedule config with
  | Some s => rs_enabled s
  | None => false
  end.

(** The callback registered with [cron.schedule]. *)
Definition onSchedule (fuel : nat) (config : rawConfig) : M unit :=
  runRecordingSession fuel config.

(** The result is the exit code, or [None] when the process stays alive
    waiting for the schedule.  Line 166 hands the error object itself to
    [console.error], which prints its rendering, not its message. *)
Definition main (fuel : nat) : M (option Z) :=
  try_catch
    (config <- loadConfig ;;
     if argv_now then
       runRecordingSession fuel config ;;
       process_exit 0
     else if scheduleEnabled config then
       let cronExpression :=
         match raw_schedule config with
         | Some s => rs_cronExpression s
         | None => None
         end in
       let timezone :=
         match raw_schedule config with
         | Some s => rs_timezone s
         | None => None
         end in
       match cron_schedule cronExpression timezone with
       | Some e => throw e
       | None => emit (ESchedule cronExpression timezone) ;; ret None
       end
     else
       runRecordingSession fuel config ;;
       process_exit 0)
    (fun error =>
       console Err (lit "Fatal error: " ++ inspect error) ;;
       process_exit 1).

(** Lines 172-183: the handler of the interrupt signal, run from the state
    the signal finds. *)
Definition onSigint : M (option Z) :=
  try_catch
    (recording <- getRecordingPath ;;
     if truthy_opt recording
     then _ <- stopScreenRecording ;; ret tt
     else ret tt)
    (fun error =>
       console Err (lit "Error during cleanup: " ++ err_message error)) ;;
  process_exit 0.

End WithEnv.
End Index.

(* ===================================================================== *)
(** ** Vocabulary of the statements                                        *)
(* ===================================================================== *)

Import ZoomJoiner ScreenRecorder CloudUpload ConfigLoader Transcription Summary Index.

Definition digitHead (s : jsstring) : bool :=
  match s with c :: _ => isDigit c | [] => false end.

Definition occurs_j_digit (s : jsstring) : Prop :=
  exists p d q, isDigit d = true /\ s = p ++ lit "/j/" ++ d :: q.

Definition occurs_9_digits (s : jsstring) : Prop :=
  exists p r q, s = p ++ r ++ q /\ List.length r = 9%nat /\ forallb isDigit r = true.

Definition digitLast (s : jsstring) : bool := digitHead (rev s).


(** End of the string, or an ampersand. *)
Definition ampHead (s : jsstring) : bool :=
  match s with c :: _ => c =? 38 | [] => true end.

Definition notAmp (c : codeunit) : bool := negb (c =? 38).

Definition uriSafe (c : codeunit) : bool := uriUnreserved c || (c =? 37).

Definition notP (c : codeunit) : bool := negb (c =? 112).

(** Every event a computation adds to the trace satisfies [P]. *)
Definition emits {A} (P : event -> Prop) (c : M A) : Prop :=
  forall w r w', c w = (r, w') ->
  exists evs, trace w' = trace w ++ evs /\ Forall P evs.

(** The trace only grows. *)
Definition anyEvent (e : event) : Prop := True.

Definition notSummaryCall (e : event) : Prop := e <> ECall GenerateSummary.

Definition no_throw {A} (c : M A) : Prop :=
  forall w e w', c w <> (Throw e, w').

(** A computation that leaves the recorder's module variables alone. *)
Definition frames {A} (c : M A) : Prop :=
  forall w r w', c w = (r, w') ->
  ffmpegProcess w' = ffmpegProcess w /\ recordingPath w' = recordingPath w.

(** [k] copies of a group of events. *)
Definition rounds (k : nat) (evs : list event) : list event :=
  List.concat (repeat evs k).

(** The command line of the window query of [monitorMeeting]. *)
Definition monitorCmd {E : Env} : jsstring :=
  lit "osascript -e " ++ squoted monitorScript.

(** The window is still there at the tick that runs after history [h]. *)
Definition windowOpen {E : Env} (h : list event) : Prop :=
  exists out, exec (h ++ [ESleep 5000]) monitorCmd = inr out
              /\ trim out <> lit "false".

(** The window is gone, or the query fails. *)
Definition windowGone {E : Env} (h : list event) (line : jsstring) : Prop :=
  (exists out, exec (h ++ [ESleep 5000]) monitorCmd = inr out
               /\ trim out = lit "false"
               /\ line = lit "Zoom Meeting window closed. Ending recording...")
  \/ (exists e, exec (h ++ [ESleep 5000]) monitorCmd = inl e
                /\ line = lit "Zoom application closed. Ending recording...").

(** The code units a deep link is made of: the unreserved set, the percent
    sign, and the separators [: / ? = &]. *)
Definition linkChar (c : codeunit) : bool :=
  uriSafe c || (c =? 58) || (c =? 47) || (c =? 63) || (c =? 61) || (c =? 38).

(** What the shell treats specially between double quotes, and white
    space. *)
Definition shellSpecial (c : codeunit) : bool :=
  (c =? 34) || (c =? 36) || (c =? 96) || (c =? 92) || (c =? 32)
  || (c =? 9) || (c =? 10) || (c =? 13).

(** An event that is no call marker, or the marker of a listed function. *)
Definition callsOnly (allowed : list stage) (e : event) : Prop :=
  match e with
  | ECall f => In f allowed
  | _ => True
  end.

(** What the session can rely on in a configuration: the sections and the
    fields it reads are there and non-empty. *)
Definition loaded (config : rawConfig) : Prop :=
  exists z c r a link name provider dir quality tmodel smodel,
    raw_zoom config = Some z
    /\ rz_meetingLink z = Some link /\ link <> []
    /\ rz_displayName z = Some name /\ name <> []
    /\ raw_cloudStorage config = Some c
    /\ rc_provider c = Some provider /\ In provider knownProviders
    /\ raw_recording config = Some r
    /\ rr_outputDir r = Some dir /\ dir <> []
    /\ rr_quality r = Some quality /\ quality <> []
    /\ raw_ai config = Some a
    /\ ra_transcriptionModel a = Some tmodel /\ tmodel <> []
    /\ ra_summaryModel a = Some smodel /\ smodel <> [].

(** The stages a session calls. *)
Definition sessionStages : list stage :=
  [JoinZoomMeeting; StartScreenRecording; MonitorMeeting; StopScreenRecording;
   QuitZoom; UploadToCloud; TranscribeVideo; GenerateSummary].

(** An event of the inside of a session: a call marker of one of its
    stages, or any event that is no marker, no registration with the
    scheduler and no exit. *)
Definition insideSession (e : event) : Prop :=
  match e with
  | ECall f => In f sessionStages
  | ESchedule _ _ => False
  | EExit _ => False
  | _ => True
  end.

(** An event that leaves a running encoder alone: no write on its standard
    input, no end of that input, no close. *)
Definition noStopEvent (e : event) : Prop :=
  match e with
  | EStdinWrite _ _ | EStdinEnd _ | EClose _ _ => False
  | _ => True
  end.

(** A colon or a full stop. *)
Definition colonOrDot (c : codeunit) : bool := (c =? 58) || (c =? 46).


(** One poll of the processing state followed by the two-second wait. *)
Definition pollRound (name : jsstring) : list event :=
  [EGetFile name; ESleep 2000].

(** The password in use and the display name can be percent-encoded: they
    hold no lone surrogate. *)
Definition encodable (zoom : rawZoom) (link : jsstring) : Prop :=
  encodeURIComponent (extractPassword (rz_password zoom) link) <> None
  /\ encodeURIComponent (or_default (rz_displayName zoom) (lit "Zoom Recorder")) <> None.

(** [joinZoomMeeting] goes on with the identifier [id]: the first thing it
    does is to open a deep link whose [confno] parameter is [id], and it
    returns [id] when the opener succeeds. *)
Definition opensMeeting {E : Env} (config : rawConfig) (w : World) (id : jsstring)
  : Prop :=
  exists tail evs,
    let cmd := lit "open " ++
               quoted (lit "zoommtg://zoom.us/join?confno=" ++ id ++ 38 :: tail) in
    trace (snd (joinZoomMeeting config w)) =
      trace w ++ ECall JoinZoomMeeting :: EExec cmd :: evs
    /\ (forall out, exec (trace w ++ [ECall JoinZoomMeeting]) cmd = inr out ->
        fst (joinZoomMeeting config w) = Ok id).

(** An event that is no call of [spawn]: neither the encoder nor [ps] is
    started. *)
Definition noSpawn (e : event) : Prop :=
  match e with ESpawn _ _ => False | _ => True end.

(* ===================================================================== *)
(** ** Sample environments                                                 *)
(* ===================================================================== *)

(** A sample environment: every call succeeds unless the arguments say
    otherwise. *)
Record scenario := mkScenario {
  sc_config : error + rawConfig;
  sc_now : bool;
  sc_apiKey : option jsstring;
  sc_open : option error;
  sc_spawn : spawnOutcome;
  sc_close : option (option Z);
  sc_stat : error + Z;
  sc_access : option error;
  sc_upload : error + remoteFile;
  sc_state : jsstring;
  sc_generate : error + (error + jsstring);
}.

Definition nullInput : error :=
  TypeError (lit "Cannot use 'in' operator to search for 'readable' in null").

Definition sampleEnv (s : scenario) : Env := {|
  path_join := fun a b => a ++ lit "/" ++ b;
  path_basename := fun p => p;
  os_tmpdir := lit "/tmp";
  CONFIG_PATH := lit "config/config.json";
  joinScript := lit "tell application System Events";
  monitorScript := lit "tell application System Events";
  quitScript := lit "tell application zoom.us to quit";
  argv_now := sc_now s;
  GEMINI_API_KEY := sc_apiKey s;
  date_iso := fun _ => lit "2024-05-01T10:00:00.000Z";
  date_now := fun _ => lit "1714557600000";
  fs_readFile := fun _ _ =>
    match sc_config s with inl e => inl e | inr _ => inr (lit "{}") end;
  json_parse := fun _ =>
    match sc_config s with inl e => inl e | inr c => inr c end;
  fs_mkdir := fun _ _ => None;
  fs_writeFile := fun _ _ _ => None;
  fs_unlink := fun _ _ => None;
  fs_access := fun _ _ => sc_access s;
  fs_stat := fun _ _ => sc_stat s;
  exec := fun _ cmd =>
    if includes (lit "open ") cmd then
      match sc_open s with Some e => inl e | None => inr [] end
    else inr (lit "false");
  spawn := fun _ _ _ => sc_spawn s;
  close_event := fun _ _ => sc_close s;
  ffmpeg_run := fun _ video _ =>
    match video with Some _ => None | None => Some nullInput end;
  ffmpeg_null := nullInput;
  gemini_uploadFile := fun _ _ => sc_upload s;
  gemini_getFile := fun _ _ => inr (sc_state s);
  gemini_generate := fun _ _ _ _ => sc_generate s;
  cron_schedule := fun _ _ => None;
  inspect := fun e => lit "Error: " ++ err_message e;
  path_join_truthy := fun a b =>
    match a as a0 return truthy (a0 ++ lit "/" ++ b) = true with
    | [] => eq_refl
    | _ :: _ => eq_refl
    end;
  ffmpeg_run_null := fun _ _ => eq_refl;
|}.

Definition sampleConfig (link : jsstring) (password : option jsstring) : rawConfig :=
  mkRawConfig
    (Some (mkRawZoom (Some link) password (Some (lit "Recorder Bot"))))
    (Some (mkRawCloud (Some (lit "local")) (Some (lit "Zoom Recordings"))))
    (Some (mkRawRecording (Some (lit "/data/recordings")) (Some (lit "medium"))))
    (Some (mkRawAi (Some (lit "gemini-1.5-flash")) (Some (lit "gemini-1.5-flash"))))
    (Some (mkRawSchedule false None None)).

Definition sampleFile : remoteFile :=
  mkRemoteFile (lit "files/abc") (lit "https://files/abc") (lit "audio/mp3").

Definition happy : scenario :=
  mkScenario (inr (sampleConfig (lit "https://zoom.us/j/123456789?pwd=abc") None))
             true (Some (lit "key")) None (Spawned None) (Some (Some 0)) (inr 1048576)
             None (inr sampleFile) (lit "ACTIVE") (inr (inr (lit "[00:01] hello"))).

Definition w0 : World := mkWorld [] None None.


Definition enoent : error := mkError (Some (lit "ENOENT")) (lit "spawn ffmpeg ENOENT").

(** The encoder binary is not installed. *)
Definition missingBinary : scenario :=
  mkScenario (sc_config happy) true (Some (lit "key")) None
             (Spawned (Some enoent)) None (inl enoent)
             None (inr sampleFile) (lit "ACTIVE") (inr (inr (lit "[00:01] hello"))).

(** The configuration file has no meeting link. *)
Definition noLink : scenario :=
  mkScenario (inr (mkRawConfig
                     (Some (mkRawZoom None None (Some (lit "Recorder Bot"))))
                     (Some (mkRawCloud (Some (lit "local")) None)) None None None))
             true (Some (lit "key")) None (Spawned None) (Some (Some 0)) (inr 1048576)
             None (inr sampleFile) (lit "ACTIVE") (inr (inr (lit "[00:01] hello"))).

(** The upload to the inference service is refused. *)
Definition uploadRefused : scenario :=
  mkScenario (sc_config happy) true (Some (lit "key")) None (Spawned None)
             (Some (Some 0)) (inr 1048576) None
             (inl (Error (lit "403 Forbidden"))) (lit "ACTIVE")
             (inr (inr (lit "[00:01] hello"))).

Definition withPassword : rawZoom :=
  mkRawZoom (Some (lit "https://zoom.us/j/123456789?pwd=fromlink"))
            (Some (lit "s3cret&x")) (Some (lit "Recorder Bot")).
Definition withoutPassword : rawZoom :=
  mkRawZoom (Some (lit "https://zoom.us/j/123456789")) None (Some (lit "Recorder Bot")).

Definition recordedFile : jsstring :=
  lit "/data/recordings/zoom-recording-2024-05-01T10-00-00-000Z.mp4".

(** The number of ticks of the monitor and of polls of the file state a
    history holds. *)
Definition ticksIn (h : list event) : nat :=
  List.length (filter (fun e => match e with ESleep 5000 => true | _ => false end) h).

Definition pollsIn (h : list event) : nat :=
  List.length (filter (fun e => match e with EGetFile _ => true | _ => false end) h).

(** A sample environment in which the meeting window is still there at the
    first [ticks] checks and the uploaded file still processing at the
    first [polls] polls; the rest is as in [sampleEnv]. *)
Definition timedEnv (s : scenario) (ticks polls : nat) : Env := {|
  path_join := @path_join (sampleEnv s);
  path_basename := @path_basename (sampleEnv s);
  os_tmpdir := @os_tmpdir (sampleEnv s);
  CONFIG_PATH := @CONFIG_PATH (sampleEnv s);
  joinScript := @joinScript (sampleEnv s);
  monitorScript := @monitorScript (sampleEnv s);
  quitScript := @quitScript (sampleEnv s);
  argv_now := @argv_now (sampleEnv s);
  GEMINI_API_KEY := @GEMINI_API_KEY (sampleEnv s);
  date_iso := @date_iso (sampleEnv s);
  date_now := @date_now (sampleEnv s);
  fs_readFile := @fs_readFile (sampleEnv s);
  json_parse := @json_parse (sampleEnv s);
  fs_mkdir := @fs_mkdir (sampleEnv s);
  fs_writeFile := @fs_writeFile (sampleEnv s);
  fs_unlink := @fs_unlink (sampleEnv s);
  fs_access := @fs_access (sampleEnv s);
  fs_stat := @fs_stat (sampleEnv s);
  exec := fun h cmd =>
    if includes (lit "open ") cmd then @exec (sampleEnv s) h cmd
    else if (ticksIn h <=? ticks)%nat then inr (lit "true" ++ [10])
    else inr (lit "false" ++ [10]);
  spawn := @spawn (sampleEnv s);
  close_event := @close_event (sampleEnv s);
  ffmpeg_run := @ffmpeg_run (sampleEnv s);
  ffmpeg_null := @ffmpeg_null (sampleEnv s);
  gemini_uploadFile := @gemini_uploadFile (sampleEnv s);
  gemini_getFile := fun h name =>
    if (pollsIn h <? polls)%nat then inr (lit "PROCESSING")
    else @gemini_getFile (sampleEnv s) h name;
  gemini_generate := @gemini_generate (sampleEnv s);
  cron_schedule := @cron_schedule (sampleEnv s);
  inspect := @inspect (sampleEnv s);
  path_join_truthy := @path_join_truthy (sampleEnv s);
  ffmpeg_run_null := @ffmpeg_run_null (sampleEnv s);
|}.



(** The opener refuses the deep link. *)
Definition openRefused : scenario :=
  mkScenario (sc_config happy) true (Some (lit "key"))
             (Some (Error (lit "LSOpenURLsWithRole() failed")))
             (Spawned None) (Some (Some 0)) (inr 1048576)
             None (inr sampleFile) (lit "ACTIVE") (inr (inr (lit "[00:01] hello"))).

(** The encoder exits with code 1. *)
Definition encoderCrashed : scenario :=
  mkScenario (sc_config happy) true (Some (lit "key")) None
             (Spawned None) (Some (Some 1)) (inr 1048576)
             None (inr sampleFile) (lit "ACTIVE") (inr (inr (lit "[00:01] hello"))).

(** A schedule is enabled and the [--now] flag is not given. *)
Definition scheduledConfig : rawConfig :=
  mkRawConfig
    (Some (mkRawZoom (Some (lit "https://zoom.us/j/123456789")) None
                     (Some (lit "Recorder Bot"))))
    (Some (mkRawCloud (Some (lit "local")) None))
    None None
    (Some (mkRawSchedule true (Some (lit "0 9 * * 1-5")) (Some (lit "Europe/Paris")))).

Definition scheduled : scenario :=
  mkScenario (inr scheduledConfig) false (Some (lit "key")) None
             (Spawned None) (Some (Some 0)) (inr 1048576)
             None (inr sampleFile) (lit "ACTIVE") (inr (inr (lit "[00:01] hello"))).

Definition sampleDir : jsstring := lit "/data/recordings".

Definition happyConfig : rawConfig :=
  applyDefaults (sampleConfig (lit "https://zoom.us/j/123456789?pwd=abc") None).

(* ===================================================================== *)
(** ** Regular expressions: first match                                    *)
(* ===================================================================== *)

Lemma search_here {A} (m : jsstring -> option A) s r :
  m s = Some r -> search m s = Some r.
Proof. intros H. destruct s; simpl; rewrite H; reflexivity. Qed.

Lemma search_skip {A} (m : jsstring -> option A) c s :
  m (c :: s) = None -> search m (c :: s) = search m s.
Proof. intros H. simpl. rewrite H. reflexivity. Qed.

Lemma search_none_iff {A} (m : jsstring -> option A) s :
  search m s = None <-> (forall p q, s = p ++ q -> m q = None).
Proof.
  induction s as [|c s IH].
  - simpl. split.
    + intros H p q Hpq. symmetry in Hpq. apply app_eq_nil in Hpq as [_ ->].
      destruct (m []); [discriminate|reflexivity].
    + intros H. rewrite (H [] [] eq_refl). reflexivity.
  - split.
    + intros H p q Hpq. simpl in H.
      destruct (m (c :: s)) eqn:Hm; [discriminate|].
      destruct p as [|c' p]; simpl in Hpq.
      * subst q. exact Hm.
      * injection Hpq as _ Hs. apply (proj1 IH H p q Hs).
    + intros H. rewrite search_skip by (apply (H []); reflexivity).
      apply IH. intros p q Hpq. apply (H (c :: p)). simpl. now f_equal.
Qed.

Lemma search_app {A} (m : jsstring -> option A) pre s :
  (forall p q, pre = p ++ q -> q <> [] -> m (q ++ s) = None) ->
  search m (pre ++ s) = search m s.
Proof.
  induction pre as [|c pre IH]; intros H; [reflexivity|].
  simpl app. rewrite search_skip.
  - apply IH. intros p q Hpq Hq. apply (H (c :: p)); [simpl; now f_equal|exact Hq].
  - apply (H [] (c :: pre)); [reflexivity|discriminate].
Qed.

Lemma takeWhile_app f a b :
  forallb f a = true -> takeWhile f (a ++ b) = a ++ takeWhile f b.
Proof.
  induction a as [|x a IH]; simpl; intros H; [reflexivity|].
  apply andb_prop in H as [Hx Ha]. rewrite Hx, IH by assumption. reflexivity.
Qed.

Lemma takeWhile_stop f s :
  match s with c :: _ => f c | [] => false end = false -> takeWhile f s = [].
Proof. destruct s; simpl; intros H; [reflexivity|now rewrite H]. Qed.

Lemma takeWhile_forallb f s : forallb f (takeWhile f s) = true.
Proof.
  induction s as [|c s IH]; simpl; [reflexivity|].
  destruct (f c) eqn:Hc; simpl; [now rewrite Hc|reflexivity].
Qed.

Lemma takeWhile_split f s :
  exists t, s = takeWhile f s ++ t /\ match t with c :: _ => f c | [] => false end = false.
Proof.
  induction s as [|c s [t [Hs Ht]]]; simpl.
  - exists []. split; reflexivity.
  - destruct (f c) eqn:Hc.
    + exists t. split; [simpl; now f_equal|exact Ht].
    + exists (c :: s). split; [reflexivity|exact Hc].
Qed.

(** The anchored matchers, characterised. *)
Lemma stripPrefix_some p s t :
  stripPrefix p s = Some t <-> s = p ++ t.
Proof.
  revert s. induction p as [|a p IH]; intros s; simpl.
  - split; [intros [= ->]; reflexivity|intros ->; reflexivity].
  - destruct s as [|c s]; [split; discriminate|].
    destruct (Z.eqb_spec a c) as [->|Hne].
    + rewrite IH. split; [intros ->; reflexivity|intros [= ->]; reflexivity].
    + split; [discriminate|intros [= -> _]; now elim Hne].
Qed.

Lemma re_j_id_some s id :
  re_j_id s = Some id <->
  exists t, s = lit "/j/" ++ t /\ id = takeWhile isDigit t /\ id <> [].
Proof.
  unfold re_j_id. split.
  - destruct (stripPrefix (lit "/j/") s) as [t|] eqn:Hp; [|discriminate].
    apply stripPrefix_some in Hp. subst s.
    destruct (takeWhile isDigit t) eqn:Ht; [discriminate|].
    intros [= <-]. exists t. rewrite Ht. repeat split; discriminate.
  - intros [t [-> [-> Hne]]].
    rewrite (proj2 (stripPrefix_some _ _ t) eq_refl).
    destruct (takeWhile isDigit t); [contradiction|reflexivity].
Qed.

Lemma takeWhile_nonempty f s :
  takeWhile f s <> [] <-> match s with c :: _ => f c | [] => false end = true.
Proof.
  destruct s as [|c s]; simpl.
  - split; [intros H; now elim H|discriminate].
  - destruct (f c); split; intros H; try reflexivity; try discriminate.
    now elim H.
Qed.

Lemma re_j_id_none s :
  re_j_id s = None <-> (forall d t, isDigit d = true -> s <> lit "/j/" ++ d :: t).
Proof.
  split.
  - intros H d t Hd ->.
    assert (re_j_id (lit "/j/" ++ d :: t) = Some (takeWhile isDigit (d :: t))) as H'.
    { apply re_j_id_some. exists (d :: t). repeat split.
      apply takeWhile_nonempty. exact Hd. }
    rewrite H in H'. discriminate.
  - intros H. destruct (re_j_id s) as [id|] eqn:Hr; [|reflexivity].
    apply re_j_id_some in Hr as [t [-> [-> Hne]]].
    apply takeWhile_nonempty in Hne. destruct t as [|d t]; [discriminate|].
    now elim (H d t Hne).
Qed.

Lemma search_j_none s :
  search re_j_id s = None <-> ~ occurs_j_digit s.
Proof.
  rewrite search_none_iff. split.
  - intros H [p [d [q [Hd Hs]]]].
    specialize (H p _ Hs). exact (proj1 (re_j_id_none _) H d q Hd eq_refl).
  - intros H p q Hs. apply re_j_id_none. intros d t Hd ->.
    apply H. now exists p, d, t.
Qed.

Lemma occurs_j_digit_tail p q : occurs_j_digit q -> occurs_j_digit (p ++ q).
Proof.
  intros [p' [d [t [Hd ->]]]]. exists (p ++ p'), d, t. split; [exact Hd|].
  now rewrite <- app_assoc.
Qed.

Lemma search_j_first pre ds rest :
  ~ occurs_j_digit pre ->
  ds <> [] -> forallb isDigit ds = true -> digitHead rest = false ->
  search re_j_id (pre ++ lit "/j/" ++ ds ++ rest) = Some ds.
Proof.
  intros Hpre Hne Hds Hrest.
  rewrite search_app.
  - apply search_here, re_j_id_some. exists (ds ++ rest). split; [reflexivity|].
    rewrite takeWhile_app by exact Hds.
    rewrite (takeWhile_stop isDigit rest) by exact Hrest.
    rewrite app_nil_r. split; [reflexivity|exact Hne].
  - intros p q -> Hq. apply re_j_id_none. intros d t Hd Heq.
    change (lit "/j/") with [47; 106; 47] in Heq.
    destruct q as [|a [|b [|c [|e q]]]]; simpl in Heq.
    + now elim Hq.
    + discriminate Heq.
    + destruct ds as [|x ds]; [now elim Hne|].
      inversion Heq; subst. discriminate.
    + inversion Heq; subst. discriminate.
    + inversion Heq; subst.
      apply Hpre. apply occurs_j_digit_tail. now exists [], d, q.
Qed.

Lemma re_digits_some s id :
  re_digits_9_11 s = Some id <->
  id = firstn 11 (takeWhile isDigit s) /\ (9 <= List.length (takeWhile isDigit s))%nat.
Proof.
  unfold re_digits_9_11.
  destruct (Nat.leb_spec 9 (List.length (firstn 11 (takeWhile isDigit s)))) as [H|H];
    rewrite length_firstn in H.
  - split; [intros [= <-]; split; [reflexivity|lia]|intros [-> _]; reflexivity].
  - split; [discriminate|intros [_ H']; lia].
Qed.

Lemma re_digits_none s :
  re_digits_9_11 s = None <-> (List.length (takeWhile isDigit s) < 9)%nat.
Proof.
  destruct (re_digits_9_11 s) as [id|] eqn:H.
  - apply re_digits_some in H as [_ H]. split; [discriminate|lia].
  - split; [|reflexivity]. intros _.
    destruct (Nat.ltb_spec (List.length (takeWhile isDigit s)) 9) as [Hl|Hl]; [exact Hl|].
    assert (re_digits_9_11 s = Some (firstn 11 (takeWhile isDigit s))) as H'
      by (apply re_digits_some; split; [reflexivity|exact Hl]).
    rewrite H in H'. discriminate.
Qed.

Lemma firstn_forallb {A} (f : A -> bool) n l :
  forallb f l = true -> forallb f (firstn n l) = true.
Proof.
  revert l. induction n as [|n IH]; intros [|x l]; simpl; try reflexivity.
  intros H. apply andb_prop in H as [-> Hl]. now rewrite IH.
Qed.

Lemma takeWhile_prefix_of f r t :
  forallb f r = true -> (List.length r <= List.length (takeWhile f (r ++ t)))%nat.
Proof.
  intros H. rewrite takeWhile_app by exact H. rewrite length_app. lia.
Qed.

Lemma takeWhile_9 s :
  (9 <= List.length (takeWhile isDigit s))%nat <->
  exists r t, s = r ++ t /\ List.length r = 9%nat /\ forallb isDigit r = true.
Proof.
  split.
  - intros H. destruct (takeWhile_split isDigit s) as [t [Hs _]].
    exists (firstn 9 (takeWhile isDigit s)), (skipn 9 (takeWhile isDigit s) ++ t).
    split; [|split].
    + rewrite app_assoc, firstn_skipn. exact Hs.
    + rewrite length_firstn. lia.
    + apply firstn_forallb, takeWhile_forallb.
  - intros [r [t [-> [Hl Hr]]]].
    pose proof (takeWhile_prefix_of isDigit r t Hr). lia.
Qed.

Lemma search_9_none s :
  search re_digits_9_11 s = None <-> ~ occurs_9_digits s.
Proof.
  rewrite search_none_iff. split.
  - intros H [p [r [q [Hs [Hl Hr]]]]].
    specialize (H p _ Hs). apply re_digits_none in H.
    assert (9 <= List.length (takeWhile isDigit (r ++ q)))%nat
      by (apply takeWhile_9; now exists r, q).
    lia.
  - intros H p q Hs. apply re_digits_none.
    destruct (Nat.ltb_spec (List.length (takeWhile isDigit q)) 9) as [Hl|Hl]; [exact Hl|].
    apply takeWhile_9 in Hl as [r [t [-> [Hl Hr]]]].
    elim H. now exists p, r, t.
Qed.

Lemma takeWhile_app_stop f q s :
  q <> [] -> match rev q with c :: _ => f c | [] => false end = false ->
  takeWhile f (q ++ s) = takeWhile f q.
Proof.
  induction q as [|a q IH]; intros Hq Hlast; [now elim Hq|].
  simpl. destruct (f a) eqn:Ha; [|reflexivity].
  f_equal. destruct q as [|b q].
  - simpl in Hlast. congruence.
  - apply IH; [discriminate|].
    simpl in Hlast. simpl.
    destruct (rev q ++ [b]) as [|c l] eqn:Hr.
    + destruct (rev q); discriminate.
    + simpl in Hlast. exact Hlast.
Qed.

Lemma rev_suffix_head {A} (p q : list A) :
  q <> [] -> hd_error (rev (p ++ q)) = hd_error (rev q).
Proof.
  intros Hq. rewrite rev_app_distr.
  destruct (rev q) as [|c l] eqn:Hr; [|reflexivity].
  apply (f_equal (@rev A)) in Hr. rewrite rev_involutive in Hr. now elim Hq.
Qed.

Lemma search_9_first pre ds rest :
  ~ occurs_9_digits pre -> digitLast pre = false ->
  forallb isDigit ds = true ->
  (9 <= List.length ds <= 11)%nat ->
  (List.length ds = 11%nat \/ digitHead rest = false) ->
  search re_digits_9_11 (pre ++ ds ++ rest) = Some ds.
Proof.
  intros Hpre Hlast Hds Hlen Hend.
  rewrite search_app.
  - apply search_here, re_digits_some.
    rewrite takeWhile_app by exact Hds. split.
    + destruct Hend as [H11|Hrest].
      * rewrite firstn_app, H11, Nat.sub_diag, firstn_O, app_nil_r.
        rewrite <- H11. symmetry. apply firstn_all.
      * rewrite (takeWhile_stop isDigit rest) by exact Hrest.
        rewrite app_nil_r. symmetry. apply firstn_all2. lia.
    + rewrite length_app. lia.
  - intros p q -> Hq. apply re_digits_none.
    rewrite takeWhile_app_stop; [|exact Hq|].
    + destruct (Nat.ltb_spec (List.length (takeWhile isDigit q)) 9) as [Hl|Hl]; [exact Hl|].
      apply takeWhile_9 in Hl as [r [t [-> [Hl Hr]]]].
      elim Hpre. now exists p, r, t.
    + unfold digitLast, digitHead in Hlast.
      pose proof (rev_suffix_head p q Hq) as Hh.
      destruct (rev (p ++ q)) as [|c l]; destruct (rev q) as [|c' l']; simpl in Hh;
        try discriminate; [reflexivity|].
      injection Hh as ->. exact Hlast.
Qed.






(** *** The alphabet of encodeURIComponent *)

Lemma hexDigit_safe n : uriSafe (hexDigit n) = true.
Proof.
  unfold hexDigit.
  assert (0 <= Z.land n 15 < 16) as Hd.
  { change 15 with (Z.ones 4). rewrite Z.land_ones by lia.
    apply Z.mod_pos_bound. reflexivity. }
  set (d := Z.land n 15) in *. clearbody d.
  unfold uriSafe, uriUnreserved, isDigit.
  destruct (Z.ltb_spec d 10).
  - assert ((48 <=? 48 + d) = true) as -> by (apply Z.leb_le; lia).
    assert ((48 + d <=? 57) = true) as -> by (apply Z.leb_le; lia).
    simpl. rewrite !orb_true_r. reflexivity.
  - assert ((65 <=? 55 + d) = true) as -> by (apply Z.leb_le; lia).
    assert ((55 + d <=? 90) = true) as -> by (apply Z.leb_le; lia).
    reflexivity.
Qed.

Lemma pct_safe b : forallb uriSafe (pct b) = true.
Proof. unfold pct. simpl. now rewrite !hexDigit_safe. Qed.

Lemma forallb_flat_map {A B} (f : B -> bool) (g : A -> list B) l :
  (forall a, forallb f (g a) = true) -> forallb f (flat_map g l) = true.
Proof.
  intros H. induction l as [|a l IH]; simpl; [reflexivity|].
  now rewrite forallb_app, H, IH.
Qed.

Lemma pctUtf8_safe cp : forallb uriSafe (pctUtf8 cp) = true.
Proof. apply forallb_flat_map, pct_safe. Qed.

Lemma encodeURIComponent_safe : forall s e,
  encodeURIComponent s = Some e -> forallb uriSafe e = true.
Proof.
  fix IH 1. intros [|c t] e; simpl.
  - intros [= <-]. reflexivity.
  - destruct (uriUnreserved c) eqn:Hu.
    + destruct (encodeURIComponent t) as [e'|] eqn:He; [|discriminate].
      intros [= <-]. simpl. unfold uriSafe at 1. rewrite Hu. simpl.
      exact (IH t e' He).
    + destruct (isLeadSurrogate c).
      * destruct t as [|d t']; [discriminate|].
        destruct (isTrailSurrogate d); [|discriminate].
        destruct (encodeURIComponent t') as [e'|] eqn:He; [|discriminate].
        intros [= <-]. rewrite forallb_app, pctUtf8_safe. exact (IH t' e' He).
      * destruct (isTrailSurrogate c); [discriminate|].
        destruct (encodeURIComponent t) as [e'|] eqn:He; [|discriminate].
        intros [= <-]. rewrite forallb_app, pctUtf8_safe. exact (IH t e' He).
Qed.

Lemma safe_no_eq e : forallb uriSafe e = true -> ~ In 61 e.
Proof.
  intros H Hin. rewrite forallb_forall in H. apply H in Hin. discriminate.
Qed.

(** *** includes *)




Lemma digits_notP l : forallb isDigit l = true -> forallb notP l = true.
Proof.
  intros H. rewrite forallb_forall in *. intros c Hc. apply H in Hc.
  unfold isDigit in Hc. unfold notP.
  destruct (Z.eqb_spec c 112) as [->|]; [discriminate|reflexivity].
Qed.

Lemma search_some {A} (m : jsstring -> option A) s r :
  search m s = Some r -> exists p q, s = p ++ q /\ m q = Some r.
Proof.
  induction s as [|c s IH]; intros H.
  - exists [], []. split; [reflexivity|].
    unfold search in H. destruct (m []); [exact H|discriminate].
  - destruct (m (c :: s)) eqn:Hm.
    + rewrite (search_here m _ _ Hm) in H. injection H as <-.
      exists [], (c :: s). split; [reflexivity|exact Hm].
    + rewrite search_skip in H by exact Hm.
      destruct (IH H) as [p [q [-> Hq]]]. exists (c :: p), q. split; [reflexivity|exact Hq].
Qed.

Lemma extractMeetingId_digits link id :
  extractMeetingId link = inr id -> forallb isDigit id = true /\ id <> [].
Proof.
  unfold extractMeetingId.
  destruct (search re_j_id link) as [d|] eqn:Hj.
  - intros [= <-]. apply search_some in Hj as [p [q [_ Hq]]].
    apply re_j_id_some in Hq as [t [_ [-> Hne]]].
    split; [apply takeWhile_forallb|exact Hne].
  - destruct (search re_digits_9_11 link) as [d|] eqn:H9; [|discriminate].
    intros [= <-]. apply search_some in H9 as [p [q [_ Hq]]].
    apply re_digits_some in Hq as [-> Hl].
    split; [apply firstn_forallb, takeWhile_forallb|].
    intros Hnil. apply (f_equal (@List.length _)) in Hnil.
    rewrite length_firstn in Hnil. cbn [List.length] in Hnil. lia.
Qed.


(* ===================================================================== *)
(** ** Computations and their traces                                       *)
(* ===================================================================== *)

(** *** Reasoning about computations *)

Ltac munfold :=
  unfold swallow, call_unit, call_val, lift, sleep, console in *;
  unfold bind, try_catch, try_finally, emit, get_trace, get_ffmpegProcess,
    get_recordingPath, set_ffmpegProcess, set_recordingPath, ret, throw,
    pending in *.

(** Case analysis on an oracle's answer: the innermost stuck [match]. *)
Ltac oracle_case :=
  match goal with
  | |- context [match ?x with _ => _ end] =>
      lazymatch x with
      | context [match _ with _ => _ end] => fail
      | _ => destruct x eqn:?
      end
  end.

Ltac mrun := repeat (cbn -[lit quoted squoted app Z_to_js]; try oracle_case).

Section Emits.
Variable P : event -> Prop.

Lemma emits_ret {A} (a : A) : emits P (ret a).
Proof. intros w r w' [= <- <-]. exists []. now rewrite app_nil_r. Qed.

Lemma emits_throw {A} e : emits P (@throw A e).
Proof. intros w r w' [= <- <-]. exists []. now rewrite app_nil_r. Qed.

Lemma emits_pending {A} : emits P (@pending A).
Proof. intros w r w' [= <- <-]. exists []. now rewrite app_nil_r. Qed.

Lemma emits_lift {A} (x : error + A) : emits P (lift x).
Proof. destruct x; [apply emits_throw|apply emits_ret]. Qed.

Lemma emits_emit e : P e -> emits P (emit e).
Proof. intros H w r w' [= <- <-]. exists [e]. split; [reflexivity|auto]. Qed.

Lemma emits_get_trace : emits P get_trace.
Proof. intros w r w' [= <- <-]. exists []. now rewrite app_nil_r. Qed.

Lemma emits_get_ffmpegProcess : emits P get_ffmpegProcess.
Proof. intros w r w' [= <- <-]. exists []. now rewrite app_nil_r. Qed.

Lemma emits_get_recordingPath : emits P get_recordingPath.
Proof. intros w r w' [= <- <-]. exists []. now rewrite app_nil_r. Qed.

Lemma emits_set_ffmpegProcess p : emits P (set_ffmpegProcess p).
Proof. intros w r w' [= <- <-]. exists []. simpl. now rewrite app_nil_r. Qed.

Lemma emits_set_recordingPath p : emits P (set_recordingPath p).
Proof. intros w r w' [= <- <-]. exists []. simpl. now rewrite app_nil_r. Qed.

Lemma emits_bind {A B} (c : M A) (k : A -> M B) :
  emits P c -> (forall a, emits P (k a)) -> emits P (bind c k).
Proof.
  intros Hc Hk w r w' H. unfold bind in H.
  destruct (c w) as [[a|e|] w1] eqn:Hcw.
  - destruct (Hc _ _ _ Hcw) as [e1 [H1 F1]].
    destruct (Hk a _ _ _ H) as [e2 [H2 F2]].
    exists (e1 ++ e2). rewrite H2, H1, app_assoc. split; [reflexivity|].
    apply Forall_app; auto.
  - injection H as <- <-. exact (Hc _ _ _ Hcw).
  - injection H as <- <-. exact (Hc _ _ _ Hcw).
Qed.

Lemma emits_try_catch {A} (c : M A) (h : error -> M A) :
  emits P c -> (forall e, emits P (h e)) -> emits P (try_catch c h).
Proof.
  intros Hc Hh w r w' H. unfold try_catch in H.
  destruct (c w) as [[a|e|] w1] eqn:Hcw.
  - injection H as <- <-. exact (Hc _ _ _ Hcw).
  - destruct (Hc _ _ _ Hcw) as [e1 [H1 F1]].
    destruct (Hh e _ _ _ H) as [e2 [H2 F2]].
    exists (e1 ++ e2). rewrite H2, H1, app_assoc. split; [reflexivity|].
    apply Forall_app; auto.
  - injection H as <- <-. exact (Hc _ _ _ Hcw).
Qed.

Lemma emits_try_finally {A} (c : M A) (f : M unit) :
  emits P c -> emits P f -> emits P (try_finally c f).
Proof.
  intros Hc Hf w r w' H. unfold try_finally in H.
  destruct (c w) as [[a|e|] w1] eqn:Hcw.
  - destruct (Hc _ _ _ Hcw) as [e1 [H1 F1]].
    destruct (f w1) as [[u|e'|] w2] eqn:Hfw; injection H as <- <-;
      destruct (Hf _ _ _ Hfw) as [e2 [H2 F2]];
      exists (e1 ++ e2); rewrite H2, H1, app_assoc; (split; [reflexivity|]);
      apply Forall_app; auto.
  - destruct (Hc _ _ _ Hcw) as [e1 [H1 F1]].
    destruct (f w1) as [[u|e'|] w2] eqn:Hfw; injection H as <- <-;
      destruct (Hf _ _ _ Hfw) as [e2 [H2 F2]];
      exists (e1 ++ e2); rewrite H2, H1, app_assoc; (split; [reflexivity|]);
      apply Forall_app; auto.
  - injection H as <- <-. exact (Hc _ _ _ Hcw).
Qed.

Lemma emits_call_unit e o : P e -> emits P (call_unit e o).
Proof.
  intros H. unfold call_unit.
  apply emits_bind; [apply emits_get_trace|]. intros h.
  apply emits_bind; [now apply emits_emit|]. intros _.
  destruct (o h); [apply emits_throw|apply emits_ret].
Qed.

Lemma emits_call_val {A} e (o : list event -> error + A) :
  P e -> emits P (call_val e o).
Proof.
  intros H. unfold call_val.
  apply emits_bind; [apply emits_get_trace|]. intros h.
  apply emits_bind; [now apply emits_emit|]. intros _.
  destruct (o h); [apply emits_throw|apply emits_ret].
Qed.

Lemma emits_swallow c : emits P c -> emits P (swallow c).
Proof. intros H. apply emits_try_catch; [exact H|]. intros _. apply emits_ret. Qed.

End Emits.

(** Steps through a computation built from the combinators above; what is
    left are the side conditions [P e] on the events it emits. *)
Ltac emits_step :=
  match goal with
  | |- emits _ (bind _ _) => apply emits_bind; [|intros ?]
  | |- emits _ (try_catch _ _) => apply emits_try_catch; [|intros ?]
  | |- emits _ (try_finally _ _) => apply emits_try_finally
  | |- emits _ (swallow _) => apply emits_swallow
  | |- emits _ (ret _) => apply emits_ret
  | |- emits _ (throw _) => apply emits_throw
  | |- emits _ pending => apply emits_pending
  | |- emits _ (lift _) => apply emits_lift
  | |- emits _ get_trace => apply emits_get_trace
  | |- emits _ get_ffmpegProcess => apply emits_get_ffmpegProcess
  | |- emits _ get_recordingPath => apply emits_get_recordingPath
  | |- emits _ (set_ffmpegProcess _) => apply emits_set_ffmpegProcess
  | |- emits _ (set_recordingPath _) => apply emits_set_recordingPath
  | |- emits _ (call_unit _ _) => apply emits_call_unit
  | |- emits _ (call_val _ _) => apply emits_call_val
  | |- emits _ (emit _) => apply emits_emit
  | |- emits _ (console _ _) => apply emits_emit
  | |- emits _ (sleep _) => apply emits_emit
  | |- emits _ (match ?x with _ => _ end) => destruct x
  | |- emits _ (let _ := _ in _) => cbv zeta
  end.

Section Aux.
Context {E : Env}.

Lemma pollFile_emits P fuel name :
  (P (EGetFile name)) -> (P (ESleep 2000)) ->
  emits P (pollFile fuel name).
Proof.
  intros H1 H2. induction fuel as [|n IH]; simpl.
  - apply emits_pending.
  - repeat emits_step; auto.
Qed.

Lemma transcribeVideo_emits fuel video dir model :
  emits notSummaryCall (transcribeVideo fuel video dir model).
Proof.
  unfold transcribeVideo, Transcription.extractAudio,
    Transcription.transcribeAudio, Transcription.unlinkAudio.
  repeat first [apply pollFile_emits | emits_step]; unfold notSummaryCall; discriminate.
Qed.

End Aux.

(* ===================================================================== *)
(** ** The meeting joiner                                                  *)
(* ===================================================================== *)

Lemma joinZoomMeeting_returns_id {E : Env} config zoom link w id w' :
  raw_zoom config = Some zoom -> rz_meetingLink zoom = Some link ->
  joinZoomMeeting config w = (Ok id, w') ->
  extractMeetingId link = inr id.
Proof.
  intros Hz Hl H. unfold joinZoomMeeting in H. rewrite Hz, Hl in H.
  unfold prepareDeepLink in H.
  destruct (extractMeetingId link) as [e|id0]; [discriminate|].
  destruct (buildZoomUrl _ _ _) as [e|url]; [discriminate|].
  munfold. cbn [fst snd] in H.
  repeat match type of H with
  | context [match ?x with _ => _ end] => destruct x; try discriminate
  end; injection H as <- _; reflexivity.
Qed.

Lemma joinZoomMeeting_unparseable {E : Env} config zoom link w :
  raw_zoom config = Some zoom -> rz_meetingLink zoom = Some link ->
  ~ occurs_j_digit link -> ~ occurs_9_digits link ->
  joinZoomMeeting config w =
    (Throw (Error (lit "Could not extract Meeting ID from link: " ++ link)),
     mkWorld (trace w ++ [ECall JoinZoomMeeting]) (ffmpegProcess w) (recordingPath w)).
Proof.
  intros Hz Hl Hj H9. unfold joinZoomMeeting. rewrite Hz, Hl.
  unfold prepareDeepLink, extractMeetingId.
  rewrite (proj2 (search_j_none link) Hj), (proj2 (search_9_none link) H9).
  reflexivity.
Qed.

Lemma joinZoomMeeting_opens_deep_link {E : Env} config zoom link id url w :
  raw_zoom config = Some zoom -> rz_meetingLink zoom = Some link ->
  prepareDeepLink zoom link = inr (id, url) ->
  exists evs,
    trace (snd (joinZoomMeeting config w)) =
      trace w ++ ECall JoinZoomMeeting :: EExec (lit "open " ++ quoted url) :: evs.
Proof.
  intros Hz Hl Hp. unfold joinZoomMeeting. rewrite Hz, Hl, Hp.
  munfold. mrun; rewrite <- ?app_assoc; cbn [app]; eexists; reflexivity.
Qed.

Lemma joinZoomMeeting_after_open {E : Env} config zoom link id url w out :
  raw_zoom config = Some zoom -> rz_meetingLink zoom = Some link ->
  prepareDeepLink zoom link = inr (id, url) ->
  exec (trace w ++ [ECall JoinZoomMeeting]) (lit "open " ++ quoted url) = inr out ->
  fst (joinZoomMeeting config w) = Ok id.
Proof.
  intros Hz Hl Hp Hopen. unfold joinZoomMeeting. rewrite Hz, Hl, Hp.
  munfold. cbn -[lit app quoted]. rewrite Hopen. cbn -[lit app quoted].
  destruct (fs_writeFile _ _ _); cbn -[lit app quoted]; [reflexivity|].
  match goal with
  | |- context [match exec ?a ?b with _ => _ end] => destruct (exec a b)
  end; cbn -[lit app quoted];
    match goal with
    | |- context [match fs_unlink ?a ?b with _ => _ end] => destruct (fs_unlink a b)
    end; reflexivity.
Qed.

Lemma buildZoomUrl_tail id password name :
  encodeURIComponent password <> None -> encodeURIComponent name <> None ->
  exists tail,
    buildZoomUrl id password name
      = inr (lit "zoommtg://zoom.us/join?confno=" ++ id ++ 38 :: tail).
Proof.
  intros Hp Hn. unfold buildZoomUrl.
  destruct (encodeURIComponent password) as [ep|]; [|now elim Hp].
  destruct (encodeURIComponent name) as [en|]; [|now elim Hn].
  destruct (truthy password).
  - exists (lit "pwd=" ++ ep ++ lit "&uname=" ++ en).
    rewrite <- !app_assoc. reflexivity.
  - exists (lit "uname=" ++ en). rewrite <- !app_assoc. reflexivity.
Qed.

(** With an identifier extracted and names that can be encoded, the join
    goes on with that identifier. *)
Lemma joinZoomMeeting_with_id {E : Env} config zoom link id w :
  raw_zoom config = Some zoom -> rz_meetingLink zoom = Some link ->
  extractMeetingId link = inr id -> encodable zoom link ->
  opensMeeting config w id.
Proof.
  intros Hz Hl Hid [Hp Hn].
  destruct (buildZoomUrl_tail id _ _ Hp Hn) as [tail Hurl].
  assert (prepareDeepLink zoom link
          = inr (id, lit "zoommtg://zoom.us/join?confno=" ++ id ++ 38 :: tail)) as Hprep
    by (unfold prepareDeepLink; rewrite Hid, Hurl; reflexivity).
  destruct (joinZoomMeeting_opens_deep_link config zoom link id _ w Hz Hl Hprep)
    as [evs Hevs].
  exists tail, evs. cbv zeta. split; [exact Hevs|].
  intros out Hopen.
  exact (joinZoomMeeting_after_open config zoom link id _ w out Hz Hl Hprep Hopen).
Qed.

(** C1.  The meeting identifier is the run of digits after the first
    [/j/] that a digit follows; without such a segment it is the first run
    of nine to eleven digits (the first eleven of a longer run); with
    neither, [joinZoomMeeting] throws the link-parse error and the trace
    holds nothing but its own call marker, so nothing was launched.
    [joinZoomMeeting] itself goes on with the identifier so extracted: for
    a link of either shape, and names that can be encoded, the first thing
    it does is to open the deep link of that identifier, and it returns it
    when the opener succeeds; and whatever it returns is the identifier
    extracted from the link. *)
Theorem C1_meeting_id_extraction {E : Env} :
  (forall pre ds rest,
      ~ occurs_j_digit pre ->
      ds <> [] -> forallb isDigit ds = true -> digitHead rest = false ->
      extractMeetingId (pre ++ lit "/j/" ++ ds ++ rest) = inr ds)
  /\ (forall pre ds rest,
      ~ occurs_j_digit (pre ++ ds ++ rest) ->
      ~ occurs_9_digits pre -> digitLast pre = false ->
      forallb isDigit ds = true ->
      (9 <= List.length ds <= 11)%nat ->
      (List.length ds = 11%nat \/ digitHead rest = false) ->
      extractMeetingId (pre ++ ds ++ rest) = inr ds)
  /\ (forall config zoom link w,
      raw_zoom config = Some zoom -> rz_meetingLink zoom = Some link ->
      ~ occurs_j_digit link -> ~ occurs_9_digits link ->
      joinZoomMeeting config w =
        (Throw (Error (lit "Could not extract Meeting ID from link: " ++ link)),
         mkWorld (trace w ++ [ECall JoinZoomMeeting])
                 (ffmpegProcess w) (recordingPath w)))
  /\ (forall config zoom link w id w',
      raw_zoom config = Some zoom -> rz_meetingLink zoom = Some link ->
      joinZoomMeeting config w = (Ok id, w') ->
      extractMeetingId link = inr id)
  /\ (forall config zoom pre ds rest w,
      raw_zoom config = Some zoom ->
      rz_meetingLink zoom = Some (pre ++ lit "/j/" ++ ds ++ rest) ->
      ~ occurs_j_digit pre ->
      ds <> [] -> forallb isDigit ds = true -> digitHead rest = false ->
      encodable zoom (pre ++ lit "/j/" ++ ds ++ rest) ->
      opensMeeting config w ds)
  /\ (forall config zoom pre ds rest w,
      raw_zoom config = Some zoom ->
      rz_meetingLink zoom = Some (pre ++ ds ++ rest) ->
      ~ occurs_j_digit (pre ++ ds ++ rest) ->
      ~ occurs_9_digits pre -> digitLast pre = false ->
      forallb isDigit ds = true ->
      (9 <= List.length ds <= 11)%nat ->
      (List.length ds = 11%nat \/ digitHead rest = false) ->
      encodable zoom (pre ++ ds ++ rest) ->
      opensMeeting config w ds).
Proof.
  assert (forall pre ds rest,
            ~ occurs_j_digit pre ->
            ds <> [] -> forallb isDigit ds = true -> digitHead rest = false ->
            extractMeetingId (pre ++ lit "/j/" ++ ds ++ rest) = inr ds) as Hj.
  { intros pre ds rest Hpre Hne Hds Hrest. unfold extractMeetingId.
    now rewrite search_j_first. }
  assert (forall pre ds rest,
            ~ occurs_j_digit (pre ++ ds ++ rest) ->
            ~ occurs_9_digits pre -> digitLast pre = false ->
            forallb isDigit ds = true ->
            (9 <= List.length ds <= 11)%nat ->
            (List.length ds = 11%nat \/ digitHead rest = false) ->
            extractMeetingId (pre ++ ds ++ rest) = inr ds) as H9.
  { intros pre ds rest Hno Hpre Hlast Hds Hlen Hend. unfold extractMeetingId.
    rewrite (proj2 (search_j_none _) Hno).
    now rewrite search_9_first. }
  split; [exact Hj|]. split; [exact H9|]. split; [|split; [|split]].
  - intros. now apply joinZoomMeeting_unparseable with (zoom := zoom).
  - intros. now apply joinZoomMeeting_returns_id with (1 := H) (w := w) (w' := w').
  - intros config zoom pre ds rest w Hz Hl Hpre Hne Hds Hrest Henc.
    apply (joinZoomMeeting_with_id config zoom _ ds w Hz Hl); [|exact Henc].
    now apply Hj.
  - intros config zoom pre ds rest w Hz Hl Hno Hpre Hlast Hds Hlen Hend Henc.
    apply (joinZoomMeeting_with_id config zoom _ ds w Hz Hl); [|exact Henc].
    now apply H9.
Qed.

Lemma C1_meeting_id_extraction_witness :
  extractMeetingId (lit "https://us04web.zoom.us" ++ lit "/j/" ++ lit "123456789"
                    ++ lit "?pwd=secret") = inr (lit "123456789")
  /\ extractMeetingId (lit "meeting " ++ lit "98765432101" ++ lit " at noon")
     = inr (lit "98765432101")
  /\ fst (joinZoomMeeting (E := sampleEnv happy)
            (sampleConfig (lit "https://zoom.us/my/room") None) w0)
     = Throw (Error (lit "Could not extract Meeting ID from link: "
                     ++ lit "https://zoom.us/my/room"))
  /\ fst (joinZoomMeeting (E := sampleEnv happy)
            (sampleConfig (lit "https://us04web.zoom.us" ++ lit "/j/" ++ lit "123456789"
                           ++ lit "?pwd=secret") None) w0)
     = Ok (lit "123456789")
  /\ fst (joinZoomMeeting (E := sampleEnv happy)
            (sampleConfig (lit "meeting " ++ lit "98765432101" ++ lit " at noon") None) w0)
     = Ok (lit "98765432101").
Proof.
  destruct (C1_meeting_id_extraction (E := sampleEnv happy))
    as [Ha [Hb [Hc [_ [Hd He]]]]].
  split; [|split; [|split; [|split]]].
  - apply Ha; [apply search_j_none|discriminate| |]; reflexivity.
  - apply Hb; [apply search_j_none|apply search_9_none| | |cbn; lia|left]; reflexivity.
  - rewrite (Hc (sampleConfig (lit "https://zoom.us/my/room") None)
                 (mkRawZoom (Some (lit "https://zoom.us/my/room")) None
                            (Some (lit "Recorder Bot")))
                 (lit "https://zoom.us/my/room") w0 eq_refl eq_refl);
      [reflexivity|apply search_j_none|apply search_9_none]; reflexivity.
  - destruct (Hd (sampleConfig (lit "https://us04web.zoom.us" ++ lit "/j/"
                                ++ lit "123456789" ++ lit "?pwd=secret") None)
                 (mkRawZoom (Some (lit "https://us04web.zoom.us" ++ lit "/j/"
                                   ++ lit "123456789" ++ lit "?pwd=secret")) None
                            (Some (lit "Recorder Bot")))
                 (lit "https://us04web.zoom.us") (lit "123456789") (lit "?pwd=secret")
                 w0 eq_refl eq_refl) as [tail [evs [_ Hret]]];
      [apply search_j_none; reflexivity|discriminate|reflexivity|reflexivity
      |split; discriminate|].
    exact (Hret [] eq_refl).
  - destruct (He (sampleConfig (lit "meeting " ++ lit "98765432101" ++ lit " at noon")
                               None)
                 (mkRawZoom (Some (lit "meeting " ++ lit "98765432101" ++ lit " at noon"))
                            None (Some (lit "Recorder Bot")))
                 (lit "meeting ") (lit "98765432101") (lit " at noon")
                 w0 eq_refl eq_refl) as [tail [evs [_ Hret]]];
      [apply search_j_none; reflexivity|apply search_9_none; reflexivity|reflexivity
      |reflexivity|cbn; lia|now left|split; discriminate|].
    exact (Hret [] eq_refl).
Defined.



Lemma buildZoomUrl_with_password id p name url :
  p <> [] -> buildZoomUrl id p name = inr url ->
  exists ep en,
    encodeURIComponent p = Some ep /\ encodeURIComponent name = Some en /\
    url = lit "zoommtg://zoom.us/join?confno=" ++ id ++ lit "&pwd=" ++ ep
          ++ lit "&uname=" ++ en.
Proof.
  intros Hp. unfold buildZoomUrl.
  assert (truthy p = true) as -> by (destruct p; [now elim Hp|reflexivity]).
  destruct (encodeURIComponent p) as [ep|]; [|discriminate].
  destruct (encodeURIComponent name) as [en|]; [|discriminate].
  intros [= <-]. exists ep, en. repeat split.
  rewrite <- ?app_assoc. reflexivity.
Qed.

Lemma buildZoomUrl_without_password id name url :
  buildZoomUrl id [] name = inr url ->
  exists en,
    encodeURIComponent name = Some en /\
    url = lit "zoommtg://zoom.us/join?confno=" ++ id ++ lit "&uname=" ++ en.
Proof.
  unfold buildZoomUrl. cbn [truthy].
  destruct (encodeURIComponent name) as [en|]; [|discriminate].
  intros [= <-]. exists en. split; [reflexivity|].
  rewrite <- ?app_assoc. reflexivity.
Qed.



(* ===================================================================== *)
(** ** The recorder                                                        *)
(* ===================================================================== *)

Lemma exit_ok_iff code : exit_ok code = true <-> code = None \/ code = Some 0.
Proof.
  destruct code as [c|]; simpl.
  - rewrite Z.eqb_eq. split; [intros ->; now right|intros [H|[= H]]; [discriminate|exact H]].
  - split; auto.
Qed.

(** C2.  With no handle held, [stopScreenRecording] resolves with null,
    prints its notice and leaves the recorder state as it was.  With a
    handle held and the subprocess closed with [code], it resolves exactly
    when the code is 0 or null and the stat of the output file succeeds, the
    value being the recording path; in every other case it rejects; and the
    handle is cleared in all of them. *)
Theorem C2_stop_outcomes {E : Env} (w : World) :
  (ffmpegProcess w = None ->
     stopScreenRecording w =
       (Ok None,
        mkWorld (trace w ++ [ECall StopScreenRecording;
                             EConsole Log (lit "No active recording to stop")])
                None (recordingPath w)))
  /\ (forall p code,
        ffmpegProcess w = Some p ->
        close_event (trace w ++ [ECall StopScreenRecording;
                                 EStdinWrite p (lit "q"); EStdinEnd p]) p = Some code ->
        let h := trace w ++ [ECall StopScreenRecording; EStdinWrite p (lit "q");
                             EStdinEnd p; EClose p code] in
        let r := fst (stopScreenRecording w) in
        let w' := snd (stopScreenRecording w) in
        ffmpegProcess w' = None
        /\ ((exists v, r = Ok v) <->
            (code = None \/ code = Some 0) /\
            exists size, fs_stat h (recordingPath w) = inr size)
        /\ (forall v, r = Ok v -> v = recordingPath w)
        /\ ((exists e, r = Throw e) <->
            ~ ((code = None \/ code = Some 0) /\
               exists size, fs_stat h (recordingPath w) = inr size))).
Proof.
  split.
  - intros H. unfold stopScreenRecording. munfold. cbn. rewrite H. cbn.
    rewrite <- app_assoc. reflexivity.
  - intros p code Hp Hc. cbv zeta. unfold stopScreenRecording. munfold.
    cbn -[lit app Z_to_js]. rewrite Hp. cbn -[lit app Z_to_js].
    rewrite <- !app_assoc. cbn [app]. rewrite Hc. cbn -[lit app Z_to_js].
    rewrite <- !app_assoc. cbn [app].
    pose proof (exit_ok_iff code) as Hok.
    destruct (exit_ok code) eqn:Hx; cbn -[lit app Z_to_js].
    + destruct (fs_stat _ _) as [e|size] eqn:Hs; cbn -[lit app Z_to_js].
      * split; [reflexivity|]. split; [|split].
        -- split; [intros [v Hv]; discriminate|intros [_ [s Hs']]; discriminate].
        -- discriminate.
        -- split; [intros _ [_ [s Hs']]; discriminate|intros _; now exists e].
      * split; [reflexivity|]. split; [|split].
        -- split; [intros _; split; [now apply Hok|now exists size]|intros _; eauto].
        -- intros v [= <-]. reflexivity.
        -- split; [intros [e He]; discriminate|].
           intros Hn. elim Hn. split; [now apply Hok|now exists size].
    + split; [reflexivity|]. split; [|split].
      * split; [intros [v Hv]; discriminate|].
        intros [Hcode _]. apply Hok in Hcode. discriminate.
      * discriminate.
      * split; [|intros _; eexists; reflexivity].
        intros _ [Hcode _]. apply Hok in Hcode. discriminate.
Qed.

Lemma C2_stop_outcomes_witness :
  stopScreenRecording (E := sampleEnv happy) w0 =
    (Ok None,
     mkWorld [ECall StopScreenRecording; EConsole Log (lit "No active recording to stop")]
             None None)
  /\ fst (stopScreenRecording (E := sampleEnv happy)
            (mkWorld [] (Some (Proc 0)) (Some (lit "/data/rec.mp4"))))
     = Ok (Some (lit "/data/rec.mp4")).
Proof.
  destruct (C2_stop_outcomes (E := sampleEnv happy) w0) as [Hidle _].
  destruct (C2_stop_outcomes (E := sampleEnv happy)
              (mkWorld [] (Some (Proc 0)) (Some (lit "/data/rec.mp4")))) as [_ Hheld].
  split; [exact (Hidle eq_refl)|].
  destruct (Hheld (Proc 0) (Some 0) eq_refl eq_refl) as [_ [Hres [Hval _]]].
  destruct (proj2 Hres) as [v Hv].
  - split; [now right|]. exists 1048576. reflexivity.
  - rewrite Hv. f_equal. now apply Hval.
Defined.

(** C4.  The three named tiers select their presets, and so does every other
    string that names no member of [Object.prototype], which gets the
    [high] preset.  A string that names such a member, [constructor] for
    one, selects no preset: [startScreenRecording] throws a [TypeError]
    when it reads the frame rate, and the run holds no spawn. *)
Theorem C4_quality_presets {E : Env} :
  selectSettings (lit "high") = Some (mkSettings (lit "1920x1080") (lit "5000k") 30)
  /\ selectSettings (lit "medium") = Some (mkSettings (lit "1280x720") (lit "2500k") 30)
  /\ selectSettings (lit "low") = Some (mkSettings (lit "854x480") (lit "1000k") 24)
  /\ (forall q, q <> lit "high" -> q <> lit "medium" -> q <> lit "low" ->
        ~ In q objectPrototypeKeys ->
        selectSettings q = Some (mkSettings (lit "1920x1080") (lit "5000k") 30))
  /\ selectSettings (lit "constructor") = None
  /\ (forall outputDir w,
        fs_mkdir (trace w ++ [ECall StartScreenRecording]) outputDir = None ->
        let e := TypeError (lit "Cannot read properties of undefined (reading 'toString')") in
        let path := path_join outputDir
                      (lit "zoom-recording-" ++
                       replaceColonDot
                         (date_iso (trace w ++ [ECall StartScreenRecording;
                                                EMkdir outputDir]))
                       ++ lit ".mp4") in
        startScreenRecording outputDir (Some (lit "constructor")) w =
          (Throw e,
           mkWorld (trace w ++
                      [ECall StartScreenRecording; EMkdir outputDir;
                       EConsole Err (lit "Error starting screen recording: "
                                     ++ err_message e)])
                   (ffmpegProcess w) (Some path))).
Proof.
  split; [reflexivity|]. split; [reflexivity|]. split; [reflexivity|].
  split; [|split; [reflexivity|]].
  - intros q Hh Hm Hl Hk. unfold selectSettings, qualitySettings, str_eqb.
    destruct (list_eq_dec Z.eq_dec q (lit "high")); [contradiction|].
    destruct (list_eq_dec Z.eq_dec q (lit "medium")); [contradiction|].
    destruct (list_eq_dec Z.eq_dec q (lit "low")); [contradiction|].
    destruct (existsb _ objectPrototypeKeys) eqn:Hex; [|reflexivity].
    apply existsb_exists in Hex as [k [Hin Hk']].
    destruct (list_eq_dec Z.eq_dec q k) as [->|]; [contradiction|discriminate].
  - intros outputDir w Hmk. cbv zeta. unfold startScreenRecording.
    change (selectSettings (lit "constructor")) with (@None settings).
    munfold. cbn -[lit app Z_to_js replaceColonDot].
    rewrite Hmk. cbn -[lit app Z_to_js replaceColonDot].
    rewrite <- !app_assoc. reflexivity.
Qed.

Lemma C4_quality_presets_witness :
  selectSettings (lit "ultra") = Some (mkSettings (lit "1920x1080") (lit "5000k") 30)
  /\ selectSettings (lit "constructor") = None.
Proof.
  destruct (C4_quality_presets (E := sampleEnv happy)) as [_ [_ [_ [Hother [Hbad _]]]]].
  split; [|exact Hbad].
  apply Hother; try discriminate.
  intros Hin. cbn in Hin.
  repeat (destruct Hin as [Hin|Hin]; [discriminate|]). exact Hin.
Defined.

(** C8, as stated, fails: with the binary missing the call returns the
    recording path. *)
Lemma C8_missing_encoder_counterexample :
  ~ (forall (E : Env) outputDir quality w e,
       (forall h c a, spawn h c a = Spawned (Some e)) ->
       code_is e ENOENT = true ->
       exists e' w', startScreenRecording outputDir quality w = (Throw e', w')).
Proof.
  intros H.
  destruct (H (sampleEnv missingBinary) (lit "/data/recordings") (Some (lit "high"))
              w0 enoent (fun _ _ _ => eq_refl) eq_refl) as [e' [w' Hrun]].
  vm_compute in Hrun. discriminate.
Qed.

(** C8, amended.  When the child reports that the binary is missing,
    [startScreenRecording] prints the encoder-not-found message with the
    install command on the error console, keeps the handle, waits the two
    seconds and returns the recording path. *)
Theorem C8_missing_encoder_is_logged {E : Env}
    (outputDir : jsstring) (quality : option jsstring) (settings : settings)
    (w : World) (e : error) :
  let q := match quality with Some q => q | None => lit "high" end in
  let h := trace w ++ [ECall StartScreenRecording; EMkdir outputDir] in
  let path := path_join outputDir
                (lit "zoom-recording-" ++ replaceColonDot (date_iso h) ++ lit ".mp4") in
  let p := Proc (List.length h) in
  fs_mkdir (trace w ++ [ECall StartScreenRecording]) outputDir = None ->
  selectSettings q = Some settings ->
  spawn h (lit "ffmpeg") (ffmpegArgs settings path) = Spawned (Some e) ->
  code_is e ENOENT = true ->
  startScreenRecording outputDir quality w =
    (Ok path,
     mkWorld (h ++ [ESpawn (lit "ffmpeg") (ffmpegArgs settings path);
                    ESpawnError p e;
                    EConsole Err (lit "FFmpeg not found. Please install FFmpeg:");
                    EConsole Err (lit "  brew install ffmpeg");
                    ESleep 2000])
             (Some p) (Some path)).
Proof.
  cbv zeta. intros Hmk Hsel Hsp Hcode. unfold startScreenRecording. rewrite Hsel.
  munfold. cbn -[lit app Z_to_js replaceColonDot ffmpegArgs onSpawnError].
  rewrite Hmk. cbn -[lit app Z_to_js replaceColonDot ffmpegArgs onSpawnError].
  rewrite <- !app_assoc. cbn [app]. rewrite Hsp.
  unfold onSpawnError. rewrite Hcode. munfold.
  cbn -[lit app Z_to_js replaceColonDot ffmpegArgs].
  rewrite <- !app_assoc. reflexivity.
Qed.

Lemma C8_missing_encoder_is_logged_witness :
  exists path w',
    startScreenRecording (E := sampleEnv missingBinary)
      (lit "/data/recordings") (Some (lit "low")) w0 = (Ok path, w')
    /\ In (EConsole Err (lit "FFmpeg not found. Please install FFmpeg:")) (trace w')
    /\ In (EConsole Err (lit "  brew install ffmpeg")) (trace w').
Proof.
  eexists. eexists. split.
  - apply (C8_missing_encoder_is_logged (E := sampleEnv missingBinary)
             (lit "/data/recordings") (Some (lit "low")) low w0 enoent);
      reflexivity.
  - cbn [trace]. split; apply in_or_app; right; cbn [In]; auto 10.
Defined.

(* ===================================================================== *)
(** ** The storage verifier and the summarizer                             *)
(* ===================================================================== *)




(** C10.  Whatever the provider, an accessible path yields the descriptor
    whose two fields are [file://] followed by the path, and the call throws
    exactly when the access check fails, with the error of that check. *)
Theorem C10_upload_is_local_check {E : Env}
    (path : jsstring) (provider folderName : option jsstring) (w : World) :
  let h := trace w ++ [ECall UploadToCloud] in
  let r := fst (uploadToCloud (Some path) provider folderName w) in
  (fs_access h (Some path) = None ->
     r = Ok (mkLocation (lit "file://" ++ path) (lit "file://" ++ path)))
  /\ (forall e, fs_access h (Some path) = Some e -> r = Throw e)
  /\ ((exists e, r = Throw e) <-> fs_access h (Some path) <> None).
Proof.
  cbv zeta. unfold uploadToCloud. munfold. cbn [fst snd trace].
  destruct (fs_access _ _) as [e|] eqn:Ha.
  - cbn. repeat split; try discriminate.
    + intros e' [= <-]. reflexivity.
    + now exists e.
  - destruct (match provider with Some p => str_eqb p (lit "local") | None => false end);
      cbn -[lit app]; repeat split; try discriminate; try reflexivity;
      try (intros [e He]; discriminate); try (intros H; now elim H).
Qed.

Lemma C10_upload_is_local_check_witness :
  fst (uploadToCloud (E := sampleEnv happy) (Some (lit "/data/rec.mp4"))
         (Some (lit "dropbox")) None w0)
  = Ok (mkLocation (lit "file://" ++ lit "/data/rec.mp4")
                   (lit "file://" ++ lit "/data/rec.mp4")).
Proof.
  apply (C10_upload_is_local_check (E := sampleEnv happy) (lit "/data/rec.mp4")
           (Some (lit "dropbox")) None w0).
  reflexivity.
Defined.

(* ===================================================================== *)
(** ** The transcriber and the orchestrator                                *)
(* ===================================================================== *)

(** C5.  A document with no [zoom] section, or whose [meetingLink] is
    absent or empty, makes [loadConfig] throw the validation error; [main]
    then prints it and exits with code 1, and the whole run consists of the
    events listed: the join stage is never called. *)
Theorem C5_missing_link_never_joins {E : Env}
    (fuel : nat) (data : jsstring) (doc : rawConfig) (w : World) :
  fs_readFile (trace w ++ [ECall LoadConfig]) CONFIG_PATH = inr data ->
  json_parse data = inr doc ->
  (raw_zoom doc = None \/
   exists z, raw_zoom doc = Some z /\ truthy_opt (rz_meetingLink z) = false) ->
  let e := Error (lit "Missing required zoom configuration (meetingLink, displayName)") in
  fst (loadConfig w) = Throw e
  /\ main fuel w =
       (Ok (Some 1),
        mkWorld (trace w ++ [ECall LoadConfig; EReadFile CONFIG_PATH;
                   EConsole Err (lit "Error loading configuration: " ++ err_message e);
                   EConsole Err (lit "Fatal error: " ++ inspect e);
                   EExit 1])
                (ffmpegProcess w) (recordingPath w))
  /\ (forall evs, trace (snd (main fuel w)) = trace w ++ evs ->
        ~ In (ECall JoinZoomMeeting) evs).
Proof.
  intros Hread Hparse Hmissing. cbv zeta.
  assert (validate doc =
          Some (Error (lit "Missing required zoom configuration (meetingLink, displayName)")))
    as Hval.
  { unfold validate. destruct Hmissing as [-> | [z [-> Hz]]]; [reflexivity|].
    rewrite Hz. reflexivity. }
  assert (loadConfig w =
          (Throw (Error (lit "Missing required zoom configuration (meetingLink, displayName)")),
           mkWorld (trace w ++ [ECall LoadConfig; EReadFile CONFIG_PATH;
                      EConsole Err (lit "Error loading configuration: " ++
                        lit "Missing required zoom configuration (meetingLink, displayName)")])
                   (ffmpegProcess w) (recordingPath w))) as Hload.
  { unfold loadConfig. munfold. cbn -[lit app].
    rewrite Hread. cbn -[lit app]. rewrite Hparse, Hval. cbn -[lit app].
    rewrite <- !app_assoc. reflexivity. }
  assert (main fuel w =
       (Ok (Some 1),
        mkWorld (trace w ++ [ECall LoadConfig; EReadFile CONFIG_PATH;
                   EConsole Err (lit "Error loading configuration: " ++
                     lit "Missing required zoom configuration (meetingLink, displayName)");
                   EConsole Err (lit "Fatal error: " ++ inspect
                     (Error (lit "Missing required zoom configuration (meetingLink, displayName)")));
                   EExit 1])
                (ffmpegProcess w) (recordingPath w))) as Hmain.
  { unfold main, process_exit. unfold try_catch at 1. unfold bind at 1.
    rewrite Hload. munfold. cbn -[lit app]. rewrite <- !app_assoc. reflexivity. }
  split; [now rewrite Hload|]. split; [exact Hmain|].
  intros evs Hevs. rewrite Hmain in Hevs. cbn [snd trace] in Hevs.
  apply app_inv_head in Hevs. subst evs.
  cbn [In]. intros [H|[H|[H|[H|[H|[]]]]]]; discriminate.
Qed.

Lemma C5_missing_link_never_joins_witness :
  main (E := sampleEnv noLink) 3 w0 =
    (Ok (Some 1),
     mkWorld [ECall LoadConfig; EReadFile (lit "config/config.json");
              EConsole Err (lit "Error loading configuration: " ++
                lit "Missing required zoom configuration (meetingLink, displayName)");
              EConsole Err (lit "Fatal error: " ++ lit "Error: " ++
                lit "Missing required zoom configuration (meetingLink, displayName)");
              EExit 1] None None).
Proof.
  refine (proj1 (proj2 (C5_missing_link_never_joins (E := sampleEnv noLink) 3 (lit "{}")
            (mkRawConfig
                     (Some (mkRawZoom None None (Some (lit "Recorder Bot"))))
                     (Some (mkRawCloud (Some (lit "local")) None)) None None None)
            w0 eq_refl eq_refl _))).
  right. eexists. split; reflexivity.
Defined.

Lemma transcribeAudio_grows {E : Env} fuel audioPath dir model :
  emits anyEvent (transcribeAudio fuel audioPath dir model).
Proof.
  unfold transcribeAudio, unlinkAudio.
  repeat first [apply pollFile_emits | emits_step]; exact I.
Qed.

(** [transcribeVideo] once the key is present and the audio extracted: the
    inner [try] with its handler, then the outer handler. *)
Lemma transcribeVideo_after_extraction {E : Env} fuel video dir model w :
  let h := trace w ++ [ECall TranscribeVideo] in
  let audioPath := path_join dir (lit "audio-" ++ date_now h ++ lit ".mp3") in
  let m := match model with Some m => m | None => Transcription.defaultModel end in
  truthy_opt GEMINI_API_KEY = true ->
  ffmpeg_run h video audioPath = None ->
  transcribeVideo fuel video dir model w =
    match transcribeAudio fuel audioPath dir m
            (mkWorld (h ++ [EExtractAudio video audioPath])
                     (ffmpegProcess w) (recordingPath w)) with
    | (Throw e, w2) =>
        (Throw e,
         mkWorld (trace w2 ++ [EUnlink audioPath;
                    EConsole Err (lit "Transcription error: " ++ err_message e)])
                 (ffmpegProcess w2) (recordingPath w2))
    | r => r
    end.
Proof.
  cbv zeta. intros Hkey Hff.
  destruct video as [v|]; [|rewrite ffmpeg_run_null in Hff; discriminate].
  unfold transcribeVideo, extractAudio, unlinkAudio. rewrite Hkey.
  munfold. cbn -[lit app transcribeAudio].
  rewrite Hff. cbn -[lit app transcribeAudio].
  destruct (transcribeAudio _ _ _ _ _) as [[r|e|] w2]; cbn -[lit app]; try reflexivity.
  destruct (fs_unlink _ _); cbn -[lit app]; rewrite <- !app_assoc; reflexivity.
Qed.

(** C9.  Once the audio has been extracted, every throw of
    [transcribeVideo] is preceded by an unlink of the extracted file: the
    trace ends with that unlink and the line the outer handler prints as it
    re-raises.  A refused upload, a failed or refused readiness poll and a
    refused generation are such throws. *)
Theorem C9_audio_deleted_on_failure {E : Env}
    (fuel : nat) (video : option jsstring) (dir : jsstring)
    (model : option jsstring) (w : World) :
  let h := trace w ++ [ECall TranscribeVideo] in
  let audioPath := path_join dir (lit "audio-" ++ date_now h ++ lit ".mp3") in
  let m := match model with Some m => m | None => Transcription.defaultModel end in
  let h1 := h ++ [EExtractAudio video audioPath] in
  let h2 := h1 ++ [EUploadFile audioPath (lit "audio/mp3") (path_basename audioPath)] in
  truthy_opt GEMINI_API_KEY = true ->
  ffmpeg_run h video audioPath = None ->
  (forall e w',
     transcribeVideo fuel video dir model w = (Throw e, w') ->
     exists evs,
       trace w' = h1 ++ evs
                    ++ [EUnlink audioPath;
                        EConsole Err (lit "Transcription error: " ++ err_message e)])
  /\ (forall e,
        gemini_uploadFile h1 audioPath = inl e ->
        exists w', transcribeVideo fuel video dir model w = (Throw e, w'))
  /\ (forall file n,
        fuel = S n ->
        gemini_uploadFile h1 audioPath = inr file ->
        gemini_getFile h2 (rf_name file) = inr (lit "FAILED") ->
        exists w', transcribeVideo fuel video dir model w =
                     (Throw (Error (lit "Gemini file processing failed")), w'))
  /\ (forall file n e,
        fuel = S n ->
        gemini_uploadFile h1 audioPath = inr file ->
        gemini_getFile h2 (rf_name file) = inl e ->
        exists w', transcribeVideo fuel video dir model w = (Throw e, w'))
  /\ (forall file n e,
        fuel = S n ->
        gemini_uploadFile h1 audioPath = inr file ->
        gemini_getFile h2 (rf_name file) = inr (lit "ACTIVE") ->
        gemini_generate (h2 ++ [EGetFile (rf_name file)]) m (Some (rf_uri file))
                        transcriptPrompt = inl e ->
        exists w', transcribeVideo fuel video dir model w = (Throw e, w')).
Proof.
  cbv zeta. intros Hkey Hff.
  pose proof (transcribeVideo_after_extraction fuel video dir model w Hkey Hff) as Hrun.
  cbv zeta in Hrun.
  split; [|split; [|split; [|split]]].
  - intros e w' H. rewrite Hrun in H.
    destruct (transcribeAudio _ _ _ _ _) as [[r|e1|] w2] eqn:Hta; try discriminate.
    injection H as <- <-.
    destruct (transcribeAudio_grows _ _ _ _ _ _ _ Hta) as [evs [Hevs _]].
    exists evs. cbn [trace] in *. rewrite Hevs. now rewrite <- !app_assoc.
  - intros e Hup. rewrite Hrun.
    unfold transcribeAudio at 1. munfold. cbn -[lit app]. rewrite Hup.
    cbn -[lit app]. eexists. reflexivity.
  - intros file n -> Hup Hget. rewrite Hrun.
    unfold transcribeAudio at 1. cbn [pollFile]. munfold. cbn -[lit app].
    rewrite Hup. cbn -[lit app]. rewrite Hget. cbn -[app].
    eexists. reflexivity.
  - intros file n e -> Hup Hget. rewrite Hrun.
    unfold transcribeAudio at 1. cbn [pollFile]. munfold. cbn -[lit app].
    rewrite Hup. cbn -[lit app]. rewrite Hget. cbn -[app].
    eexists. reflexivity.
  - intros file n e -> Hup Hget Hgen. rewrite Hrun.
    unfold transcribeAudio at 1. cbn [pollFile]. munfold. cbn -[lit app transcriptPrompt].
    rewrite Hup. cbn -[lit app transcriptPrompt]. rewrite Hget.
    cbn -[lit app transcriptPrompt str_eqb].
    change (str_eqb (lit "ACTIVE") (lit "PROCESSING")) with false.
    cbn -[lit app transcriptPrompt str_eqb].
    change (str_eqb (lit "ACTIVE") (lit "FAILED")) with false.
    cbn -[lit app transcriptPrompt str_eqb].
    rewrite <- !app_assoc in Hgen |- *. cbn [app] in Hgen |- *. rewrite Hgen.
    cbn -[lit app]. eexists. reflexivity.
Qed.

Lemma C9_audio_deleted_on_failure_witness :
  exists w',
    transcribeVideo (E := sampleEnv uploadRefused) 3
      (Some (lit "/data/rec.mp4")) (lit "/data/transcripts") None w0
    = (Throw (Error (lit "403 Forbidden")), w')
    /\ exists evs,
         trace w' =
           [ECall TranscribeVideo;
            EExtractAudio (Some (lit "/data/rec.mp4"))
                          (lit "/data/transcripts/audio-1714557600000.mp3")]
           ++ evs
           ++ [EUnlink (lit "/data/transcripts/audio-1714557600000.mp3");
               EConsole Err (lit "Transcription error: " ++ lit "403 Forbidden")].
Proof.
  destruct (C9_audio_deleted_on_failure (E := sampleEnv uploadRefused) 3
              (Some (lit "/data/rec.mp4")) (lit "/data/transcripts") None w0
              eq_refl eq_refl) as [Hany [Hup _]].
  destruct (Hup (Error (lit "403 Forbidden")) eq_refl) as [w' Hrun].
  exists w'. split; [exact Hrun|].
  exact (Hany _ _ Hrun).
Defined.

(** *** Computations that never throw *)

Lemma no_throw_emit e : no_throw (emit e).
Proof. intros w e' w'. discriminate. Qed.

Lemma no_throw_bind {A B} (c : M A) (k : A -> M B) :
  no_throw c -> (forall a, no_throw (k a)) -> no_throw (bind c k).
Proof.
  intros Hc Hk w e w' H. unfold bind in H.
  destruct (c w) as [[a|e1|] w1] eqn:Hcw.
  - exact (Hk a _ _ _ H).
  - exact (Hc _ _ _ Hcw).
  - discriminate.
Qed.

Lemma no_throw_try_catch {A} (c : M A) (h : error -> M A) :
  (forall e, no_throw (h e)) -> no_throw (try_catch c h).
Proof.
  intros Hh w e w' H. unfold try_catch in H.
  destruct (c w) as [[a|e1|] w1] eqn:Hcw; try discriminate.
  exact (Hh e1 _ _ _ H).
Qed.

Section Session.
Context {E : Env}.

Lemma onSessionError_no_throw rp e : no_throw (onSessionError rp e).
Proof.
  unfold onSessionError. apply no_throw_bind; [apply no_throw_emit|]. intros _.
  apply no_throw_try_catch. intros e'. apply no_throw_emit.
Qed.

Lemma runRecordingSession_no_throw fuel config : no_throw (runRecordingSession fuel config).
Proof.
  unfold runRecordingSession. apply no_throw_bind; [apply no_throw_emit|]. intros _.
  apply no_throw_try_catch. intros e. apply onSessionError_no_throw.
Qed.

End Session.

Lemma frames_ret {A} (a : A) : frames (ret a).
Proof. intros w r w' [= <- <-]. split; reflexivity. Qed.

Lemma frames_throw {A} e : frames (@throw A e).
Proof. intros w r w' [= <- <-]. split; reflexivity. Qed.

Lemma frames_pending {A} : frames (@pending A).
Proof. intros w r w' [= <- <-]. split; reflexivity. Qed.

Lemma frames_emit e : frames (emit e).
Proof. intros w r w' [= <- <-]. split; reflexivity. Qed.

Lemma frames_get_trace : frames get_trace.
Proof. intros w r w' [= <- <-]. split; reflexivity. Qed.

Lemma frames_bind {A B} (c : M A) (k : A -> M B) :
  frames c -> (forall a, frames (k a)) -> frames (bind c k).
Proof.
  intros Hc Hk w r w' H. unfold bind in H.
  destruct (c w) as [[a|e|] w1] eqn:Hcw.
  - destruct (Hc _ _ _ Hcw) as [H1 H2]. destruct (Hk a _ _ _ H) as [H3 H4].
    split; congruence.
  - injection H as <- <-. exact (Hc _ _ _ Hcw).
  - injection H as <- <-. exact (Hc _ _ _ Hcw).
Qed.

Lemma frames_try_catch {A} (c : M A) (h : error -> M A) :
  frames c -> (forall e, frames (h e)) -> frames (try_catch c h).
Proof.
  intros Hc Hh w r w' H. unfold try_catch in H.
  destruct (c w) as [[a|e|] w1] eqn:Hcw.
  - injection H as <- <-. exact (Hc _ _ _ Hcw).
  - destruct (Hc _ _ _ Hcw) as [H1 H2]. destruct (Hh e _ _ _ H) as [H3 H4].
    split; congruence.
  - injection H as <- <-. exact (Hc _ _ _ Hcw).
Qed.

Lemma frames_call_val {A} e (o : list event -> error + A) : frames (call_val e o).
Proof.
  unfold call_val.
  apply frames_bind; [apply frames_get_trace|]. intros h.
  apply frames_bind; [apply frames_emit|]. intros _.
  destruct (o h); [apply frames_throw|apply frames_ret].
Qed.

Ltac session_cbn :=
  cbn -[lit app joinZoomMeeting startScreenRecording monitorMeeting
        stopScreenRecording quitZoom verifyRecording postProcessAndReport
        onSessionError].

Section SessionStages.
Context {E : Env}.

Lemma monitorMeeting_frames fuel : frames (monitorMeeting fuel).
Proof.
  unfold monitorMeeting. apply frames_bind; [apply frames_emit|]. intros _.
  induction fuel as [|n IH]; simpl; [apply frames_pending|].
  apply frames_bind; [apply frames_emit|]. intros _.
  apply frames_bind.
  - unfold monitorTick. apply frames_try_catch.
    + apply frames_bind; [apply frames_call_val|]. intros out.
      destruct (str_eqb _ _); [|apply frames_ret].
      apply frames_bind; [apply frames_emit|]. intros _. apply frames_ret.
    + intros _. apply frames_bind; [apply frames_emit|]. intros _. apply frames_ret.
  - intros [|]; [apply frames_ret|exact IH].
Qed.

(** After a start that returned, the handle is held and the module variable
    is the path returned. *)
Lemma startScreenRecording_holds outputDir quality w path w' :
  startScreenRecording outputDir quality w = (Ok path, w') ->
  recordingPath w' = Some path /\ truthy path = true /\
  exists p, ffmpegProcess w' = Some p.
Proof.
  unfold startScreenRecording, onSpawnError. munfold.
  cbn -[lit app Z_to_js replaceColonDot ffmpegArgs].
  destruct (fs_mkdir _ _); cbn -[lit app Z_to_js replaceColonDot ffmpegArgs];
    [discriminate|].
  destruct (selectSettings _); cbn -[lit app Z_to_js replaceColonDot ffmpegArgs];
    [|discriminate].
  destruct (spawn _ _ _) as [e|[e|]]; cbn -[lit app Z_to_js replaceColonDot ffmpegArgs];
    [discriminate| |].
  - destruct (code_is e ENOENT); cbn -[lit app Z_to_js replaceColonDot ffmpegArgs];
      intros [= <- <-]; cbn -[lit app replaceColonDot];
      (split; [reflexivity|split; [apply path_join_truthy|eauto]]).
  - intros [= <- <-]; cbn -[lit app replaceColonDot];
      (split; [reflexivity|split; [apply path_join_truthy|eauto]]).
Qed.

(** With a handle held, what a stop resolves with is the module variable. *)
Lemma stopScreenRecording_value w p v w' :
  ffmpegProcess w = Some p ->
  stopScreenRecording w = (Ok v, w') -> v = recordingPath w.
Proof.
  intros Hp. unfold stopScreenRecording. munfold. cbn -[lit app Z_to_js].
  rewrite Hp. cbn -[lit app Z_to_js].
  destruct (close_event _ _) as [code|]; cbn -[lit app Z_to_js]; [|discriminate].
  destruct (exit_ok code); cbn -[lit app Z_to_js]; [|discriminate].
  destruct (fs_stat _ _); cbn -[lit app Z_to_js]; [discriminate|].
  intros [= <- _]. reflexivity.
Qed.

(** Lines 71-109 when [transcribeVideo] throws. *)
Lemma postProcessAndReport_after_throw fuel config ai recording transcriptsDir w e w1 :
  raw_ai config = Some ai ->
  transcribeVideo fuel recording transcriptsDir (ra_transcriptionModel ai) w
    = (Throw e, w1) ->
  postProcessAndReport fuel config recording transcriptsDir w =
    (Ok tt,
     mkWorld (trace w1 ++
                [EConsole Err (lit "Transcription failed:");
                 EConsole Err (lit "  Error: " ++ err_message e);
                 EConsole Log (lit "Files generated:")] ++
                (if truthy_opt recording
                 then [EConsole Log (lit "  Recording: " ++ interp recording)]
                 else []))
             (ffmpegProcess w1) (recordingPath w1)).
Proof.
  intros Hai Hthrow.
  unfold postProcessAndReport, postProcess, onTranscriptionError, finalReport.
  rewrite Hai. unfold section. munfold. cbn -[lit app transcribeVideo].
  rewrite Hthrow. cbn -[lit app].
  destruct (truthy_opt recording); cbn -[lit app];
    rewrite <- !app_assoc; reflexivity.
Qed.

End SessionStages.

Ltac emits_auto :=
  repeat emits_step; unfold notSummaryCall; try discriminate.

Lemma joinZoomMeeting_emits {E : Env} config : emits notSummaryCall (joinZoomMeeting config).
Proof. unfold joinZoomMeeting. emits_auto. Qed.

Lemma startScreenRecording_emits {E : Env} dir q : emits notSummaryCall (startScreenRecording dir q).
Proof. unfold startScreenRecording, onSpawnError. emits_auto. Qed.

Lemma monitorMeeting_emits {E : Env} fuel : emits notSummaryCall (monitorMeeting fuel).
Proof.
  unfold monitorMeeting. emits_step; [emits_auto|].
  induction fuel as [|n IH]; cbn [monitorLoop]; [apply emits_pending|].
  apply emits_bind; [emits_auto|intros _].
  apply emits_bind; [unfold monitorTick; emits_auto|intros ended].
  destruct ended; [emits_auto|exact IH].
Qed.

Lemma stopScreenRecording_emits {E : Env} : emits notSummaryCall stopScreenRecording.
Proof. unfold stopScreenRecording. emits_auto. Qed.

Lemma quitZoom_emits {E : Env} : emits notSummaryCall quitZoom.
Proof. unfold quitZoom. emits_auto. Qed.

Lemma verifyRecording_emits {E : Env} config rp : emits notSummaryCall (verifyRecording config rp).
Proof. unfold verifyRecording, uploadToCloud. emits_auto. Qed.

(** C6.  A session in which every stage up to the verification has
    completed and [transcribeVideo] throws: the path the recorder stopped
    with is the one it started with; the session ends normally; after the
    throw the trace holds the two warning lines and a report made of the
    heading and the recording path, with no transcript line and no summary
    line; the whole session holds no call of [generateSummary]; [main], run
    once ([--now], or no schedule enabled), then exits with code 0.  No
    session ever throws. *)
Theorem C6_transcription_failure_is_advisory {E : Env}
    (fuel : nat) (config : rawConfig) (rec : rawRecording) (ai : rawAi)
    (outputDir id started status : jsstring) (stopped : option jsstring)
    (w w2 w3 w4 w5 w6 w7 w8 : World) (e : error) :
  let transcriptsDir := path_join outputDir (lit "../transcripts") in
  let h := trace w ++ [ECall RunRecordingSession] in
  let w1 := mkWorld (h ++ [EMkdir outputDir; EMkdir transcriptsDir])
                    (ffmpegProcess w) (recordingPath w) in
  raw_recording config = Some rec -> rr_outputDir rec = Some outputDir ->
  raw_ai config = Some ai ->
  fs_mkdir h outputDir = None ->
  fs_mkdir (h ++ [EMkdir outputDir]) transcriptsDir = None ->
  joinZoomMeeting config w1 = (Ok id, w2) ->
  startScreenRecording outputDir (rr_quality rec) w2 = (Ok started, w3) ->
  monitorMeeting fuel w3 = (Ok status, w4) ->
  stopScreenRecording
    (mkWorld (trace w4 ++ [ESleep 2000]) (ffmpegProcess w4) (recordingPath w4))
    = (Ok stopped, w5) ->
  quitZoom w5 = (Ok tt, w6) ->
  verifyRecording config stopped w6 = (Ok tt, w7) ->
  transcribeVideo fuel stopped transcriptsDir (ra_transcriptionModel ai) w7
    = (Throw e, w8) ->
  let report :=
    [EConsole Err (lit "Transcription failed:");
     EConsole Err (lit "  Error: " ++ err_message e);
     EConsole Log (lit "Files generated:");
     EConsole Log (lit "  Recording: " ++ started)] in
  let w9 := mkWorld (trace w8 ++ report) (ffmpegProcess w8) (recordingPath w8) in
  stopped = Some started
  /\ runRecordingSession fuel config w = (Ok tt, w9)
  /\ (forall evs, trace w9 = trace w ++ evs -> ~ In (ECall GenerateSummary) evs)
  /\ (forall w0 wc,
        loadConfig w0 = (Ok config, wc) ->
        argv_now = true \/ scheduleEnabled config = false ->
        wc = w ->
        main fuel w0 =
          (Ok (Some 0),
           mkWorld (trace w9 ++ [EExit 0]) (ffmpegProcess w9) (recordingPath w9)))
  /\ (forall cfg w0 e' w', runRecordingSession fuel cfg w0 <> (Throw e', w')).
Proof.
  cbv zeta. intros Hrec Hdir Hai Hmk1 Hmk2 Hjoin Hstart Hmon Hstop Hquit Hver Hthrow.
  assert (stopped = Some started) as Hsame.
  { destruct (startScreenRecording_holds _ _ _ _ _ Hstart) as [Hpath [_ [p Hp]]].
    destruct (monitorMeeting_frames _ _ _ _ Hmon) as [Hf1 Hf2].
    rewrite (stopScreenRecording_value
               (mkWorld (trace w4 ++ [ESleep 2000]) (ffmpegProcess w4) (recordingPath w4))
               p _ _ (eq_trans Hf1 Hp) Hstop).
    cbn [recordingPath]. congruence. }
  assert (truthy started = true) as Htruthy
    by (apply (startScreenRecording_holds _ _ _ _ _ Hstart)).
  assert (runRecordingSession fuel config w =
          (Ok tt,
           mkWorld (trace w8 ++
                      [EConsole Err (lit "Transcription failed:");
                       EConsole Err (lit "  Error: " ++ err_message e);
                       EConsole Log (lit "Files generated:");
                       EConsole Log (lit "  Recording: " ++ started)])
                   (ffmpegProcess w8) (recordingPath w8))) as Hrun.
  { rewrite <- ?app_assoc in Hmk2, Hjoin. cbn [app] in Hmk2, Hjoin.
    unfold runRecordingSession, section. munfold. session_cbn.
    rewrite Hrec. session_cbn. rewrite Hdir. session_cbn.
    rewrite Hmk1. session_cbn. rewrite <- ?app_assoc. cbn [app].
    rewrite Hmk2. session_cbn. rewrite <- ?app_assoc. cbn [app].
    rewrite Hjoin. session_cbn. rewrite Hstart. session_cbn.
    rewrite Hmon. session_cbn. rewrite Hstop. session_cbn.
    rewrite Hquit. session_cbn. rewrite Hver. session_cbn.
    rewrite (postProcessAndReport_after_throw _ _ _ _ _ _ _ _ Hai Hthrow).
    rewrite Hsame. cbn [truthy_opt interp]. rewrite Htruthy. reflexivity. }
  split; [exact Hsame|]. split; [exact Hrun|]. split; [|split].
  - intros evs Hevs.
    destruct (joinZoomMeeting_emits _ _ _ _ Hjoin) as [e2 [H2 F2]].
    destruct (startScreenRecording_emits _ _ _ _ _ Hstart) as [e3 [H3 F3]].
    destruct (monitorMeeting_emits _ _ _ _ Hmon) as [e4 [H4 F4]].
    destruct (stopScreenRecording_emits _ _ _ Hstop) as [e5 [H5 F5]].
    destruct (quitZoom_emits _ _ _ Hquit) as [e6 [H6 F6]].
    destruct (verifyRecording_emits _ _ _ _ _ Hver) as [e7 [H7 F7]].
    destruct (transcribeVideo_emits _ _ _ _ _ _ _ Hthrow) as [e8 [H8 F8]].
    cbn [trace] in Hevs, H2, H5.
    rewrite H8, H7, H6, H5, H4, H3, H2 in Hevs.
    rewrite <- !app_assoc in Hevs. apply app_inv_head in Hevs. subst evs.
    assert (forall l, Forall notSummaryCall l -> ~ In (ECall GenerateSummary) l) as Hno.
    { intros l Hl Hin. rewrite Forall_forall in Hl. now apply (Hl _ Hin). }
    apply Hno. repeat (apply Forall_app; split); try assumption;
      repeat constructor; discriminate.
  - intros w0 wc Hload Hmode ->.
    unfold main, process_exit. unfold try_catch at 1. unfold bind at 1.
    rewrite Hload.
    destruct Hmode as [Hnow|Hsched].
    + rewrite Hnow. unfold bind at 1. rewrite Hrun. reflexivity.
    + rewrite Hsched. destruct argv_now; unfold bind at 1; rewrite Hrun; reflexivity.
  - intros cfg w0'. apply runRecordingSession_no_throw.
Qed.

Lemma C6_transcription_failure_is_advisory_witness :
  exists w9,
    main (E := sampleEnv uploadRefused) 3 w0 = (Ok (Some 0), w9)
    /\ In (EConsole Log (lit "  Recording: " ++ recordedFile)) (trace w9).
Proof.
  pose (E := sampleEnv uploadRefused).
  pose (config := applyDefaults (sampleConfig (lit "https://zoom.us/j/123456789?pwd=abc") None)).
  pose (w := snd (loadConfig (E := E) w0)).
  pose (dir := lit "/data/recordings").
  pose (tdir := path_join (Env := E) dir (lit "../transcripts")).
  pose (w1 := mkWorld (trace w ++ [ECall RunRecordingSession; EMkdir dir; EMkdir tdir])
                      None None).
  pose (w2 := snd (joinZoomMeeting (E := E) config w1)).
  pose (w3 := snd (startScreenRecording (E := E) dir (Some (lit "medium")) w2)).
  pose (w4 := snd (monitorMeeting (E := E) 3 w3)).
  pose (w5 := snd (stopScreenRecording (E := E)
                     (mkWorld (trace w4 ++ [ESleep 2000]) (ffmpegProcess w4)
                              (recordingPath w4)))).
  pose (w6 := snd (quitZoom (E := E) w5)).
  pose (w7 := snd (verifyRecording (E := E) config (Some recordedFile) w6)).
  pose (w8 := snd (transcribeVideo (E := E) 3 (Some recordedFile) tdir
                     (Some (lit "gemini-1.5-flash")) w7)).
  destruct (C6_transcription_failure_is_advisory (E := E) 3 config
              (mkRawRecording (Some dir) (Some (lit "medium")))
              (mkRawAi (Some (lit "gemini-1.5-flash")) (Some (lit "gemini-1.5-flash")))
              dir (lit "123456789") recordedFile (lit "ended") (Some recordedFile)
              w w2 w3 w4 w5 w6 w7 w8 (Error (lit "403 Forbidden"))
              eq_refl eq_refl eq_refl eq_refl eq_refl
              ltac:(vm_compute; reflexivity) ltac:(vm_compute; reflexivity)
              ltac:(vm_compute; reflexivity) ltac:(vm_compute; reflexivity)
              ltac:(vm_compute; reflexivity) ltac:(vm_compute; reflexivity)
              ltac:(vm_compute; reflexivity))
    as [_ [_ [_ [Hmain _]]]].
  eexists. split.
  - apply (Hmain w0 w); [vm_compute; reflexivity|now left|reflexivity].
  - cbn [trace]. apply in_or_app. left. apply in_or_app. right.
    cbn [In]. auto.
Defined.

(* ===================================================================== *)
(** ** Leaving the meeting: the monitor and the quit                       *)
(* ===================================================================== *)

Lemma rounds_S k evs : rounds (S k) evs = evs ++ rounds k evs.
Proof. reflexivity. Qed.



Section Monitor.
Context {E : Env}.

Lemma str_eqb_eq a b : str_eqb a b = true <-> a = b.
Proof.
  unfold str_eqb. destruct (list_eq_dec Z.eq_dec a b); split; auto; discriminate.
Qed.

Lemma str_eqb_neq a b : str_eqb a b = false <-> a <> b.
Proof.
  unfold str_eqb. destruct (list_eq_dec Z.eq_dec a b); split; auto;
    try discriminate. intros H; now elim H.
Qed.

Lemma monitorLoop_open fuel w :
  windowOpen (trace w) ->
  monitorLoop (S fuel) w =
    monitorLoop fuel (mkWorld (trace w ++ [ESleep 5000; EExec monitorCmd])
                              (ffmpegProcess w) (recordingPath w)).
Proof.
  intros [out [Hex Hne]]. cbn [monitorLoop]. unfold monitorTick. fold monitorCmd.
  munfold. cbn -[lit app monitorCmd trim str_eqb monitorLoop].
  rewrite Hex. cbn -[lit app monitorCmd trim str_eqb monitorLoop].
  rewrite (proj2 (str_eqb_neq _ _) Hne).
  cbn -[lit app monitorCmd trim str_eqb monitorLoop].
  rewrite <- !app_assoc. reflexivity.
Qed.

Lemma monitorLoop_gone fuel w line :
  windowGone (trace w) line ->
  monitorLoop (S fuel) w =
    (Ok (lit "ended"),
     mkWorld (trace w ++ [ESleep 5000; EExec monitorCmd; EConsole Log line])
             (ffmpegProcess w) (recordingPath w)).
Proof.
  intros [[out [Hex [Heq ->]]]|[e [Hex ->]]];
    cbn [monitorLoop]; unfold monitorTick; fold monitorCmd;
    munfold; cbn -[lit app monitorCmd trim str_eqb monitorLoop];
    rewrite Hex; cbn -[lit app monitorCmd trim str_eqb monitorLoop].
  - rewrite (proj2 (str_eqb_eq _ _) Heq).
    cbn -[lit app monitorCmd trim str_eqb monitorLoop].
    rewrite <- !app_assoc. reflexivity.
  - rewrite <- !app_assoc. reflexivity.
Qed.

Lemma monitorLoop_rounds n : forall fuel w line,
  (forall k, (k < n)%nat ->
     windowOpen (trace w ++ rounds k [ESleep 5000; EExec monitorCmd])) ->
  windowGone (trace w ++ rounds n [ESleep 5000; EExec monitorCmd]) line ->
  (n < fuel)%nat ->
  monitorLoop fuel w =
    (Ok (lit "ended"),
     mkWorld (trace w ++ rounds n [ESleep 5000; EExec monitorCmd]
                ++ [ESleep 5000; EExec monitorCmd; EConsole Log line])
             (ffmpegProcess w) (recordingPath w)).
Proof.
  induction n as [|n IH]; intros fuel w line Hopen Hgone Hfuel.
  - destruct fuel as [|fuel]; [lia|].
    cbn [rounds repeat List.concat] in *. rewrite app_nil_r in Hgone.
    rewrite (monitorLoop_gone fuel w line Hgone). reflexivity.
  - destruct fuel as [|fuel]; [lia|].
    rewrite monitorLoop_open.
    + rewrite (IH fuel _ line).
      * cbn [trace ffmpegProcess recordingPath]. rewrite rounds_S.
        rewrite <- !app_assoc. reflexivity.
      * intros k Hk. cbn [trace]. rewrite <- app_assoc, <- rounds_S.
        apply Hopen. lia.
      * cbn [trace]. rewrite <- app_assoc, <- rounds_S. exact Hgone.
      * lia.
    + specialize (Hopen 0%nat ltac:(lia)). cbn [rounds repeat List.concat] in Hopen.
      now rewrite app_nil_r in Hopen.
Qed.

Lemma monitorLoop_short n : forall fuel w,
  (forall k, (k < n)%nat ->
     windowOpen (trace w ++ rounds k [ESleep 5000; EExec monitorCmd])) ->
  (fuel <= n)%nat ->
  fst (monitorLoop fuel w) = Pending.
Proof.
  induction n as [|n IH]; intros fuel w Hopen Hfuel.
  - destruct fuel; [reflexivity|lia].
  - destruct fuel as [|fuel]; [reflexivity|].
    rewrite monitorLoop_open.
    + apply IH; [|lia].
      intros k Hk. cbn [trace]. rewrite <- app_assoc, <- rounds_S.
      apply Hopen. lia.
    + specialize (Hopen 0%nat ltac:(lia)). cbn [rounds repeat List.concat] in Hopen.
      now rewrite app_nil_r in Hopen.
Qed.

End Monitor.

(** X5. The meeting-end poll: if the window is there at the first [n] ticks
    and gone (or the query fails) at the next one, then with more than [n]
    ticks of fuel [monitorMeeting] resolves with [ended] right after that
    tick, having slept five seconds before each query; with [n] ticks or fewer
    it is still pending. The recorder's variables are untouched. *)
Theorem monitorMeeting_resolves_at_first_gone {E : Env}
    (n fuel : nat) (w : World) (line : jsstring) :
  let h := trace w ++ [ECall MonitorMeeting] in
  let tick := [ESleep 5000; EExec monitorCmd] in
  (forall k, (k < n)%nat -> windowOpen (h ++ rounds k tick)) ->
  windowGone (h ++ rounds n tick) line ->
  ((n < fuel)%nat ->
     monitorMeeting fuel w =
       (Ok (lit "ended"),
        mkWorld (h ++ rounds n tick ++ tick ++ [EConsole Log line])
                (ffmpegProcess w) (recordingPath w)))
  /\ ((fuel <= n)%nat -> fst (monitorMeeting fuel w) = Pending).
Proof.
  cbv zeta. intros Hopen Hgone. split; intros Hfuel.
  - unfold monitorMeeting. unfold bind, emit.
    rewrite (monitorLoop_rounds n fuel _ line); try assumption.
    cbn [trace ffmpegProcess recordingPath]. rewrite <- !app_assoc. reflexivity.
  - unfold monitorMeeting. unfold bind, emit.
    pose proof (monitorLoop_short n fuel
                  (mkWorld (trace w ++ [ECall MonitorMeeting])
                           (ffmpegProcess w) (recordingPath w)) Hopen Hfuel) as H.
    destruct (monitorLoop fuel _) as [[r|e|] w']; cbn in H; try discriminate.
    reflexivity.
Qed.

Lemma monitorMeeting_resolves_at_first_gone_witness :
  monitorMeeting (E := timedEnv happy 2 0) 5 w0 =
    (Ok (lit "ended"),
     mkWorld ([ECall MonitorMeeting]
                ++ rounds 2 [ESleep 5000; EExec (monitorCmd (E := timedEnv happy 2 0))]
                ++ [ESleep 5000; EExec (monitorCmd (E := timedEnv happy 2 0))]
                ++ [EConsole Log (lit "Zoom Meeting window closed. Ending recording...")])
             None None)
  /\ fst (monitorMeeting (E := timedEnv happy 2 0) 2 w0) = Pending.
Proof.
  assert (forall k, (k < 2)%nat ->
            windowOpen (E := timedEnv happy 2 0)
              (([] ++ [ECall MonitorMeeting]) ++
               rounds k [ESleep 5000; EExec (monitorCmd (E := timedEnv happy 2 0))]))
    as Hopen.
  { intros k Hk. destruct k as [|[|k]]; [| |lia];
      (exists (lit "true" ++ [10]); split; [reflexivity|discriminate]). }
  assert (windowGone (E := timedEnv happy 2 0)
            (([] ++ [ECall MonitorMeeting]) ++
             rounds 2 [ESleep 5000; EExec (monitorCmd (E := timedEnv happy 2 0))])
            (lit "Zoom Meeting window closed. Ending recording...")) as Hgone.
  { left. exists (lit "false" ++ [10]). repeat split; reflexivity. }
  split.
  - apply (proj1 (monitorMeeting_resolves_at_first_gone (E := timedEnv happy 2 0)
                    2 5 w0 _ Hopen Hgone)). lia.
  - apply (proj2 (monitorMeeting_resolves_at_first_gone (E := timedEnv happy 2 0)
                    2 2 w0 _ Hopen Hgone)). lia.
Defined.

(* ===================================================================== *)
(** ** Launching the application                                           *)
(* ===================================================================== *)

(** X3. A failure of the opener is fatal: [joinZoomMeeting] prints it and
    re-throws the same error, and no automation script is written or run. *)
Theorem joinZoomMeeting_open_failure_is_fatal {E : Env}
    (config : rawConfig) (zoom : rawZoom) (link id url : jsstring)
    (w : World) (e : error) :
  let h := trace w ++ [ECall JoinZoomMeeting] in
  let open := lit "open " ++ quoted url in
  raw_zoom config = Some zoom -> rz_meetingLink zoom = Some link ->
  prepareDeepLink zoom link = inr (id, url) ->
  exec h open = inl e ->
  joinZoomMeeting config w =
    (Throw e,
     mkWorld (h ++ [EExec open;
                    EConsole Err (lit "Failed to open Zoom URL: " ++ err_message e)])
             (ffmpegProcess w) (recordingPath w)).
Proof.
  cbv zeta. intros Hz Hl Hp Hopen. unfold joinZoomMeeting. rewrite Hz, Hl, Hp.
  munfold. cbn -[lit app quoted]. rewrite Hopen. cbn -[lit app quoted].
  rewrite <- !app_assoc. reflexivity.
Qed.

Lemma joinZoomMeeting_open_failure_is_fatal_witness :
  joinZoomMeeting (E := sampleEnv openRefused)
    (sampleConfig (lit "https://zoom.us/j/123456789") None) w0 =
    (Throw (Error (lit "LSOpenURLsWithRole() failed")),
     mkWorld ([ECall JoinZoomMeeting] ++
              [EExec (lit "open " ++ quoted
                        (lit "zoommtg://zoom.us/join?confno=123456789&uname=Recorder%20Bot"));
               EConsole Err (lit "Failed to open Zoom URL: "
                             ++ lit "LSOpenURLsWithRole() failed")])
             None None).
Proof.
  apply (joinZoomMeeting_open_failure_is_fatal (E := sampleEnv openRefused)
           (sampleConfig (lit "https://zoom.us/j/123456789") None)
           withoutPassword (lit "https://zoom.us/j/123456789") (lit "123456789")
           (lit "zoommtg://zoom.us/join?confno=123456789&uname=Recorder%20Bot")
           w0 (Error (lit "LSOpenURLsWithRole() failed")));
    reflexivity.
Defined.



(* ===================================================================== *)
(** ** The deep link on the command line and on the console                *)
(* ===================================================================== *)

Lemma encodeURIComponent_nonempty s e :
  s <> [] -> encodeURIComponent s = Some e -> e <> [].
Proof.
  destruct s as [|c t]; [intros H; now elim H|]. intros _. simpl.
  destruct (uriUnreserved c).
  - destruct (encodeURIComponent t); [|discriminate]. intros [= <-]. discriminate.
  - destruct (isLeadSurrogate c).
    + destruct t as [|d t']; [discriminate|].
      destruct (isTrailSurrogate d); [|discriminate].
      destruct (encodeURIComponent t'); [|discriminate]. intros [= <-].
      unfold pctUtf8, utf8.
      repeat match goal with |- context [if ?b then _ else _] => destruct b end;
        discriminate.
    + destruct (isTrailSurrogate c); [discriminate|].
      destruct (encodeURIComponent t); [|discriminate]. intros [= <-].
      unfold pctUtf8, utf8.
      repeat match goal with |- context [if ?b then _ else _] => destruct b end;
        discriminate.
Qed.

(** The shape of the deep link, by whether a password is in use. *)
Lemma prepareDeepLink_shape zoom link id url :
  prepareDeepLink zoom link = inr (id, url) ->
  extractMeetingId link = inr id
  /\ exists en,
       encodeURIComponent (or_default (rz_displayName zoom) (lit "Zoom Recorder")) = Some en
       /\ ((extractPassword (rz_password zoom) link = []
            /\ url = lit "zoommtg://zoom.us/join?confno=" ++ id ++ lit "&uname=" ++ en)
           \/ (extractPassword (rz_password zoom) link <> []
               /\ exists ep,
                    encodeURIComponent (extractPassword (rz_password zoom) link) = Some ep
                    /\ url = lit "zoommtg://zoom.us/join?confno=" ++ id
                             ++ lit "&pwd=" ++ ep ++ lit "&uname=" ++ en)).
Proof.
  unfold prepareDeepLink.
  destruct (extractMeetingId link) as [e|id0] eqn:Hid; [discriminate|].
  destruct (buildZoomUrl _ _ _) as [e|url0] eqn:Hurl; [discriminate|].
  intros [= -> ->]. split; [reflexivity|].
  destruct (extractPassword (rz_password zoom) link) as [|c pw] eqn:Hpw.
  - apply buildZoomUrl_without_password in Hurl as [en [Hen ->]].
    exists en. split; [exact Hen|]. left. split; reflexivity.
  - apply buildZoomUrl_with_password in Hurl as [ep [en [Hep [Hen ->]]]];
      [|discriminate].
    exists en. split; [exact Hen|]. right. split; [discriminate|].
    exists ep. split; [exact Hep|reflexivity].
Qed.

Lemma digit_safe c : isDigit c = true -> uriSafe c = true.
Proof.
  intros H. unfold uriSafe, uriUnreserved. rewrite H.
  rewrite !orb_true_r. reflexivity.
Qed.

Lemma safe_linkChar l : forallb uriSafe l = true -> forallb linkChar l = true.
Proof.
  intros H. rewrite forallb_forall in *. intros c Hc. unfold linkChar.
  now rewrite (H c Hc).
Qed.

Lemma digits_linkChar l : forallb isDigit l = true -> forallb linkChar l = true.
Proof.
  intros H. apply safe_linkChar. rewrite forallb_forall in *.
  intros c Hc. apply digit_safe. auto.
Qed.

Lemma linkChar_not_special c : linkChar c = true -> shellSpecial c = false.
Proof.
  intros H. unfold shellSpecial.
  repeat match goal with
  | |- context [c =? ?k] =>
      destruct (Z.eqb_spec c k) as [->|]; [discriminate H|]
  end.
  reflexivity.
Qed.

(** X1. The deep link is made of letters, digits, [- _ . ! ~ * ' ( ) %] and
    the separators [: / ? = &] only, and the identifier in it is a non-empty
    run of digits: no double quote, dollar, backquote, backslash or white
    space can reach the shell, and the command line handed to it has exactly
    its own two double quotes. *)
Theorem deep_link_is_shell_safe (zoom : rawZoom) (link id url : jsstring) :
  prepareDeepLink zoom link = inr (id, url) ->
  id <> [] /\ forallb isDigit id = true
  /\ forallb linkChar url = true
  /\ existsb shellSpecial url = false
  /\ count_occ Z.eq_dec (lit "open " ++ quoted url) 34 = 2%nat.
Proof.
  intros Hp. apply prepareDeepLink_shape in Hp as [Hid [en [Hen Hshape]]].
  apply extractMeetingId_digits in Hid as [Hdig Hne].
  pose proof (encodeURIComponent_safe _ _ Hen) as Hsafe.
  assert (forallb linkChar url = true) as Hlink.
  { destruct Hshape as [[_ ->]|[_ [ep [Hep ->]]]].
    - rewrite !forallb_app, (digits_linkChar _ Hdig), (safe_linkChar _ Hsafe).
      reflexivity.
    - rewrite !forallb_app, (digits_linkChar _ Hdig), (safe_linkChar _ Hsafe),
        (safe_linkChar _ (encodeURIComponent_safe _ _ Hep)).
      reflexivity. }
  split; [exact Hne|]. split; [exact Hdig|]. split; [exact Hlink|].
  assert (forall l, forallb linkChar l = true -> existsb shellSpecial l = false) as Hno.
  { induction l as [|c l IH]; simpl; [reflexivity|]. intros H.
    apply andb_prop in H as [Hc Hl].
    now rewrite (linkChar_not_special c Hc), IH. }
  split; [now apply Hno|].
  assert (forall l, forallb linkChar l = true -> count_occ Z.eq_dec l 34 = 0%nat) as Hq.
  { induction l as [|c l IH]; simpl; [reflexivity|]. intros H.
    apply andb_prop in H as [Hc Hl].
    destruct (Z.eq_dec c 34) as [->|]; [discriminate Hc|now apply IH]. }
  unfold quoted. rewrite !count_occ_app.
  pose proof (Hq url Hlink) as Hzero. unfold jsstring, codeunit in *.
  rewrite Hzero. reflexivity.
Qed.

Lemma deep_link_is_shell_safe_witness :
  existsb shellSpecial
    (lit "zoommtg://zoom.us/join?confno=123456789&pwd=s3cret%26x&uname=Recorder%20Bot")
    = false
  /\ count_occ Z.eq_dec
       (lit "open " ++ quoted
          (lit "zoommtg://zoom.us/join?confno=123456789&pwd=s3cret%26x&uname=Recorder%20Bot"))
       34 = 2%nat.
Proof.
  destruct (deep_link_is_shell_safe withPassword
              (lit "https://zoom.us/j/123456789?pwd=fromlink") (lit "123456789")
              (lit "zoommtg://zoom.us/join?confno=123456789&pwd=s3cret%26x&uname=Recorder%20Bot")
              eq_refl) as [_ [_ [_ [Hsafe Hquotes]]]].
  split; assumption.
Defined.

(** *** The link as the console shows it *)

Lemma dropWhile_app_stop f a b :
  forallb f a = true ->
  match b with c :: _ => f c | [] => false end = false ->
  dropWhile f (a ++ b) = b.
Proof.
  induction a as [|x a IH]; simpl; intros Ha Hb.
  - destruct b as [|c b]; [reflexivity|]. simpl. now rewrite Hb.
  - apply andb_prop in Ha as [Hx Ha]. rewrite Hx. now apply IH.
Qed.

Lemma re_pwd_span_notP c s : notP c = true -> re_pwd_span (c :: s) = None.
Proof.
  intros H. unfold re_pwd_span.
  change (lit "pwd=") with [112; 119; 100; 61]. cbn [stripPrefix].
  unfold notP in H. destruct (Z.eqb_spec 112 c) as [<-|]; [discriminate|reflexivity].
Qed.

Lemma maskPassword_skip l rest :
  forallb notP l = true -> maskPassword (l ++ rest) = l ++ maskPassword rest.
Proof.
  induction l as [|c l IH]; intros H; [reflexivity|].
  cbn [forallb] in H. apply andb_prop in H as [Hc Hl].
  cbn [app maskPassword]. rewrite (re_pwd_span_notP c _ Hc).
  now rewrite IH.
Qed.

Lemma maskPassword_no_eq s : ~ In 61 s -> maskPassword s = s.
Proof.
  induction s as [|c s IH]; intros H.
  - reflexivity.
  - cbn [maskPassword].
    assert (re_pwd_span (c :: s) = None) as ->.
    { unfold re_pwd_span.
      destruct (stripPrefix (lit "pwd=") (c :: s)) as [u|] eqn:Hp; [|reflexivity].
      apply stripPrefix_some in Hp. elim H. rewrite Hp.
      change (lit "pwd=") with [112; 119; 100; 61]. simpl. auto. }
    f_equal. apply IH. intros Hin. apply H. now right.
Qed.

Lemma maskPassword_here v rest :
  v <> [] -> forallb notAmp v = true -> ampHead rest = true ->
  maskPassword (lit "pwd=" ++ v ++ rest) = lit "pwd=***" ++ rest.
Proof.
  intros Hne Hv Hrest.
  assert (re_pwd_span (lit "pwd=" ++ v ++ rest) = Some rest) as Hspan.
  { unfold re_pwd_span. rewrite (proj2 (stripPrefix_some _ _ (v ++ rest)) eq_refl).
    fold notAmp. rewrite takeWhile_app by exact Hv.
    destruct v as [|x v]; [now elim Hne|]. cbn [app].
    f_equal. apply (dropWhile_app_stop notAmp (x :: v) rest Hv).
    destruct rest as [|c rest]; [reflexivity|].
    cbn in Hrest. unfold notAmp. now rewrite Hrest. }
  change (lit "pwd=") with [112; 119; 100; 61] in *. cbn [app] in *.
  cbn [maskPassword]. now rewrite Hspan.
Qed.

Lemma safe_notAmp l : forallb uriSafe l = true -> forallb notAmp l = true.
Proof.
  intros H. rewrite forallb_forall in *. intros c Hc. specialize (H c Hc).
  unfold notAmp. destruct (Z.eqb_spec c 38) as [->|]; [discriminate|reflexivity].
Qed.

(** X2. What [joinZoomMeeting] prints about the link depends on the password
    only through whether there is one: the deep link is shown with [***] in
    the place of the encoded password, and unchanged when it has none. *)
Theorem deep_link_log_hides_password (zoom : rawZoom) (link id url : jsstring) :
  prepareDeepLink zoom link = inr (id, url) ->
  let password := extractPassword (rz_password zoom) link in
  exists en,
    encodeURIComponent (or_default (rz_displayName zoom) (lit "Zoom Recorder")) = Some en
    /\ deepLinkLog id password url =
         [lit "Generated Deep Link: " ++ lit "zoommtg://zoom.us/join?confno=" ++ id
            ++ (if truthy password then lit "&pwd=***" else [])
            ++ lit "&uname=" ++ en;
          lit "Meeting ID: " ++ id;
          lit "Password: " ++ (if truthy password then lit "***" else lit "(none)")].
Proof.
  intros Hp. cbv zeta.
  apply prepareDeepLink_shape in Hp as [Hid [en [Hen Hshape]]].
  apply extractMeetingId_digits in Hid as [Hdig Hne].
  pose proof (encodeURIComponent_safe _ _ Hen) as Hsafe.
  exists en. split; [exact Hen|]. unfold deepLinkLog.
  destruct Hshape as [[Hpw ->]|[Hpw [ep [Hep ->]]]].
  - rewrite Hpw. cbn [truthy]. do 2 f_equal.
    rewrite maskPassword_skip by reflexivity.
    rewrite maskPassword_skip by (now apply digits_notP).
    rewrite maskPassword_skip by reflexivity.
    rewrite maskPassword_no_eq by (now apply safe_no_eq).
    reflexivity.
  - assert (truthy (extractPassword (rz_password zoom) link) = true) as ->
      by (destruct (extractPassword _ _); [now elim Hpw|reflexivity]).
    do 2 f_equal.
    rewrite maskPassword_skip by reflexivity.
    rewrite maskPassword_skip by (now apply digits_notP).
    change (lit "&pwd=") with ([38] ++ lit "pwd=").
    rewrite <- app_assoc. rewrite (maskPassword_skip [38]) by reflexivity.
    rewrite maskPassword_here.
    + reflexivity.
    + apply (encodeURIComponent_nonempty _ _ Hpw Hep).
    + apply safe_notAmp, (encodeURIComponent_safe _ _ Hep).
    + reflexivity.
Qed.

Lemma deep_link_log_hides_password_witness :
  exists en,
    encodeURIComponent (lit "Recorder Bot") = Some en
    /\ deepLinkLog (lit "123456789") (lit "s3cret&x")
         (lit "zoommtg://zoom.us/join?confno=123456789&pwd=s3cret%26x&uname=Recorder%20Bot")
       = [lit "Generated Deep Link: " ++ lit "zoommtg://zoom.us/join?confno="
            ++ lit "123456789" ++ lit "&pwd=***" ++ lit "&uname=" ++ en;
          lit "Meeting ID: " ++ lit "123456789";
          lit "Password: " ++ lit "***"].
Proof.
  exact (deep_link_log_hides_password withPassword
           (lit "https://zoom.us/j/123456789?pwd=fromlink") (lit "123456789")
           (lit "zoommtg://zoom.us/join?confno=123456789&pwd=s3cret%26x&uname=Recorder%20Bot")
           eq_refl).
Defined.

(* ===================================================================== *)
(** ** The configuration loader                                            *)
(* ===================================================================== *)

Lemma truthy_opt_some v : truthy_opt v = true <-> exists s, v = Some s /\ s <> [].
Proof.
  destruct v as [[|c s]|]; simpl; split; try discriminate.
  - intros [s [[= <-] H]]. now elim H.
  - intros _. exists (c :: s). split; [reflexivity|discriminate].
  - reflexivity.
  - intros [s [[=] _]].
Qed.

Lemma or_default_truthy v d : d <> [] -> or_default v d <> [].
Proof.
  intros Hd. unfold or_default. destruct v as [[|c s]|]; simpl; try exact Hd.
  discriminate.
Qed.

Lemma or_default_keeps s d : s <> [] -> or_default (Some s) d = s.
Proof. destruct s; [intros H; now elim H|reflexivity]. Qed.

Lemma existsb_str_eqb q l : existsb (str_eqb q) l = true <-> In q l.
Proof.
  rewrite existsb_exists. split.
  - intros [k [Hin Hk]]. apply str_eqb_eq in Hk. now subst.
  - intros H. exists q. split; [exact H|]. now apply str_eqb_eq.
Qed.

(** The three tests of the loader accept a document exactly when the link
    and the display name are non-empty and the provider is one of the three
    known ones. *)
Lemma validate_none doc :
  validate doc = None <->
  exists z c link name provider,
    raw_zoom doc = Some z /\ rz_meetingLink z = Some link /\ link <> []
    /\ rz_displayName z = Some name /\ name <> []
    /\ raw_cloudStorage doc = Some c /\ rc_provider c = Some provider
    /\ In provider knownProviders.
Proof.
  unfold validate. split.
  - destruct (raw_zoom doc) as [z|]; [|discriminate].
    destruct (truthy_opt (rz_meetingLink z)) eqn:Hl; [|discriminate].
    destruct (truthy_opt (rz_displayName z)) eqn:Hn; [|discriminate].
    cbn [negb orb].
    destruct (raw_cloudStorage doc) as [c|]; [|discriminate].
    destruct (truthy_opt (rc_provider c)) eqn:Hp; [|discriminate].
    cbn [negb].
    destruct (existsb _ knownProviders) eqn:Hk; [|discriminate].
    intros _.
    apply truthy_opt_some in Hl as [link [Hl Hlne]].
    apply truthy_opt_some in Hn as [name [Hn Hnne]].
    apply truthy_opt_some in Hp as [provider [Hp Hpne]].
    rewrite Hp, or_default_keeps in Hk by exact Hpne.
    apply existsb_str_eqb in Hk.
    exists z, c, link, name, provider. repeat split; assumption.
  - intros [z [c [link [name [provider [-> [Hl [Hlne [Hn [Hnne [-> [Hp Hk]]]]]]]]]]]].
    rewrite Hl, Hn, Hp.
    assert (provider <> []) as Hpne
      by (intros ->; cbn in Hk; repeat destruct Hk as [Hk|Hk]; discriminate || exact Hk).
    rewrite (proj2 (truthy_opt_some (Some link))) by eauto.
    rewrite (proj2 (truthy_opt_some (Some name))) by eauto.
    rewrite (proj2 (truthy_opt_some (Some provider))) by eauto.
    cbn [negb orb]. rewrite or_default_keeps by exact Hpne.
    rewrite (proj2 (existsb_str_eqb _ _) Hk). reflexivity.
Qed.

(** X11. [loadConfig] returns exactly when the file is read and parsed and the
    document passes the three tests; what it returns is the document with the
    defaults written in, which has every section and field the session reads,
    and in which a non-empty setting of the document is kept as it is. Nothing
    but the read was done. *)
Theorem loadConfig_returns_a_complete_configuration {E : Env}
    (w : World) (config : rawConfig) (w' : World) :
  loadConfig w = (Ok config, w') ->
  exists data doc,
    fs_readFile (trace w ++ [ECall LoadConfig]) CONFIG_PATH = inr data
    /\ json_parse data = inr doc
    /\ validate doc = None
    /\ config = applyDefaults doc
    /\ loaded config
    /\ (forall r s, raw_recording doc = Some r -> rr_outputDir r = Some s -> s <> [] ->
          exists q, raw_recording config = Some (mkRawRecording (Some s) q))
    /\ (forall r s, raw_recording doc = Some r -> rr_quality r = Some s -> s <> [] ->
          exists d, raw_recording config = Some (mkRawRecording d (Some s)))
    /\ w' = mkWorld (trace w ++ [ECall LoadConfig; EReadFile CONFIG_PATH])
                    (ffmpegProcess w) (recordingPath w).
Proof.
  unfold loadConfig. munfold. cbn -[lit app validate applyDefaults].
  destruct (fs_readFile _ _) as [e|data] eqn:Hread;
    cbn -[lit app validate applyDefaults].
  { destruct (code_is e ENOENT); discriminate. }
  destruct (json_parse data) as [e|doc] eqn:Hparse;
    cbn -[lit app validate applyDefaults].
  { destruct (code_is e ENOENT); discriminate. }
  destruct (validate doc) as [e|] eqn:Hval; cbn -[lit app validate applyDefaults].
  { destruct (code_is e ENOENT); discriminate. }
  intros [= <- <-]. exists data, doc.
  split; [reflexivity|]. split; [exact Hparse|]. split; [exact Hval|].
  split; [reflexivity|].
  apply validate_none in Hval
    as [z [c [link [name [provider [Hz [Hl [Hlne [Hn [Hnne [Hc [Hp Hk]]]]]]]]]]]].
  split; [|split; [|split]].
  - unfold loaded, applyDefaults. cbn [raw_zoom raw_cloudStorage raw_recording raw_ai].
    exists z, c. do 2 eexists. exists link, name, provider. do 4 eexists.
    cbn [rr_outputDir rr_quality ra_transcriptionModel ra_summaryModel].
    repeat (split; [first [assumption | reflexivity
                           | apply or_default_truthy; discriminate]|]).
    apply or_default_truthy; discriminate.
  - intros r s Hr Hs Hne. unfold applyDefaults. cbn [raw_recording].
    rewrite Hr, Hs, or_default_keeps by exact Hne. eauto.
  - intros r s Hr Hs Hne. unfold applyDefaults. cbn [raw_recording].
    rewrite Hr, Hs, or_default_keeps by exact Hne. eauto.
  - rewrite <- !app_assoc. reflexivity.
Qed.

Lemma loadConfig_returns_a_complete_configuration_witness :
  loaded happyConfig
  /\ exists q, raw_recording happyConfig
               = Some (mkRawRecording (Some (lit "/data/recordings")) q).
Proof.
  destruct (loadConfig_returns_a_complete_configuration (E := sampleEnv happy)
              w0 happyConfig (snd (loadConfig (E := sampleEnv happy) w0)) eq_refl)
    as [data [doc [Hread [Hparse [_ [_ [Hloaded [Hdir _]]]]]]]].
  split; [exact Hloaded|].
  injection Hparse as <-.
  apply (Hdir (mkRawRecording (Some (lit "/data/recordings")) (Some (lit "medium"))));
    [reflexivity|reflexivity|discriminate].
Defined.

Lemma loadConfig_emits {E : Env} : emits (callsOnly [LoadConfig]) loadConfig.
Proof.
  unfold loadConfig. repeat emits_step; cbn; auto.
Qed.

(** X21. Whatever makes [loadConfig] throw, [main] prints the error, exits
    with code 1 and has started no session; a failed read is re-thrown as it
    is, after the hint to create the file when its code is [ENOENT]. *)
Theorem main_stops_on_configuration_failure {E : Env}
    (fuel : nat) (w : World) :
  (forall e w1,
     loadConfig w = (Throw e, w1) ->
     main fuel w =
       (Ok (Some 1),
        mkWorld (trace w1 ++ [EConsole Err (lit "Fatal error: " ++ inspect e);
                             EExit 1])
                (ffmpegProcess w1) (recordingPath w1))
     /\ forall evs, trace (snd (main fuel w)) = trace w ++ evs ->
          ~ In (ECall RunRecordingSession) evs)
  /\ (forall e,
        fs_readFile (trace w ++ [ECall LoadConfig]) CONFIG_PATH = inl e ->
        loadConfig w =
          (Throw e,
           mkWorld (trace w ++ [ECall LoadConfig; EReadFile CONFIG_PATH] ++
                      (if code_is e ENOENT
                       then [EConsole Err (lit "Configuration file not found at: "
                                           ++ CONFIG_PATH);
                             EConsole Err (lit "Please copy config.json.example to config.json and fill in your details")]
                       else [EConsole Err (lit "Error loading configuration: "
                                           ++ err_message e)]))
                   (ffmpegProcess w) (recordingPath w))).
Proof.
  split.
  - intros e w1 Hload.
    assert (main fuel w =
       (Ok (Some 1),
        mkWorld (trace w1 ++ [EConsole Err (lit "Fatal error: " ++ inspect e);
                             EExit 1])
                (ffmpegProcess w1) (recordingPath w1))) as Hmain.
    { unfold main, process_exit. unfold try_catch at 1. unfold bind at 1.
      rewrite Hload. munfold. cbn -[lit app]. rewrite <- !app_assoc. reflexivity. }
    split; [exact Hmain|]. intros evs Hevs. rewrite Hmain in Hevs.
    cbn [snd trace] in Hevs.
    destruct (loadConfig_emits _ _ _ Hload) as [evs1 [H1 F1]].
    rewrite H1, <- app_assoc in Hevs. apply app_inv_head in Hevs. subst evs.
    intros Hin. apply in_app_or in Hin as [Hin|Hin].
    + rewrite Forall_forall in F1. specialize (F1 _ Hin). cbn in F1.
      destruct F1 as [F1|[]]. discriminate.
    + cbn in Hin. destruct Hin as [Hin|[Hin|[]]]; discriminate.
  - intros e Hread. unfold loadConfig. munfold. cbn -[lit app].
    rewrite Hread. cbn -[lit app].
    destruct (code_is e ENOENT); cbn -[lit app]; rewrite <- !app_assoc; reflexivity.
Qed.

(* ===================================================================== *)
(** ** The modes of the orchestrator                                       *)
(* ===================================================================== *)

Section Generic.
Context {E : Env}.
Variable P : event -> Prop.

Lemma monitorLoop_emits fuel :
  P (ESleep 5000) -> (forall c, P (EExec c)) -> (forall s t, P (EConsole s t)) ->
  emits P (monitorLoop fuel).
Proof.
  intros H1 H2 H3.
  induction fuel as [|n IH]; cbn [monitorLoop]; [apply emits_pending|].
  apply emits_bind; [apply emits_emit, H1|intros _].
  apply emits_bind; [unfold monitorTick; repeat emits_step; auto|intros ended].
  destruct ended; [apply emits_ret|exact IH].
Qed.

End Generic.

Ltac inside := cbn; auto 12.

Lemma onSessionError_inside {E : Env} rp e : emits insideSession (onSessionError rp e).
Proof.
  unfold onSessionError, getRecordingPath, stopScreenRecording.
  repeat emits_step; inside.
Qed.

Lemma runRecordingSession_inside {E : Env} fuel config :
  emits insideSession
    (try_catch
       (recording <- lift (section (raw_recording config) "outputDir") ;;
        outputDir <- lift (section (rr_outputDir recording) "outputDir") ;;
        let transcriptsDir := path_join outputDir (lit "../transcripts") in
        call_unit (EMkdir outputDir) (fun h => fs_mkdir h outputDir) ;;
        call_unit (EMkdir transcriptsDir) (fun h => fs_mkdir h transcriptsDir) ;;
        _ <- joinZoomMeeting config ;;
        started <- startScreenRecording outputDir (rr_quality recording) ;;
        try_catch
          (_ <- monitorMeeting fuel ;;
           sleep 2000 ;;
           stopped <- stopScreenRecording ;;
           try_catch
             (quitZoom ;;
              verifyRecording config stopped ;;
              postProcessAndReport fuel config stopped transcriptsDir)
             (onSessionError stopped))
          (onSessionError (Some started)))
       (onSessionError None)).
Proof.
  apply emits_try_catch; [|intros e; apply onSessionError_inside].
  apply emits_bind; [apply emits_lift|intros recording].
  apply emits_bind; [apply emits_lift|intros outputDir]. cbv zeta.
  apply emits_bind; [apply emits_call_unit; inside|intros _].
  apply emits_bind; [apply emits_call_unit; inside|intros _].
  apply emits_bind; [unfold joinZoomMeeting; repeat emits_step; inside|intros _].
  apply emits_bind;
    [unfold startScreenRecording, onSpawnError; repeat emits_step; inside|intros started].
  apply emits_try_catch; [|intros e; apply onSessionError_inside].
  apply emits_bind.
  { unfold monitorMeeting. apply emits_bind; [apply emits_emit; inside|intros _].
    apply monitorLoop_emits; intros; inside. }
  intros _.
  apply emits_bind; [apply emits_emit; inside|intros _].
  apply emits_bind; [unfold stopScreenRecording; repeat emits_step; inside|intros stopped].
  apply emits_try_catch; [|intros e; apply onSessionError_inside].
  apply emits_bind; [unfold quitZoom; repeat emits_step; inside|intros _].
  apply emits_bind;
    [unfold verifyRecording, uploadToCloud; repeat emits_step; inside|intros _].
  unfold postProcessAndReport, postProcess, onTranscriptionError, finalReport,
    transcribeVideo, Transcription.extractAudio, Transcription.transcribeAudio,
    Transcription.unlinkAudio, generateSummary.
  repeat first [apply pollFile_emits | emits_step]; inside.
Qed.

Lemma inside_not_in l :
  Forall insideSession l ->
  ~ In (ECall RunRecordingSession) l /\ ~ In (ECall LoadConfig) l
  /\ (forall c tz, ~ In (ESchedule c tz) l) /\ (forall c, ~ In (EExit c) l).
Proof.
  intros F. rewrite Forall_forall in F.
  assert (forall e, ~ insideSession e -> ~ In e l) as Hno
    by (intros e He Hin; exact (He (F _ Hin))).
  split; [|split; [|split]]; intros; apply Hno; cbn;
    intros H; repeat destruct H as [H|H]; discriminate || exact H.
Qed.

(** X22. Once the configuration is loaded and the run is immediate (the
    [--now] flag, or no schedule enabled), [main] never throws; it calls
    [process.exit], with code 0 whatever happened inside the session,
    exactly when the promise of the session resolves, and calls it never
    while that promise is pending. What it adds to the trace is the marker
    of one session, events of the inside of that session, and the call of
    [process.exit] if there is one: no second session, no registration with
    the scheduler (the flag wins over an enabled schedule). *)
Theorem main_runs_one_session {E : Env}
    (fuel : nat) (w : World) (config : rawConfig) (wc : World) :
  loadConfig w = (Ok config, wc) ->
  argv_now = true \/ scheduleEnabled config = false ->
  (forall ws, runRecordingSession fuel config wc = (Ok tt, ws) ->
     main fuel w =
       (Ok (Some 0),
        mkWorld (trace ws ++ [EExit 0]) (ffmpegProcess ws) (recordingPath ws)))
  /\ (forall ws, runRecordingSession fuel config wc = (Pending, ws) ->
        main fuel w = (Pending, ws))
  /\ (exists r ws, runRecordingSession fuel config wc = (r, ws)
                   /\ (r = Ok tt \/ r = Pending))
  /\ (exists inner,
        trace (snd (main fuel w)) =
          trace wc ++ ECall RunRecordingSession :: inner ++
            (match fst (main fuel w) with Ok _ => [EExit 0] | _ => [] end)
        /\ Forall insideSession inner
        /\ ~ In (ECall RunRecordingSession) inner
        /\ (forall c tz, ~ In (ESchedule c tz) inner)).
Proof.
  intros Hload Hmode.
  assert (main fuel w =
          (runRecordingSession fuel config ;; process_exit 0) wc) as Hmain.
  { unfold main. unfold try_catch at 1. unfold bind at 1. rewrite Hload.
    assert (forall c : M (option Z),
              (forall w1 e w2, c w1 <> (Throw e, w2)) ->
              forall w1, (match c w1 with
                          | (Throw e, w') =>
                              (console Err (lit "Fatal error: " ++ inspect e) ;;
                               process_exit 1) w'
                          | r => r
                          end) = c w1) as Hnt.
    { intros c Hc w1. destruct (c w1) as [[a|e|] w2] eqn:Hcw; try reflexivity.
      now elim (Hc _ _ _ Hcw). }
    assert (forall w1 e w2,
              (runRecordingSession fuel config ;; process_exit 0) w1 <> (Throw e, w2))
      as Hsess.
    { apply no_throw_bind; [apply runRecordingSession_no_throw|].
      intros _. unfold process_exit. apply no_throw_bind; [apply no_throw_emit|].
      intros _ ? ? ?. discriminate. }
    destruct Hmode as [Hnow|Hsched].
    - rewrite Hnow. apply Hnt, Hsess.
    - rewrite Hsched. destruct argv_now; apply Hnt, Hsess. }
  rewrite Hmain.
  destruct (runRecordingSession fuel config wc) as [[[]|e|] ws] eqn:Hrun.
  - split; [|split; [|split]].
    + intros ws' [= <-]. unfold bind. rewrite Hrun. reflexivity.
    + intros ws' [=].
    + exists (Ok tt), ws. auto.
    + unfold bind. rewrite Hrun. cbn [fst snd process_exit].
      unfold runRecordingSession in Hrun. unfold bind at 1 in Hrun.
      cbn [emit] in Hrun.
      destruct (runRecordingSession_inside _ _ _ _ _ Hrun) as [inner [Hin F]].
      cbn [trace] in Hin. exists inner. unfold process_exit. munfold.
      cbn [fst snd trace]. rewrite Hin, <- !app_assoc. cbn [app].
      split; [reflexivity|]. split; [exact F|].
      destruct (inside_not_in _ F) as [H1 [_ [H2 _]]]. auto.
  - now elim (runRecordingSession_no_throw fuel config wc e ws).
  - split; [|split; [|split]].
    + intros ws' [=].
    + intros ws' [= <-]. unfold bind. rewrite Hrun. reflexivity.
    + exists Pending, ws. auto.
    + unfold bind. rewrite Hrun. cbn [fst snd].
      unfold runRecordingSession in Hrun. unfold bind at 1 in Hrun.
      cbn [emit] in Hrun.
      destruct (runRecordingSession_inside _ _ _ _ _ Hrun) as [inner [Hin F]].
      cbn [trace] in Hin. exists inner.
      rewrite Hin, <- !app_assoc, app_nil_r. cbn [app].
      split; [reflexivity|]. split; [exact F|].
      destruct (inside_not_in _ F) as [H1 [_ [H2 _]]]. auto.
Qed.

Lemma main_runs_one_session_witness :
  exists ws,
    main (E := sampleEnv happy) 3 w0 =
      (Ok (Some 0),
       mkWorld (trace ws ++ [EExit 0]) (ffmpegProcess ws) (recordingPath ws)).
Proof.
  exists (snd (runRecordingSession (E := sampleEnv happy) 3 happyConfig
                 (snd (loadConfig (E := sampleEnv happy) w0)))).
  apply (proj1 (main_runs_one_session (E := sampleEnv happy) 3 w0 happyConfig
                  (snd (loadConfig (E := sampleEnv happy) w0)) eq_refl
                  (or_introl eq_refl))).
  vm_compute. reflexivity.
Defined.

(** X23. With a schedule enabled and no [--now] flag, [main] runs no session:
    it registers the callback with the cron expression and the time zone of
    the document and returns without exiting; an expression the scheduler
    refuses is a fatal error, exit code 1. *)
Theorem main_scheduled_mode_defers_the_session {E : Env}
    (fuel : nat) (w : World) (config : rawConfig) (wc : World) :
  loadConfig w = (Ok config, wc) ->
  argv_now = false ->
  scheduleEnabled config = true ->
  exists s,
    raw_schedule config = Some s /\ rs_enabled s = true
    /\ main fuel w =
         match cron_schedule (rs_cronExpression s) (rs_timezone s) with
         | None =>
             (Ok None,
              mkWorld (trace wc ++ [ESchedule (rs_cronExpression s) (rs_timezone s)])
                      (ffmpegProcess wc) (recordingPath wc))
         | Some e =>
             (Ok (Some 1),
              mkWorld (trace wc ++ [EConsole Err (lit "Fatal error: " ++ inspect e);
                                    EExit 1])
                      (ffmpegProcess wc) (recordingPath wc))
         end
    /\ forall evs, trace (snd (main fuel w)) = trace wc ++ evs ->
         ~ In (ECall RunRecordingSession) evs.
Proof.
  intros Hload Hnow Hsched. unfold scheduleEnabled in Hsched.
  destruct (raw_schedule config) as [s|] eqn:Hs; [|discriminate].
  exists s. split; [reflexivity|]. split; [exact Hsched|].
  assert (main fuel w =
         match cron_schedule (rs_cronExpression s) (rs_timezone s) with
         | None =>
             (Ok None,
              mkWorld (trace wc ++ [ESchedule (rs_cronExpression s) (rs_timezone s)])
                      (ffmpegProcess wc) (recordingPath wc))
         | Some e =>
             (Ok (Some 1),
              mkWorld (trace wc ++ [EConsole Err (lit "Fatal error: " ++ inspect e);
                                    EExit 1])
                      (ffmpegProcess wc) (recordingPath wc))
         end) as Hmain.
  { unfold main, process_exit. unfold try_catch at 1. unfold bind at 1.
    rewrite Hload, Hnow. unfold scheduleEnabled. rewrite Hs, Hsched.
    destruct (cron_schedule _ _); munfold; cbn -[lit app];
      rewrite <- ?app_assoc; reflexivity. }
  split; [exact Hmain|]. intros evs Hevs. rewrite Hmain in Hevs.
  destruct (cron_schedule _ _); cbn [snd trace] in Hevs;
    apply app_inv_head in Hevs; subst evs; cbn;
    intros H; repeat destruct H as [H|H]; discriminate || exact H.
Qed.

Lemma main_scheduled_mode_defers_the_session_witness :
  main (E := sampleEnv scheduled) 3 w0 =
    (Ok None,
     mkWorld ([ECall LoadConfig; EReadFile (lit "config/config.json")] ++
              [ESchedule (Some (lit "0 9 * * 1-5")) (Some (lit "Europe/Paris"))])
             None None).
Proof.
  destruct (main_scheduled_mode_defers_the_session (E := sampleEnv scheduled) 3 w0
              (applyDefaults scheduledConfig)
              (snd (loadConfig (E := sampleEnv scheduled) w0))
              eq_refl eq_refl eq_refl) as [s [Hs [_ [Hmain _]]]].
  injection Hs as <-. exact Hmain.
Defined.

(** X24. [main] never throws. When it returns an exit code, the code is 0 or 1
    and the exit is the last event; code 1 comes right after the line that
    prints the fatal error; when it returns without exiting, the last event is
    the registration with the scheduler. *)
Theorem main_exit_codes {E : Env} (fuel : nat) (w : World) :
  (forall e w', main fuel w <> (Throw e, w'))
  /\ (forall code w',
        main fuel w = (Ok (Some code), w') ->
        (code = 0 /\ exists pre, trace w' = pre ++ [EExit 0])
        \/ (code = 1 /\ exists pre e,
              trace w' = pre ++ [EConsole Err (lit "Fatal error: " ++ inspect e);
                                 EExit 1]))
  /\ (forall w',
        main fuel w = (Ok None, w') ->
        exists pre c tz, trace w' = pre ++ [ESchedule c tz]).
Proof.
  unfold main, try_catch.
  destruct ((config <- loadConfig ;; _) w) as [[r|e|] w1] eqn:Hbody; cbv beta iota.
  - split; [discriminate|]. unfold bind at 1 in Hbody.
    destruct (loadConfig w) as [[config|e|] wc]; try discriminate.
    assert (forall w2 r,
              (runRecordingSession fuel config ;; process_exit 0) wc = (Ok r, w2) ->
              r = Some 0 /\ exists pre, trace w2 = pre ++ [EExit 0]) as Hsess.
    { intros w2 r0. unfold bind at 1.
      destruct (runRecordingSession fuel config wc) as [[a|e|] w3]; try discriminate.
      unfold process_exit. munfold. intros [= <- <-]. cbn [trace]. eauto. }
    split.
    + intros code w' [= -> ->].
      destruct argv_now.
      * apply Hsess in Hbody as [[= <-] Hpre]. now left.
      * destruct (scheduleEnabled config).
        -- destruct (cron_schedule _ _); [discriminate|].
           munfold. discriminate.
        -- apply Hsess in Hbody as [[= <-] Hpre]. now left.
    + intros w' [= -> ->].
      destruct argv_now.
      * apply Hsess in Hbody as [[=] _].
      * destruct (scheduleEnabled config).
        -- destruct (cron_schedule _ _); [discriminate|].
           munfold. injection Hbody as <-. cbn [trace]. eauto.
        -- apply Hsess in Hbody as [[=] _].
  - unfold process_exit. munfold. cbn -[lit app].
    split; [discriminate|]. split.
    + intros code w' [= <- <-]. right. split; [reflexivity|].
      exists (trace w1), e. rewrite <- app_assoc. reflexivity.
    + discriminate.
  - split; [discriminate|]. split; discriminate.
Qed.

(* ===================================================================== *)
(** ** The recorder, the interrupt handler, the process check              *)
(* ===================================================================== *)

Lemma replaceColonDot_clean s :
  existsb colonOrDot (replaceColonDot s) = false
  /\ List.length (replaceColonDot s) = List.length s.
Proof.
  unfold replaceColonDot. split; [|apply length_map].
  induction s as [|c s IH]; [reflexivity|]. cbn [map existsb]. rewrite IH.
  unfold colonOrDot.
  destruct (Z.eqb_spec c 58) as [->|H1]; [reflexivity|].
  destruct (Z.eqb_spec c 46) as [->|H2]; [reflexivity|].
  cbn [orb]. destruct (Z.eqb_spec c 58); [contradiction|].
  destruct (Z.eqb_spec c 46); [contradiction|]. reflexivity.
Qed.

Lemma startScreenRecording_quiet {E : Env} dir q :
  emits noStopEvent (startScreenRecording dir q).
Proof.
  unfold startScreenRecording, onSpawnError. repeat emits_step; exact I.
Qed.

(** X7. A start that returns has created the directory, named the file after
    the directory and the time stamp with its colons and full stops turned
    into hyphens, and spawned one encoder whose last argument is that file;
    the handle held afterwards is that new process, whatever was held before,
    and nothing was said to an encoder already running: a start during a
    recording leaves the earlier encoder running with no handle to it. *)
Theorem startScreenRecording_replaces_the_handle {E : Env}
    (outputDir : jsstring) (quality : option jsstring)
    (w : World) (path : jsstring) (w' : World) :
  startScreenRecording outputDir quality w = (Ok path, w') ->
  let h := trace w ++ [ECall StartScreenRecording; EMkdir outputDir] in
  let stamp := replaceColonDot (date_iso h) in
  path = path_join outputDir (lit "zoom-recording-" ++ stamp ++ lit ".mp4")
  /\ existsb colonOrDot stamp = false
  /\ List.length stamp = List.length (date_iso h)
  /\ (exists s evs,
        selectSettings (match quality with Some q => q | None => lit "high" end) = Some s
        /\ last (ffmpegArgs s path) [] = path
        /\ trace w' = h ++ ESpawn (lit "ffmpeg") (ffmpegArgs s path) :: evs
        /\ Forall (fun e => forall c a, e <> ESpawn c a) evs)
  /\ ffmpegProcess w' = Some (Proc (List.length h))
  /\ recordingPath w' = Some path
  /\ (exists evs, trace w' = trace w ++ evs /\ Forall noStopEvent evs).
Proof.
  intros Hstart. cbv zeta.
  pose proof (startScreenRecording_quiet _ _ _ _ _ Hstart) as Hquiet.
  destruct (replaceColonDot_clean
              (date_iso (trace w ++ [ECall StartScreenRecording; EMkdir outputDir])))
    as [Hclean Hlen].
  revert Hstart.
  unfold startScreenRecording, onSpawnError. munfold.
  cbn -[lit app Z_to_js replaceColonDot ffmpegArgs selectSettings].
  destruct (fs_mkdir _ _);
    cbn -[lit app Z_to_js replaceColonDot ffmpegArgs selectSettings]; [discriminate|].
  rewrite <- !app_assoc. cbn [app].
  destruct (selectSettings _) as [s|] eqn:Hsel;
    cbn -[lit app Z_to_js replaceColonDot ffmpegArgs selectSettings]; [|discriminate].
  destruct (spawn _ _ _) as [e|[e|]];
    cbn -[lit app Z_to_js replaceColonDot ffmpegArgs selectSettings]; [discriminate| |].
  - destruct (code_is e ENOENT);
      cbn -[lit app Z_to_js replaceColonDot ffmpegArgs selectSettings];
      intros [= <- <-]; cbn [trace ffmpegProcess recordingPath];
      (split; [reflexivity|]); (split; [exact Hclean|]); (split; [exact Hlen|]);
      (split; [|split; [reflexivity|split; [reflexivity|exact Hquiet]]]);
      exists s; eexists; (split; [reflexivity|]); (split; [reflexivity|]);
      rewrite <- !app_assoc; cbn [app]; (split; [reflexivity|]);
      repeat constructor; discriminate.
  - intros [= <- <-]; cbn [trace ffmpegProcess recordingPath].
    split; [reflexivity|]. split; [exact Hclean|]. split; [exact Hlen|].
    split; [|split; [reflexivity|split; [reflexivity|exact Hquiet]]].
    exists s; eexists. split; [reflexivity|]. split; [reflexivity|].
    rewrite <- !app_assoc; cbn [app]. split; [reflexivity|].
    repeat constructor; discriminate.
Qed.

Lemma startScreenRecording_replaces_the_handle_witness :
  ffmpegProcess
    (snd (startScreenRecording (E := sampleEnv happy) sampleDir (Some (lit "low"))
            (mkWorld [ESpawn (lit "ffmpeg") []] (Some (Proc 0))
                     (Some (lit "/data/old.mp4")))))
    = Some (Proc 3).
Proof.
  destruct (startScreenRecording_replaces_the_handle (E := sampleEnv happy)
              sampleDir (Some (lit "low"))
              (mkWorld [ESpawn (lit "ffmpeg") []] (Some (Proc 0))
                       (Some (lit "/data/old.mp4")))
              recordedFile
              (snd (startScreenRecording (E := sampleEnv happy) sampleDir
                      (Some (lit "low"))
                      (mkWorld [ESpawn (lit "ffmpeg") []] (Some (Proc 0))
                               (Some (lit "/data/old.mp4")))))
              ltac:(vm_compute; reflexivity))
    as [_ [_ [_ [_ [Hheld _]]]]].
  exact Hheld.
Defined.

(** X8. A start that throws has printed the error and re-thrown it, and leaves
    the handle as it was; the recording path, though, is already the new one
    unless the directory could not be created, so that afterwards the path can
    name a file no encoder writes. *)
Theorem startScreenRecording_failure_keeps_the_handle {E : Env}
    (outputDir : jsstring) (quality : option jsstring)
    (w : World) (e : error) (w' : World) :
  startScreenRecording outputDir quality w = (Throw e, w') ->
  let h := trace w ++ [ECall StartScreenRecording] in
  ffmpegProcess w' = ffmpegProcess w
  /\ (exists pre,
        trace w' = pre ++ [EConsole Err (lit "Error starting screen recording: "
                                         ++ err_message e)])
  /\ (fs_mkdir h outputDir = Some e /\ recordingPath w' = recordingPath w
      \/ fs_mkdir h outputDir = None
         /\ recordingPath w' =
              Some (path_join outputDir
                      (lit "zoom-recording-"
                       ++ replaceColonDot (date_iso (h ++ [EMkdir outputDir]))
                       ++ lit ".mp4"))).
Proof.
  cbv zeta. unfold startScreenRecording, onSpawnError. munfold.
  cbn -[lit app Z_to_js replaceColonDot ffmpegArgs selectSettings].
  destruct (fs_mkdir _ _) as [e0|] eqn:Hmk;
    cbn -[lit app Z_to_js replaceColonDot ffmpegArgs selectSettings].
  { intros [= <- <-]. cbn [trace ffmpegProcess recordingPath].
    split; [reflexivity|]. split; [eauto|]. left. split; reflexivity. }
  destruct (selectSettings _) as [s|];
    cbn -[lit app Z_to_js replaceColonDot ffmpegArgs selectSettings].
  - destruct (spawn _ _ _) as [e0|[e0|]];
      cbn -[lit app Z_to_js replaceColonDot ffmpegArgs selectSettings];
      [|destruct (code_is e0 ENOENT);
        cbn -[lit app Z_to_js replaceColonDot ffmpegArgs selectSettings];
        discriminate|discriminate].
    intros [= <- <-]. cbn [trace ffmpegProcess recordingPath].
    split; [reflexivity|]. split; [eauto|]. right. split; [reflexivity|].
    rewrite <- !app_assoc. reflexivity.
  - intros [= <- <-]. cbn [trace ffmpegProcess recordingPath].
    split; [reflexivity|]. split; [eauto|]. right. split; [reflexivity|].
    rewrite <- !app_assoc. reflexivity.
Qed.

Lemma startScreenRecording_failure_keeps_the_handle_witness :
  ffmpegProcess
    (snd (startScreenRecording (E := sampleEnv happy) sampleDir
            (Some (lit "constructor")) w0)) = None
  /\ recordingPath
       (snd (startScreenRecording (E := sampleEnv happy) sampleDir
               (Some (lit "constructor")) w0)) = Some recordedFile.
Proof.
  destruct (startScreenRecording_failure_keeps_the_handle (E := sampleEnv happy)
              sampleDir (Some (lit "constructor")) w0
              (TypeError (lit "Cannot read properties of undefined (reading 'toString')"))
              (snd (startScreenRecording (E := sampleEnv happy) sampleDir
                      (Some (lit "constructor")) w0))
              ltac:(vm_compute; reflexivity))
    as [Hheld [_ [[Hmk _]|[_ Hpath]]]].
  - discriminate Hmk.
  - split; [exact Hheld|exact Hpath].
Defined.

Lemma stopScreenRecording_idle {E : Env} w :
  ffmpegProcess w = None ->
  stopScreenRecording w =
    (Ok None,
     mkWorld (trace w ++ [ECall StopScreenRecording;
                          EConsole Log (lit "No active recording to stop")])
             None (recordingPath w)).
Proof.
  intros H. unfold stopScreenRecording. munfold. cbn. rewrite H. cbn.
  rewrite <- app_assoc. reflexivity.
Qed.

Lemma stopScreenRecording_settled {E : Env} w r w' :
  stopScreenRecording w = (r, w') -> r <> Pending ->
  ffmpegProcess w' = None /\ recordingPath w' = recordingPath w.
Proof.
  unfold stopScreenRecording. munfold. cbn -[lit app Z_to_js].
  destruct (ffmpegProcess w) as [p|] eqn:Hp; cbn -[lit app Z_to_js].
  - destruct (close_event _ _) as [code|]; cbn -[lit app Z_to_js].
    + destruct (exit_ok code); cbn -[lit app Z_to_js].
      * destruct (fs_stat _ _); cbn -[lit app Z_to_js];
          intros [= <- <-] _; split; reflexivity.
      * intros [= <- <-] _; split; reflexivity.
    + intros [= <- <-] H. now elim H.
  - intros [= <- <-] _. cbn. split; reflexivity.
Qed.

(** X9. The recorder from start to stop. After a start that returned [path],
    and whatever ran in between that left the recorder's variables alone, a
    stop that resolves returns [path]; a stop that settles, either way, clears
    the handle and keeps the path; a second stop then finds nothing to stop
    and resolves with null, while [getRecordingPath] still answers [path]. *)
Theorem recorder_start_then_stop {E : Env}
    (outputDir : jsstring) (quality : option jsstring)
    (w : World) (path : jsstring) (w1 w2 : World) :
  startScreenRecording outputDir quality w = (Ok path, w1) ->
  ffmpegProcess w2 = ffmpegProcess w1 ->
  recordingPath w2 = recordingPath w1 ->
  (forall v w3, stopScreenRecording w2 = (Ok v, w3) -> v = Some path)
  /\ (forall r w3,
        stopScreenRecording w2 = (r, w3) -> r <> Pending ->
        ffmpegProcess w3 = None
        /\ getRecordingPath w3 = (Ok (Some path), w3)
        /\ stopScreenRecording w3 =
             (Ok None,
              mkWorld (trace w3 ++ [ECall StopScreenRecording;
                                    EConsole Log (lit "No active recording to stop")])
                      None (Some path))).
Proof.
  intros Hstart Hp Hr.
  destruct (startScreenRecording_holds _ _ _ _ _ Hstart) as [Hpath [_ [p Hheld]]].
  split.
  - intros v w3 Hstop.
    rewrite (stopScreenRecording_value w2 p v w3) by congruence. congruence.
  - intros r w3 Hstop Hsettled.
    destruct (stopScreenRecording_settled _ _ _ Hstop Hsettled) as [H1 H2].
    split; [exact H1|]. split.
    + unfold getRecordingPath, get_recordingPath. rewrite H2, Hr, Hpath. reflexivity.
    + rewrite (stopScreenRecording_idle _ H1). rewrite H2, Hr, Hpath. reflexivity.
Qed.

Lemma recorder_start_then_stop_witness :
  exists w1 w3,
    startScreenRecording (E := sampleEnv happy) sampleDir (Some (lit "low")) w0
      = (Ok recordedFile, w1)
    /\ stopScreenRecording (E := sampleEnv happy) w1 = (Ok (Some recordedFile), w3)
    /\ stopScreenRecording (E := sampleEnv happy) w3 =
         (Ok None,
          mkWorld (trace w3 ++ [ECall StopScreenRecording;
                                EConsole Log (lit "No active recording to stop")])
                  None (Some recordedFile)).
Proof.
  pose (w1 := snd (startScreenRecording (E := sampleEnv happy) sampleDir
                     (Some (lit "low")) w0)).
  pose (w3 := snd (stopScreenRecording (E := sampleEnv happy) w1)).
  assert (startScreenRecording (E := sampleEnv happy) sampleDir (Some (lit "low")) w0
          = (Ok recordedFile, w1)) as Hstart by (vm_compute; reflexivity).
  assert (stopScreenRecording (E := sampleEnv happy) w1 = (Ok (Some recordedFile), w3))
    as Hstop by (vm_compute; reflexivity).
  exists w1, w3. split; [exact Hstart|]. split; [exact Hstop|].
  destruct (recorder_start_then_stop (E := sampleEnv happy) sampleDir (Some (lit "low"))
              w0 recordedFile w1 w1 Hstart eq_refl eq_refl) as [_ Hsettled].
  destruct (Hsettled _ _ Hstop) as [_ [_ Hagain]]; [discriminate|].
  exact Hagain.
Defined.

(** X25. The interrupt handler never throws and never exits with a code other
    than 0. With no recording path set it exits at once; otherwise it calls
    [stopScreenRecording] once, prints its error if it rejects, and exits;
    when the encoder's [close] event never fires it never exits. Whenever it
    exits from a state in which a held handle comes with a path, no handle is
    left. *)
Theorem onSigint_always_exits_zero {E : Env} (w : World) :
  (truthy_opt (recordingPath w) = false ->
     onSigint w =
       (Ok (Some 0),
        mkWorld (trace w ++ [EExit 0]) (ffmpegProcess w) (recordingPath w)))
  /\ (truthy_opt (recordingPath w) = true ->
        match stopScreenRecording w with
        | (Ok _, w1) =>
            onSigint w =
              (Ok (Some 0),
               mkWorld (trace w1 ++ [EExit 0]) (ffmpegProcess w1) (recordingPath w1))
        | (Throw e, w1) =>
            onSigint w =
              (Ok (Some 0),
               mkWorld (trace w1 ++ [EConsole Err (lit "Error during cleanup: "
                                                   ++ err_message e);
                                     EExit 0])
                       (ffmpegProcess w1) (recordingPath w1))
        | (Pending, w1) => onSigint w = (Pending, w1)
        end)
  /\ (forall r w', onSigint w = (r, w') ->
        r = Ok (Some 0) \/
        r = Pending /\ exists p,
          ffmpegProcess w = Some p /\
          close_event (trace w ++ [ECall StopScreenRecording;
                                   EStdinWrite p (lit "q"); EStdinEnd p]) p = None)
  /\ (forall code w',
        onSigint w = (Ok code, w') ->
        (ffmpegProcess w <> None -> truthy_opt (recordingPath w) = true) ->
        ffmpegProcess w' = None).
Proof.
  assert (truthy_opt (recordingPath w) = false ->
     onSigint w =
       (Ok (Some 0),
        mkWorld (trace w ++ [EExit 0]) (ffmpegProcess w) (recordingPath w))) as Hidle.
  { intros H. unfold onSigint, getRecordingPath, process_exit, try_catch, bind,
      get_recordingPath. cbv beta iota. rewrite H. munfold. reflexivity. }
  assert (truthy_opt (recordingPath w) = true ->
        match stopScreenRecording w with
        | (Ok _, w1) =>
            onSigint w =
              (Ok (Some 0),
               mkWorld (trace w1 ++ [EExit 0]) (ffmpegProcess w1) (recordingPath w1))
        | (Throw e, w1) =>
            onSigint w =
              (Ok (Some 0),
               mkWorld (trace w1 ++ [EConsole Err (lit "Error during cleanup: "
                                                   ++ err_message e);
                                     EExit 0])
                       (ffmpegProcess w1) (recordingPath w1))
        | (Pending, w1) => onSigint w = (Pending, w1)
        end) as Hbusy.
  { intros H. unfold onSigint, getRecordingPath, process_exit, try_catch, bind,
      get_recordingPath. cbv beta iota. rewrite H.
    destruct (stopScreenRecording w) as [[v|e|] w1]; munfold; cbn -[lit app];
      rewrite <- ?app_assoc; reflexivity. }
  split; [exact Hidle|]. split; [exact Hbusy|]. split.
  - intros r w' Hrun.
    destruct (truthy_opt (recordingPath w)) eqn:Ht.
    + specialize (Hbusy eq_refl).
      destruct (stopScreenRecording w) as [[v|e|] w1] eqn:Hstop.
      * left. congruence.
      * left. congruence.
      * right. split; [congruence|].
        revert Hstop. unfold stopScreenRecording. munfold. cbn -[lit app Z_to_js].
        destruct (ffmpegProcess w) as [p|]; cbn -[lit app Z_to_js]; [|discriminate].
        rewrite <- !app_assoc. cbn [app].
        destruct (close_event _ _) as [code|] eqn:Hc; cbn -[lit app Z_to_js].
        -- destruct (exit_ok code); cbn -[lit app Z_to_js];
             [destruct (fs_stat _ _); cbn -[lit app Z_to_js]|]; discriminate.
        -- intros _. exists p. split; [reflexivity|exact Hc].
    + left. rewrite (Hidle eq_refl) in Hrun. congruence.
  - intros code w' Hrun Hinv.
    destruct (truthy_opt (recordingPath w)) eqn:Ht.
    + specialize (Hbusy eq_refl).
      destruct (stopScreenRecording w) as [[v|e|] w1] eqn:Hstop.
      * rewrite Hbusy in Hrun. injection Hrun as _ <-. cbn [ffmpegProcess].
        apply (stopScreenRecording_settled _ _ _ Hstop). discriminate.
      * rewrite Hbusy in Hrun. injection Hrun as _ <-. cbn [ffmpegProcess].
        apply (stopScreenRecording_settled _ _ _ Hstop). discriminate.
      * rewrite Hbusy in Hrun. discriminate.
    + rewrite (Hidle eq_refl) in Hrun. injection Hrun as _ <-. cbn [ffmpegProcess].
      destruct (ffmpegProcess w) as [p|]; [|reflexivity].
      discriminate Hinv. discriminate.
Qed.

Lemma includes_iff p s :
  includes p s = true <-> exists pre post, s = pre ++ p ++ post.
Proof.
  unfold includes. split.
  - destruct (search _ s) as [u|] eqn:Hs; [|discriminate]. intros _.
    apply search_some in Hs as [pre [q [-> Hq]]].
    destruct (stripPrefix p q) as [post|] eqn:Hp; [|discriminate].
    apply stripPrefix_some in Hp. subst q. eauto.
  - intros [pre [post ->]].
    destruct (search _ (pre ++ p ++ post)) eqn:Hs; [reflexivity|].
    pose proof (proj1 (search_none_iff _ _) Hs pre (p ++ post) eq_refl) as Hn.
    cbv beta in Hn. rewrite (proj2 (stripPrefix_some p (p ++ post) post) eq_refl) in Hn.
    discriminate.
Qed.

(** X10. [isZoomRunning] answers true whenever [ps] cannot be run (the child
    reports an error); when [ps] closes, whatever its exit code, the answer is
    true exactly when its output holds [zoom] or [Zoom] somewhere; it settles
    with false in no other way, and rejects only when [spawn] itself throws. *)
Theorem isZoomRunning_answers {E : Env} (output : jsstring) (w : World) :
  let h := trace w in
  let spawned := h ++ [ESpawn (lit "ps") [lit "aux"]] in
  let ps := Proc (List.length h) in
  let seen :=
    exists pre post, output = pre ++ lit "zoom" ++ post
                     \/ output = pre ++ lit "Zoom" ++ post in
  (forall e, spawn h (lit "ps") [lit "aux"] = Spawned (Some e) ->
     isZoomRunning output w =
       (Ok true, mkWorld (spawned ++ [ESpawnError ps e])
                         (ffmpegProcess w) (recordingPath w)))
  /\ (forall code,
        spawn h (lit "ps") [lit "aux"] = Spawned None ->
        close_event spawned ps = Some code ->
        exists b,
          isZoomRunning output w =
            (Ok b, mkWorld (spawned ++ [EClose ps code])
                           (ffmpegProcess w) (recordingPath w))
          /\ (b = true <-> seen))
  /\ (forall w', isZoomRunning output w = (Ok false, w') ->
        ~ seen /\ spawn h (lit "ps") [lit "aux"] = Spawned None)
  /\ (forall e w', isZoomRunning output w = (Throw e, w') ->
        spawn h (lit "ps") [lit "aux"] = SpawnThrows e).
Proof.
  cbv zeta.
  assert (includes (lit "zoom") output || includes (lit "Zoom") output = true <->
          exists pre post, output = pre ++ lit "zoom" ++ post
                           \/ output = pre ++ lit "Zoom" ++ post) as Hseen.
  { rewrite orb_true_iff, !includes_iff. split.
    - intros [[pre [post H]]|[pre [post H]]]; exists pre, post; auto.
    - intros [pre [post [H|H]]]; [left|right]; eauto. }
  unfold isZoomRunning. munfold. cbn -[lit app includes].
  split; [|split; [|split]].
  - intros e ->. cbn -[lit app includes]. rewrite <- !app_assoc. reflexivity.
  - intros code -> Hc. cbn -[lit app includes]. rewrite Hc. cbn -[lit app includes].
    eexists. split; [rewrite <- !app_assoc; reflexivity|exact Hseen].
  - intros w'. destruct (spawn _ _ _) as [e|[e|]]; cbn -[lit app includes];
      try discriminate.
    destruct (close_event _ _); cbn -[lit app includes]; [|discriminate].
    intros [= Hb _]. split; [|reflexivity].
    intros Hs. apply Hseen in Hs. congruence.
  - intros e w'. destruct (spawn _ _ _) as [e0|[e0|]]; cbn -[lit app includes].
    + intros [= <- _]. reflexivity.
    + discriminate.
    + destruct (close_event _ _); cbn -[lit app includes]; discriminate.
Qed.

(* ===================================================================== *)
(** ** The transcriber and the summarizer, by outcome                      *)
(* ===================================================================== *)

Lemma bind_ok {A B} (c : M A) (k : A -> M B) w b w' :
  bind c k w = (Ok b, w') ->
  exists a w1, c w = (Ok a, w1) /\ k a w1 = (Ok b, w').
Proof.
  unfold bind. destruct (c w) as [[a|e|] w1]; try discriminate. eauto.
Qed.

Lemma try_catch_ok {A} (c : M A) (h : error -> M A) w a w' :
  try_catch c h w = (Ok a, w') ->
  c w = (Ok a, w') \/ exists e w1, c w = (Throw e, w1) /\ h e w1 = (Ok a, w').
Proof.
  unfold try_catch. destruct (c w) as [[a0|e|] w1]; try discriminate; eauto.
Qed.



Lemma pollFile_round {E : Env} fuel name w :
  gemini_getFile (trace w) name = inr (lit "PROCESSING") ->
  pollFile (S fuel) name w =
    pollFile fuel name
      (mkWorld (trace w ++ pollRound name) (ffmpegProcess w) (recordingPath w)).
Proof.
  intros H. cbn [pollFile]. munfold. cbn -[lit app pollFile str_eqb].
  rewrite H. cbn -[lit app pollFile str_eqb].
  rewrite (proj2 (str_eqb_eq _ _) eq_refl). cbn -[lit app pollFile str_eqb].
  rewrite <- app_assoc. reflexivity.
Qed.

Lemma pollFile_answer {E : Env} fuel name w answer :
  gemini_getFile (trace w) name = answer ->
  answer <> inr (lit "PROCESSING") ->
  pollFile (S fuel) name w =
    (match answer with inr state => Ok state | inl e => Throw e end,
     mkWorld (trace w ++ [EGetFile name]) (ffmpegProcess w) (recordingPath w)).
Proof.
  intros H Hne. cbn [pollFile]. munfold. cbn -[lit app pollFile str_eqb].
  rewrite H. destruct answer as [e|state]; cbn -[lit app pollFile str_eqb];
    [reflexivity|].
  assert (str_eqb state (lit "PROCESSING") = false) as Hs
    by (apply str_eqb_neq; intros ->; now elim Hne).
  rewrite Hs. reflexivity.
Qed.

(** X13. The readiness poll. While the service answers [PROCESSING] the file
    is asked for again after two seconds; the first other answer ends the
    loop, with that state or with the error thrown by the request. With [n]
    answers [PROCESSING] before it, the loop has polled [n + 1] times and
    slept [n] times; observed for [n] polls or fewer it is still waiting:
    there is no bound on the number of polls. *)
Theorem pollFile_waits_while_processing {E : Env}
    (n fuel : nat) (name : jsstring) (w : World) (answer : error + jsstring) :
  (forall k, (k < n)%nat ->
     gemini_getFile (trace w ++ rounds k (pollRound name)) name
       = inr (lit "PROCESSING")) ->
  gemini_getFile (trace w ++ rounds n (pollRound name)) name = answer ->
  answer <> inr (lit "PROCESSING") ->
  ((n < fuel)%nat ->
     pollFile fuel name w =
       (match answer with inr state => Ok state | inl e => Throw e end,
        mkWorld (trace w ++ rounds n (pollRound name) ++ [EGetFile name])
                (ffmpegProcess w) (recordingPath w)))
  /\ ((fuel <= n)%nat -> fst (pollFile fuel name w) = Pending).
Proof.
  revert fuel w. induction n as [|n IH]; intros fuel w Hproc Hans Hne.
  - split.
    + intros Hlt. destruct fuel as [|fuel]; [lia|].
      unfold rounds in *. cbn [repeat List.concat app] in *.
      rewrite app_nil_r in Hans. exact (pollFile_answer fuel name w answer Hans Hne).
    + intros Hle. assert (fuel = O) as -> by lia. reflexivity.
  - assert (gemini_getFile (trace w) name = inr (lit "PROCESSING")) as H0.
    { specialize (Hproc O ltac:(lia)). unfold rounds in Hproc.
      cbn [repeat List.concat] in Hproc. now rewrite app_nil_r in Hproc. }
    pose (w1 := mkWorld (trace w ++ pollRound name) (ffmpegProcess w) (recordingPath w)).
    assert (forall k, trace w ++ rounds (S k) (pollRound name)
                      = trace w1 ++ rounds k (pollRound name)) as Hshift.
    { intros k. rewrite rounds_S. cbn [trace w1]. now rewrite <- app_assoc. }
    destruct (IH (Nat.pred fuel) w1) as [IH1 IH2].
    + intros k Hk. rewrite <- Hshift. apply Hproc. lia.
    + rewrite <- Hshift. exact Hans.
    + exact Hne.
    + split.
      * intros Hlt. destruct fuel as [|fuel]; [lia|]. cbn [Nat.pred] in IH1.
        rewrite (pollFile_round fuel name w H0). fold w1.
        rewrite IH1 by lia. cbn [trace w1 ffmpegProcess recordingPath].
        rewrite rounds_S, <- !app_assoc. reflexivity.
      * intros Hle. destruct fuel as [|fuel]; [reflexivity|]. cbn [Nat.pred] in IH2.
        rewrite (pollFile_round fuel name w H0). fold w1. apply IH2. lia.
Qed.

Lemma pollFile_waits_while_processing_witness :
  pollFile (E := timedEnv happy 0 2) 5 (lit "files/abc") w0 =
    (Ok (lit "ACTIVE"),
     mkWorld ([] ++ rounds 2 (pollRound (lit "files/abc")) ++ [EGetFile (lit "files/abc")])
             None None)
  /\ fst (pollFile (E := timedEnv happy 0 2) 2 (lit "files/abc") w0) = Pending.
Proof.
  assert (forall k, (k < 2)%nat ->
            gemini_getFile (Env := timedEnv happy 0 2)
              ([] ++ rounds k (pollRound (lit "files/abc"))) (lit "files/abc")
            = inr (lit "PROCESSING")) as Hproc.
  { intros k Hk. destruct k as [|[|k]]; [reflexivity|reflexivity|lia]. }
  split.
  - apply (proj1 (pollFile_waits_while_processing (E := timedEnv happy 0 2)
                    2 5 (lit "files/abc") w0 (inr (lit "ACTIVE")) Hproc eq_refl
                    ltac:(discriminate))). lia.
  - apply (proj2 (pollFile_waits_while_processing (E := timedEnv happy 0 2)
                    2 2 (lit "files/abc") w0 (inr (lit "ACTIVE")) Hproc eq_refl
                    ltac:(discriminate))). lia.
Defined.

(** X14. When [transcribeVideo] returns, the key was set and the audio was
    extracted; the file it names is the one it wrote last, in the output
    directory, with the transcript it returns as content; the deletion of the
    extracted audio was attempted just before that write; and the path
    returned is not empty, so the report of the session lists it. *)
Theorem transcribeVideo_returns_what_it_wrote {E : Env}
    (fuel : nat) (video : option jsstring) (dir : jsstring)
    (model : option jsstring) (w : World) (r : transcriptResult) (w' : World) :
  transcribeVideo fuel video dir model w = (Ok r, w') ->
  let h := trace w ++ [ECall TranscribeVideo] in
  let audioPath := path_join dir (lit "audio-" ++ date_now h ++ lit ".mp3") in
  truthy_opt GEMINI_API_KEY = true
  /\ ffmpeg_run h video audioPath = None
  /\ (exists evs,
        trace w' = h ++ EExtractAudio video audioPath :: evs
                     ++ [EUnlink audioPath;
                         EWriteFile (Transcription.filePath r) (transcript r)]
        /\ Transcription.filePath r =
             path_join dir (lit "transcript-"
                            ++ date_now (h ++ EExtractAudio video audioPath :: evs
                                           ++ [EUnlink audioPath])
                            ++ lit ".txt"))
  /\ truthy (Transcription.filePath r) = true
  /\ ffmpegProcess w' = ffmpegProcess w /\ recordingPath w' = recordingPath w.
Proof.
  intros Hrun. cbv zeta.
  destruct (truthy_opt GEMINI_API_KEY) eqn:Hkey.
  2:{ revert Hrun. unfold transcribeVideo. rewrite Hkey. munfold. cbn -[lit app].
      discriminate. }
  destruct (ffmpeg_run (trace w ++ [ECall TranscribeVideo]) video
              (path_join dir (lit "audio-" ++ date_now (trace w ++ [ECall TranscribeVideo])
                              ++ lit ".mp3"))) as [e|] eqn:Hff.
  { revert Hrun. unfold transcribeVideo, extractAudio. rewrite Hkey. munfold.
    destruct video as [v|]; cbn -[lit app transcribeAudio]; [|discriminate].
    rewrite Hff. cbn -[lit app transcribeAudio]. discriminate. }
  split; [reflexivity|]. split; [reflexivity|].
  pose proof (transcribeVideo_after_extraction fuel video dir model w Hkey Hff) as Hafter.
  cbv zeta in Hafter. rewrite Hafter in Hrun. clear Hafter.
  set (audioPath := path_join dir (lit "audio-" ++ date_now (trace w ++ [ECall TranscribeVideo])
                                   ++ lit ".mp3")) in *.
  set (m := match model with Some m => m | None => Transcription.defaultModel end) in *.
  set (w1 := mkWorld ((trace w ++ [ECall TranscribeVideo]) ++ [EExtractAudio video audioPath])
                     (ffmpegProcess w) (recordingPath w)) in *.
  destruct (transcribeAudio fuel audioPath dir m w1) as [[r0|e|] w2] eqn:Hta;
    try discriminate.
  injection Hrun as -> ->.
  unfold transcribeAudio in Hta.
  apply bind_ok in Hta as [file [wa [Hup Hta]]].
  apply bind_ok in Hta as [state [wb [Hpoll Hta]]].
  apply bind_ok in Hta as [u [wc [Hfailed Hta]]].
  apply bind_ok in Hta as [response [wd [Hgen Hta]]].
  apply bind_ok in Hta as [text [we [Hlift Hta]]].
  apply bind_ok in Hta as [u2 [wf [Hunlink Hta]]].
  apply bind_ok in Hta as [h2 [wg [Hget Hta]]].
  cbv zeta in Hta.
  apply bind_ok in Hta as [u3 [wh [Hwrite Hta]]].
  injection Hta as <- <-.
  injection Hget as <- <-.
  assert (emits anyEvent
            (call_val (EUploadFile audioPath (lit "audio/mp3") (path_basename audioPath))
                      (fun h => gemini_uploadFile h audioPath))) as E1
    by (repeat emits_step; exact I).
  destruct (E1 _ _ _ Hup) as [ev1 [T1 _]].
  destruct (pollFile_emits anyEvent fuel (rf_name file) I I _ _ _ Hpoll) as [ev2 [T2 _]].
  assert (trace wc = trace wb /\ ffmpegProcess wc = ffmpegProcess wb
          /\ recordingPath wc = recordingPath wb) as [T3 [F3 R3]].
  { revert Hfailed. unfold throw, ret.
    destruct (str_eqb state (lit "FAILED")); [discriminate|].
    intros [= _ <-]. repeat split. }
  assert (emits anyEvent
            (call_val (EGenerateContent m (Some (rf_uri file)) transcriptPrompt)
                      (fun h => gemini_generate h m (Some (rf_uri file)) transcriptPrompt)))
    as E4 by (repeat emits_step; exact I).
  destruct (E4 _ _ _ Hgen) as [ev4 [T4 _]].
  assert (we = wd) as -> by (destruct response; [discriminate|now injection Hlift]).
  assert (trace wf = trace wd ++ [EUnlink audioPath]
          /\ ffmpegProcess wf = ffmpegProcess wd
          /\ recordingPath wf = recordingPath wd) as [T6 [F6 R6]].
  { revert Hunlink. unfold unlinkAudio. munfold. cbn -[lit app].
    destruct (fs_unlink _ _); cbn -[lit app]; intros H;
      apply (f_equal snd) in H; cbn [snd] in H; subst wf; repeat split. }
  assert (wh = mkWorld (trace wf ++ [EWriteFile
                          (path_join dir (lit "transcript-" ++ date_now (trace wf)
                                          ++ lit ".txt")) text])
                       (ffmpegProcess wf) (recordingPath wf)) as ->.
  { revert Hwrite. munfold. cbn -[lit app].
    destruct (fs_writeFile _ _ _); [discriminate|]. now intros [= <-]. }
  assert (frames (call_val (EUploadFile audioPath (lit "audio/mp3") (path_basename audioPath))
                      (fun h => gemini_uploadFile h audioPath))) as Fr1
    by apply frames_call_val.
  destruct (Fr1 _ _ _ Hup) as [F1 R1].
  assert (frames (pollFile fuel (rf_name file))) as Fr2.
  { clear. induction fuel as [|n IH]; cbn [pollFile]; [apply frames_pending|].
    apply frames_bind; [apply frames_call_val|]. intros state.
    destruct (str_eqb _ _); [|apply frames_ret].
    apply frames_bind; [apply frames_emit|]. intros _. exact IH. }
  destruct (Fr2 _ _ _ Hpoll) as [F2 R2].
  assert (frames (call_val (EGenerateContent m (Some (rf_uri file)) transcriptPrompt)
                      (fun h => gemini_generate h m (Some (rf_uri file)) transcriptPrompt)))
    as Fr4 by apply frames_call_val.
  destruct (Fr4 _ _ _ Hgen) as [F4 R4].
  cbn [Transcription.filePath transcript trace ffmpegProcess recordingPath].
  split; [|split; [apply path_join_truthy|split; [|]]].
  - exists (ev1 ++ ev2 ++ ev4).
    assert (trace wf = (trace w ++ [ECall TranscribeVideo]) ++
                       EExtractAudio video audioPath :: (ev1 ++ ev2 ++ ev4)
                       ++ [EUnlink audioPath]) as Hwf.
    { rewrite T6, T4, T3, T2, T1. cbn [trace w1].
      rewrite <- ?app_assoc. cbn [app]. rewrite <- ?app_assoc. reflexivity. }
    split.
    + rewrite Hwf. rewrite <- ?app_assoc. cbn [app]. rewrite <- ?app_assoc. reflexivity.
    + rewrite Hwf. reflexivity.
  - rewrite F6, F4, F3, F2, F1. reflexivity.
  - rewrite R6, R4, R3, R2, R1. reflexivity.
Qed.

Lemma transcribeVideo_returns_what_it_wrote_witness :
  exists evs,
    trace (snd (transcribeVideo (E := sampleEnv happy) 3 (Some recordedFile)
                  (lit "/data/transcripts") None w0)) =
      ([] ++ [ECall TranscribeVideo]) ++
      EExtractAudio (Some recordedFile) (lit "/data/transcripts/audio-1714557600000.mp3")
        :: evs
        ++ [EUnlink (lit "/data/transcripts/audio-1714557600000.mp3");
            EWriteFile (lit "/data/transcripts/transcript-1714557600000.txt")
                       (lit "[00:01] hello")].
Proof.
  destruct (transcribeVideo_returns_what_it_wrote (E := sampleEnv happy) 3
              (Some recordedFile) (lit "/data/transcripts") None w0
              (mkTranscriptResult (lit "[00:01] hello")
                 (lit "/data/transcripts/transcript-1714557600000.txt"))
              (snd (transcribeVideo (E := sampleEnv happy) 3 (Some recordedFile)
                      (lit "/data/transcripts") None w0))
              ltac:(vm_compute; reflexivity))
    as [_ [_ [[evs [Htrace _]] _]]].
  exists evs. exact Htrace.
Defined.

(** X15. When [generateSummary] returns, it has made one request, with the
    prompt built from the text of the transcript and the model given (the
    default one when it is undefined), and written the answer to the path
    it returns, which is not empty. When it throws, the last event is the
    line of its handler; without an answer from the model no file is
    written. *)
Theorem generateSummary_writes_the_answer {E : Env}
    (t : transcriptArg) (dir : jsstring) (model : option jsstring) (w : World) :
  let m := match model with Some m => m | None => Summary.defaultModel end in
  let prompt := buildPrompt (transcriptTextOf t) in
  let h := trace w ++ [ECall GenerateSummary] in
  let request := EGenerateContent m None prompt in
  (forall r w',
     generateSummary t dir model w = (Ok r, w') ->
     gemini_generate h m None prompt = inr (inr (summary r))
     /\ Summary.filePath r =
          path_join dir (lit "summary-" ++ date_now (h ++ [request]) ++ lit ".md")
     /\ truthy (Summary.filePath r) = true
     /\ w' = mkWorld (h ++ [request; EWriteFile (Summary.filePath r) (summary r)])
                     (ffmpegProcess w) (recordingPath w))
  /\ (forall e w',
        generateSummary t dir model w = (Throw e, w') ->
        ffmpegProcess w' = ffmpegProcess w /\ recordingPath w' = recordingPath w
        /\ exists evs,
             trace w' = h ++ evs ++ [EConsole Err (lit "Summary generation error: "
                                                   ++ err_message e)]
             /\ ((forall text, gemini_generate h m None prompt <> inr (inr text)) ->
                 forall p d, ~ In (EWriteFile p d) evs)).
Proof.
  cbv zeta. unfold generateSummary.
  destruct (truthy_opt GEMINI_API_KEY); munfold; cbn -[lit app buildPrompt].
  2:{ split; [discriminate|].
      intros e w' [= <- <-]. cbn [trace ffmpegProcess recordingPath].
      split; [reflexivity|]. split; [reflexivity|].
      exists []. rewrite <- !app_assoc. split; [reflexivity|]. intros _ p d []. }
  rewrite <- !app_assoc. cbn [app].
  destruct (gemini_generate _ _ _ _) as [e|[e|text]] eqn:Hgen; cbn -[lit app buildPrompt].
  - split; [discriminate|].
    intros e' w' [= <- <-]. cbn [trace ffmpegProcess recordingPath].
    split; [reflexivity|]. split; [reflexivity|].
    eexists [_]. rewrite <- !app_assoc. split; [reflexivity|].
    intros _ p d [H|[]]. discriminate.
  - split; [discriminate|].
    intros e' w' [= <- <-]. cbn [trace ffmpegProcess recordingPath].
    split; [reflexivity|]. split; [reflexivity|].
    eexists [_]. rewrite <- !app_assoc. split; [reflexivity|].
    intros _ p d [H|[]]. discriminate.
  - rewrite <- !app_assoc. cbn [app].
    destruct (fs_writeFile _ _ _) as [e|]; cbn -[lit app buildPrompt].
    + split; [discriminate|].
      intros e' w' [= <- <-]. cbn [trace ffmpegProcess recordingPath].
      split; [reflexivity|]. split; [reflexivity|].
      eexists [_; _]. rewrite <- !app_assoc. split; [reflexivity|].
      intros Hno. now elim (Hno text).
    + split; [|discriminate].
      intros r w' [= <- <-]. cbn [Summary.filePath summary].
      split; [reflexivity|]. split; [reflexivity|].
      split; [apply path_join_truthy|]. rewrite <- !app_assoc. reflexivity.
Qed.

(* ===================================================================== *)
(** ** The stages after the recording                                      *)
(* ===================================================================== *)

Lemma bind_throw {A B} (c : M A) (k : A -> M B) w e w' :
  bind c k w = (Throw e, w') ->
  c w = (Throw e, w') \/ exists a w1, c w = (Ok a, w1) /\ k a w1 = (Throw e, w').
Proof.
  unfold bind. destruct (c w) as [[a|e0|] w1]; try discriminate.
  - intros H. right. eauto.
  - intros [= -> ->]. left. reflexivity.
Qed.

Lemma frames_lift {A} (x : error + A) : frames (lift x).
Proof. destruct x; [apply frames_throw|apply frames_ret]. Qed.

Lemma frames_call_unit e o : frames (call_unit e o).
Proof.
  unfold call_unit.
  apply frames_bind; [apply frames_get_trace|]. intros h.
  apply frames_bind; [apply frames_emit|]. intros _.
  destruct (o h); [apply frames_throw|apply frames_ret].
Qed.

Lemma frames_try_finally {A} (c : M A) (f : M unit) :
  frames c -> frames f -> frames (try_finally c f).
Proof.
  intros Hc Hf w r w' H. unfold try_finally in H.
  destruct (c w) as [[a|e|] w1] eqn:Hcw.
  - destruct (Hc _ _ _ Hcw) as [H1 H2].
    destruct (f w1) as [[u|e'|] w2] eqn:Hfw; injection H as <- <-;
      destruct (Hf _ _ _ Hfw) as [H3 H4]; split; congruence.
  - destruct (Hc _ _ _ Hcw) as [H1 H2].
    destruct (f w1) as [[u|e'|] w2] eqn:Hfw; injection H as <- <-;
      destruct (Hf _ _ _ Hfw) as [H3 H4]; split; congruence.
  - injection H as <- <-. exact (Hc _ _ _ Hcw).
Qed.

Lemma frames_swallow c : frames c -> frames (swallow c).
Proof. intros H. apply frames_try_catch; [exact H|]. intros _. apply frames_ret. Qed.

Ltac frames_step :=
  match goal with
  | |- frames (bind _ _) => apply frames_bind; [|intros ?]
  | |- frames (try_catch _ _) => apply frames_try_catch; [|intros ?]
  | |- frames (try_finally _ _) => apply frames_try_finally
  | |- frames (swallow _) => apply frames_swallow
  | |- frames (ret _) => apply frames_ret
  | |- frames (throw _) => apply frames_throw
  | |- frames pending => apply frames_pending
  | |- frames (lift _) => apply frames_lift
  | |- frames get_trace => apply frames_get_trace
  | |- frames (call_unit _ _) => apply frames_call_unit
  | |- frames (call_val _ _) => apply frames_call_val
  | |- frames (emit _) => apply frames_emit
  | |- frames (console _ _) => apply frames_emit
  | |- frames (sleep _) => apply frames_emit
  | |- frames (match ?x with _ => _ end) => destruct x
  | |- frames (let _ := _ in _) => cbv zeta
  end.

Section Stages.
Context {E : Env}.

Lemma pollFile_frames fuel name : frames (pollFile fuel name).
Proof.
  induction fuel as [|n IH]; cbn [pollFile]; [apply frames_pending|].
  apply frames_bind; [apply frames_call_val|]. intros state.
  destruct (str_eqb _ _); [|apply frames_ret].
  apply frames_bind; [apply frames_emit|]. intros _. exact IH.
Qed.

Lemma joinZoomMeeting_frames config : frames (joinZoomMeeting config).
Proof. unfold joinZoomMeeting. repeat frames_step. Qed.

Lemma quitZoom_frames : frames quitZoom.
Proof. unfold quitZoom. repeat frames_step. Qed.

Lemma verifyRecording_frames config rp : frames (verifyRecording config rp).
Proof. unfold verifyRecording, uploadToCloud. repeat frames_step. Qed.

Lemma postProcessAndReport_frames fuel config rp dir :
  frames (postProcessAndReport fuel config rp dir).
Proof.
  unfold postProcessAndReport, postProcess, onTranscriptionError, finalReport,
    transcribeVideo, Transcription.extractAudio, Transcription.transcribeAudio,
    Transcription.unlinkAudio, generateSummary.
  repeat first [apply pollFile_frames | frames_step].
Qed.

Lemma joinZoomMeeting_calls l config :
  In JoinZoomMeeting l -> emits (callsOnly l) (joinZoomMeeting config).
Proof. intros H. unfold joinZoomMeeting. repeat emits_step; cbn; auto. Qed.

Lemma startScreenRecording_calls l dir q :
  In StartScreenRecording l -> emits (callsOnly l) (startScreenRecording dir q).
Proof.
  intros H. unfold startScreenRecording, onSpawnError. repeat emits_step; cbn; auto.
Qed.

Lemma monitorMeeting_calls l fuel :
  In MonitorMeeting l -> emits (callsOnly l) (monitorMeeting fuel).
Proof.
  intros H. unfold monitorMeeting. apply emits_bind; [apply emits_emit; exact H|].
  intros _. apply monitorLoop_emits; intros; exact I.
Qed.

Lemma stopScreenRecording_calls l :
  In StopScreenRecording l -> emits (callsOnly l) stopScreenRecording.
Proof. intros H. unfold stopScreenRecording. repeat emits_step; cbn; auto. Qed.

Lemma monitorMeeting_no_throw fuel : no_throw (monitorMeeting fuel).
Proof.
  unfold monitorMeeting. apply no_throw_bind; [apply no_throw_emit|]. intros _.
  induction fuel as [|n IH]; cbn [monitorLoop]; [intros ? ? ?; discriminate|].
  apply no_throw_bind; [apply no_throw_emit|]. intros _.
  apply no_throw_bind.
  - unfold monitorTick. apply no_throw_try_catch. intros _.
    apply no_throw_bind; [apply no_throw_emit|]. intros _ ? ? ?. discriminate.
  - intros [|]; [intros ? ? ?; discriminate|exact IH].
Qed.

Lemma startScreenRecording_throw_handle dir q w e w' :
  startScreenRecording dir q w = (Throw e, w') -> ffmpegProcess w' = ffmpegProcess w.
Proof.
  unfold startScreenRecording, onSpawnError. munfold.
  cbn -[lit app Z_to_js replaceColonDot ffmpegArgs selectSettings].
  destruct (fs_mkdir _ _);
    cbn -[lit app Z_to_js replaceColonDot ffmpegArgs selectSettings].
  { now intros [= _ <-]. }
  destruct (selectSettings _);
    cbn -[lit app Z_to_js replaceColonDot ffmpegArgs selectSettings].
  - destruct (spawn _ _ _) as [e0|[e0|]];
      cbn -[lit app Z_to_js replaceColonDot ffmpegArgs selectSettings];
      [|destruct (code_is e0 ENOENT);
        cbn -[lit app Z_to_js replaceColonDot ffmpegArgs selectSettings];
        discriminate|discriminate].
    now intros [= _ <-].
  - now intros [= _ <-].
Qed.

(** The handler of the session keeps an idle recorder idle: its stop finds
    nothing to stop. *)
Lemma onSessionError_keeps_idle rp e w r w' :
  onSessionError rp e w = (r, w') ->
  ffmpegProcess w = None ->
  ffmpegProcess w' = None /\ recordingPath w' = recordingPath w.
Proof.
  intros Hrun Hidle. revert Hrun.
  unfold onSessionError, getRecordingPath.
  unfold bind at 1. unfold console at 1, emit at 1.
  destruct (truthy_opt rp).
  - unfold try_catch at 1, bind at 1, get_recordingPath at 1.
    cbn [recordingPath]. destruct (truthy_opt (recordingPath w)).
    + unfold swallow, try_catch, bind.
      rewrite stopScreenRecording_idle by exact Hidle.
      unfold ret. intros [= <- <-]. cbn. auto.
    + unfold ret. intros [= <- <-]. cbn. auto.
  - unfold try_catch, ret. intros [= <- <-]. cbn. auto.
Qed.

Lemma generateSummary_path_truthy t dir model w r w' :
  generateSummary t dir model w = (Ok r, w') -> truthy (Summary.filePath r) = true.
Proof.
  unfold generateSummary.
  destruct (truthy_opt GEMINI_API_KEY); munfold; cbn -[lit app buildPrompt];
    [|discriminate].
  destruct (gemini_generate _ _ _ _) as [e|[e|text]]; cbn -[lit app buildPrompt];
    try discriminate.
  destruct (fs_writeFile _ _ _); cbn -[lit app buildPrompt]; [discriminate|].
  intros [= <- _]. apply path_join_truthy.
Qed.

Lemma transcribeVideo_path_truthy fuel video dir model w r w' :
  transcribeVideo fuel video dir model w = (Ok r, w') ->
  truthy (Transcription.filePath r) = true.
Proof.
  unfold transcribeVideo. intros H.
  apply bind_ok in H as [u [w1 [_ H]]].
  apply try_catch_ok in H as [H|[e [w2 [_ H]]]].
  2:{ apply bind_ok in H as [u1 [w3 [_ H]]]. discriminate. }
  apply bind_ok in H as [u1 [w3 [_ H]]].
  apply bind_ok in H as [audio [w4 [_ H]]].
  apply try_catch_ok in H as [H|[e [w5 [_ H]]]].
  2:{ apply bind_ok in H as [u2 [w6 [_ H]]]. discriminate. }
  unfold transcribeAudio in H.
  repeat (apply bind_ok in H as [? [? [_ H]]]; cbv zeta in H).
  injection H as <- _. apply path_join_truthy.
Qed.

End Stages.



(** X17. The report lists what was produced. Once the transcript is written, a
    summary that is written as well gives a report of the recording, the
    transcript and the summary; a summary that fails is printed as a
    transcription failure, and the report still lists the transcript, with no
    summary line. *)
Theorem report_lists_what_was_produced {E : Env}
    (fuel : nat) (config : rawConfig) (ai : rawAi) (recording : option jsstring)
    (transcriptsDir : jsstring) (w : World) (r : transcriptResult) (w1 : World) :
  raw_ai config = Some ai ->
  transcribeVideo fuel recording transcriptsDir (ra_transcriptionModel ai) w
    = (Ok r, w1) ->
  let recordingLine :=
    if truthy_opt recording
    then [EConsole Log (lit "  Recording: " ++ interp recording)] else [] in
  let transcriptLine :=
    EConsole Log (lit "  Transcript: " ++ Transcription.filePath r) in
  match generateSummary (TString (transcript r)) transcriptsDir (ra_summaryModel ai) w1 with
  | (Ok s, w2) =>
      postProcessAndReport fuel config recording transcriptsDir w =
        (Ok tt,
         mkWorld (trace w2 ++ [EConsole Log (lit "Files generated:")] ++ recordingLine
                    ++ [transcriptLine;
                        EConsole Log (lit "  Summary: " ++ Summary.filePath s)])
                 (ffmpegProcess w2) (recordingPath w2))
  | (Throw e, w2) =>
      postProcessAndReport fuel config recording transcriptsDir w =
        (Ok tt,
         mkWorld (trace w2 ++ [EConsole Err (lit "Transcription failed:");
                               EConsole Err (lit "  Error: " ++ err_message e);
                               EConsole Log (lit "Files generated:")]
                    ++ recordingLine ++ [transcriptLine])
                 (ffmpegProcess w2) (recordingPath w2))
  | (Pending, w2) =>
      postProcessAndReport fuel config recording transcriptsDir w = (Pending, w2)
  end.
Proof.
  intros Hai Htr. cbv zeta.
  pose proof (transcribeVideo_path_truthy _ _ _ _ _ _ _ Htr) as Ht.
  unfold postProcessAndReport, postProcess, onTranscriptionError, finalReport.
  rewrite Hai. unfold section. munfold.
  cbn -[lit app transcribeVideo generateSummary].
  rewrite Htr. cbn -[lit app generateSummary].
  destruct (generateSummary _ _ _ w1) as [[s|e|] w2] eqn:Hsum; cbn -[lit app].
  - pose proof (generateSummary_path_truthy _ _ _ _ _ _ Hsum) as Hs.
    rewrite Ht, Hs.
    destruct (truthy_opt recording); cbn -[lit app]; rewrite <- ?app_assoc; reflexivity.
  - rewrite Ht.
    destruct (truthy_opt recording); cbn -[lit app]; rewrite <- ?app_assoc; reflexivity.
  - reflexivity.
Qed.

Lemma report_lists_what_was_produced_witness :
  exists w',
    postProcessAndReport (E := sampleEnv happy) 3 happyConfig (Some recordedFile)
      (lit "/data/transcripts") w0 = (Ok tt, w')
    /\ In (EConsole Log (lit "  Summary: " ++ lit "/data/transcripts/summary-1714557600000.md"))
          (trace w').
Proof.
  pose proof (report_lists_what_was_produced (E := sampleEnv happy) 3 happyConfig
                (mkRawAi (Some (lit "gemini-1.5-flash")) (Some (lit "gemini-1.5-flash")))
                (Some recordedFile) (lit "/data/transcripts") w0
                (mkTranscriptResult (lit "[00:01] hello")
                   (lit "/data/transcripts/transcript-1714557600000.txt"))
                (snd (transcribeVideo (E := sampleEnv happy) 3 (Some recordedFile)
                        (lit "/data/transcripts") (Some (lit "gemini-1.5-flash")) w0))
                eq_refl ltac:(vm_compute; reflexivity)) as Hreport.
  cbv zeta in Hreport.
  destruct (generateSummary (E := sampleEnv happy) _ _ _ _) as [[s|e|] w2] eqn:Hsum;
    [|vm_compute in Hsum; discriminate Hsum|vm_compute in Hsum; discriminate Hsum].
  eexists. split; [exact Hreport|].
  assert (Summary.filePath s = lit "/data/transcripts/summary-1714557600000.md") as ->.
  { vm_compute in Hsum. injection Hsum as <- _. reflexivity. }
  cbn [trace]. apply in_or_app. right. apply in_or_app. right.
  apply in_or_app. right. right. left. reflexivity.
Defined.

(* ===================================================================== *)
(** ** Sessions that end early                                             *)
(* ===================================================================== *)

Lemma joinZoomMeeting_noSpawn {E : Env} config : emits noSpawn (joinZoomMeeting config).
Proof. unfold joinZoomMeeting. repeat emits_step; exact I. Qed.

Lemma joinZoomMeeting_quiet {E : Env} config : emits noStopEvent (joinZoomMeeting config).
Proof. unfold joinZoomMeeting. repeat emits_step; exact I. Qed.

(** X18. A session whose join fails records nothing: the error is printed and
    the session returns normally; the recorder is never called: no encoder
    is spawned, nothing is written to or awaited from one, and the
    recorder's variables are as they were; there is nothing to clean up.
    The only stage called is the join, with the commands it runs itself. *)
Theorem session_without_a_meeting_records_nothing {E : Env}
    (fuel : nat) (config : rawConfig) (rec : rawRecording) (outputDir : jsstring)
    (w w2 : World) (e : error) :
  let transcriptsDir := path_join outputDir (lit "../transcripts") in
  let h := trace w ++ [ECall RunRecordingSession] in
  let w1 := mkWorld (h ++ [EMkdir outputDir; EMkdir transcriptsDir])
                    (ffmpegProcess w) (recordingPath w) in
  raw_recording config = Some rec -> rr_outputDir rec = Some outputDir ->
  fs_mkdir h outputDir = None ->
  fs_mkdir (h ++ [EMkdir outputDir]) transcriptsDir = None ->
  joinZoomMeeting config w1 = (Throw e, w2) ->
  runRecordingSession fuel config w =
    (Ok tt,
     mkWorld (trace w2 ++ [EConsole Err (lit "Session error: " ++ err_message e)])
             (ffmpegProcess w) (recordingPath w))
  /\ exists evs,
       trace w2 = trace w1 ++ evs
       /\ Forall (callsOnly [JoinZoomMeeting]) evs
       /\ Forall noSpawn evs
       /\ Forall noStopEvent evs.
Proof.
  cbv zeta. intros Hrec Hdir Hmk1 Hmk2 Hjoin.
  destruct (joinZoomMeeting_frames _ _ _ _ Hjoin) as [Hf Hr]. cbn in Hf, Hr.
  split.
  - rewrite <- ?app_assoc in Hmk2, Hjoin. cbn [app] in Hmk2, Hjoin.
    unfold runRecordingSession, section, onSessionError. munfold. session_cbn.
    rewrite Hrec. session_cbn. rewrite Hdir. session_cbn.
    rewrite Hmk1. session_cbn. rewrite <- ?app_assoc. cbn [app].
    rewrite Hmk2. session_cbn. rewrite <- ?app_assoc. cbn [app].
    rewrite Hjoin. session_cbn. rewrite Hf, Hr. reflexivity.
  - destruct (joinZoomMeeting_calls [JoinZoomMeeting] config (or_introl eq_refl)
                _ _ _ Hjoin) as [evs [Hevs F1]].
    destruct (joinZoomMeeting_noSpawn config _ _ _ Hjoin) as [evs' [Hevs' F2]].
    rewrite Hevs in Hevs'. apply app_inv_head in Hevs'. subst evs'.
    destruct (joinZoomMeeting_quiet config _ _ _ Hjoin) as [evs' [Hevs' F3]].
    rewrite Hevs in Hevs'. apply app_inv_head in Hevs'. subst evs'.
    exists evs. auto.
Qed.

Lemma session_without_a_meeting_records_nothing_witness :
  exists w2,
    runRecordingSession (E := sampleEnv happy) 3
      (sampleConfig (lit "https://zoom.us/my/room") None) w0 =
      (Ok tt,
       mkWorld (trace w2 ++
                  [EConsole Err (lit "Session error: "
                                 ++ lit "Could not extract Meeting ID from link: "
                                 ++ lit "https://zoom.us/my/room")])
               None None).
Proof.
  eexists.
  apply (session_without_a_meeting_records_nothing (E := sampleEnv happy) 3
           (sampleConfig (lit "https://zoom.us/my/room") None)
           (mkRawRecording (Some sampleDir) (Some (lit "medium"))) sampleDir w0
           (snd (joinZoomMeeting (E := sampleEnv happy)
                   (sampleConfig (lit "https://zoom.us/my/room") None)
                   (mkWorld (([] ++ [ECall RunRecordingSession]) ++
                             [EMkdir sampleDir;
                              EMkdir (path_join (Env := sampleEnv happy) sampleDir
                                        (lit "../transcripts"))])
                            None None)))
           (Error (lit "Could not extract Meeting ID from link: "
                   ++ lit "https://zoom.us/my/room"))
           eq_refl eq_refl eq_refl eq_refl ltac:(vm_compute; reflexivity)).
Defined.

(** X19. A session whose stop rejects ends there: the error is printed, the
    cleanup calls the recorder's stop a second time, which finds no recording,
    and the session returns normally. Zoom is not quit and nothing is verified
    or transcribed. *)
Theorem session_stop_failure_skips_the_rest {E : Env}
    (fuel : nat) (config : rawConfig) (rec : rawRecording)
    (outputDir id started status : jsstring)
    (w w2 w3 w4 w5 : World) (e : error) :
  let transcriptsDir := path_join outputDir (lit "../transcripts") in
  let h := trace w ++ [ECall RunRecordingSession] in
  let w1 := mkWorld (h ++ [EMkdir outputDir; EMkdir transcriptsDir])
                    (ffmpegProcess w) (recordingPath w) in
  raw_recording config = Some rec -> rr_outputDir rec = Some outputDir ->
  fs_mkdir h outputDir = None ->
  fs_mkdir (h ++ [EMkdir outputDir]) transcriptsDir = None ->
  joinZoomMeeting config w1 = (Ok id, w2) ->
  startScreenRecording outputDir (rr_quality rec) w2 = (Ok started, w3) ->
  monitorMeeting fuel w3 = (Ok status, w4) ->
  stopScreenRecording
    (mkWorld (trace w4 ++ [ESleep 2000]) (ffmpegProcess w4) (recordingPath w4))
    = (Throw e, w5) ->
  runRecordingSession fuel config w =
    (Ok tt,
     mkWorld (trace w5 ++ [EConsole Err (lit "Session error: " ++ err_message e);
                           ECall StopScreenRecording;
                           EConsole Log (lit "No active recording to stop")])
             None (Some started))
  /\ (forall evs, trace w5 = trace w ++ evs ->
        ~ In (ECall QuitZoom) evs /\ ~ In (ECall UploadToCloud) evs
        /\ ~ In (ECall TranscribeVideo) evs).
Proof.
  cbv zeta. intros Hrec Hdir Hmk1 Hmk2 Hjoin Hstart Hmon Hstop.
  destruct (startScreenRecording_holds _ _ _ _ _ Hstart) as [Hpath [Htruthy [p Hp]]].
  destruct (monitorMeeting_frames _ _ _ _ Hmon) as [Hf1 Hf2].
  destruct (stopScreenRecording_settled _ _ _ Hstop) as [Hidle Hkept];
    [discriminate|]. cbn [recordingPath] in Hkept.
  split.
  - rewrite <- ?app_assoc in Hmk2, Hjoin. cbn [app] in Hmk2, Hjoin.
    unfold runRecordingSession, section. munfold. session_cbn.
    rewrite Hrec. session_cbn. rewrite Hdir. session_cbn.
    rewrite Hmk1. session_cbn. rewrite <- ?app_assoc. cbn [app].
    rewrite Hmk2. session_cbn. rewrite <- ?app_assoc. cbn [app].
    rewrite Hjoin. session_cbn. rewrite Hstart. session_cbn.
    rewrite Hmon. session_cbn. rewrite Hstop. session_cbn.
    unfold onSessionError, getRecordingPath. munfold.
    cbn -[lit app stopScreenRecording]. rewrite Htruthy.
    cbn -[lit app stopScreenRecording].
    rewrite Hkept, Hf2, Hpath. cbn -[lit app stopScreenRecording]. rewrite Htruthy.
    rewrite stopScreenRecording_idle by exact Hidle.
    cbn -[lit app]. rewrite <- ?app_assoc. reflexivity.
  - intros evs Hevs.
    pose (l := [RunRecordingSession; JoinZoomMeeting; StartScreenRecording;
                MonitorMeeting; StopScreenRecording]).
    destruct (joinZoomMeeting_calls l config ltac:(cbn; auto) _ _ _ Hjoin)
      as [e2 [H2 F2]].
    destruct (startScreenRecording_calls l _ _ ltac:(cbn; auto) _ _ _ Hstart)
      as [e3 [H3 F3]].
    destruct (monitorMeeting_calls l fuel ltac:(cbn; auto) _ _ _ Hmon) as [e4 [H4 F4]].
    destruct (stopScreenRecording_calls l ltac:(cbn; auto 6) _ _ _ Hstop)
      as [e5 [H5 F5]].
    cbn [trace] in H2, H5.
    rewrite H5, H4, H3, H2 in Hevs.
    rewrite <- !app_assoc in Hevs. apply app_inv_head in Hevs. subst evs.
    assert (Forall (callsOnly l)
              ([ECall RunRecordingSession] ++ [EMkdir outputDir;
                 EMkdir (path_join outputDir (lit "../transcripts"))] ++
               e2 ++ e3 ++ e4 ++ [ESleep 2000] ++ e5)) as F.
    { repeat (apply Forall_app; split); try assumption;
        repeat constructor; cbn; auto. }
    rewrite Forall_forall in F.
    repeat split; intros Hin; apply F in Hin; cbn in Hin;
      repeat destruct Hin as [Hin|Hin]; discriminate || exact Hin.
Qed.

Lemma session_stop_failure_skips_the_rest_witness :
  exists w5,
    runRecordingSession (E := sampleEnv encoderCrashed) 3 happyConfig w0 =
      (Ok tt,
       mkWorld (trace w5 ++
                  [EConsole Err (lit "Session error: " ++ lit "FFmpeg exited with code 1");
                   ECall StopScreenRecording;
                   EConsole Log (lit "No active recording to stop")])
               None (Some recordedFile)).
Proof.
  pose (E := sampleEnv encoderCrashed).
  pose (tdir := path_join (Env := E) sampleDir (lit "../transcripts")).
  pose (w1 := mkWorld (([] ++ [ECall RunRecordingSession]) ++
                       [EMkdir sampleDir; EMkdir tdir]) None None).
  pose (w2 := snd (joinZoomMeeting (E := E) happyConfig w1)).
  pose (w3 := snd (startScreenRecording (E := E) sampleDir (Some (lit "medium")) w2)).
  pose (w4 := snd (monitorMeeting (E := E) 3 w3)).
  pose (w5 := snd (stopScreenRecording (E := E)
                     (mkWorld (trace w4 ++ [ESleep 2000]) (ffmpegProcess w4)
                              (recordingPath w4)))).
  exists w5.
  apply (session_stop_failure_skips_the_rest (E := E) 3 happyConfig
           (mkRawRecording (Some sampleDir) (Some (lit "medium")))
           sampleDir (lit "123456789") recordedFile (lit "ended")
           w0 w2 w3 w4 w5 (Error (lit "FFmpeg exited with code 1"))
           eq_refl eq_refl eq_refl eq_refl
           ltac:(vm_compute; reflexivity) ltac:(vm_compute; reflexivity)
           ltac:(vm_compute; reflexivity) ltac:(vm_compute; reflexivity)).
Defined.

(** X20. A session that returns leaves the recorder idle whenever it found it
    idle: either the recorder was never started, or the handle it took was
    cleared by the stop, and the cleanup of a failed session takes none. So
    does a sequence of scheduled sessions, one after the other. *)
Theorem session_leaves_the_recorder_idle {E : Env}
    (fuel : nat) (config : rawConfig) (w w' : World) :
  runRecordingSession fuel config w = (Ok tt, w') ->
  ffmpegProcess w = None ->
  ffmpegProcess w' = None.
Proof.
  intros Hrun Hidle. unfold runRecordingSession in Hrun.
  apply bind_ok in Hrun as [[] [wa [Hemit Hrun]]].
  assert (ffmpegProcess wa = None) as Ha
    by (injection Hemit as <-; exact Hidle).
  clear Hemit Hidle.
  (* the part of the session that follows a start: it ends idle *)
  assert (forall stopped dir w0 r w1,
            try_catch
              (quitZoom ;;
               verifyRecording config stopped ;;
               postProcessAndReport fuel config stopped dir)
              (onSessionError stopped) w0 = (r, w1) ->
            ffmpegProcess w0 = None ->
            ffmpegProcess w1 = None) as Hafter.
  { intros stopped dir w0 r w1 H H0.
    assert (frames (quitZoom ;; verifyRecording config stopped ;;
                    postProcessAndReport fuel config stopped dir)) as Hfr.
    { apply frames_bind; [apply quitZoom_frames|]. intros _.
      apply frames_bind; [apply verifyRecording_frames|]. intros _.
      apply postProcessAndReport_frames. }
    unfold try_catch in H.
    destruct ((quitZoom ;; _) w0) as [[u|e|] wq] eqn:Hq.
    - injection H as _ <-. destruct (Hfr _ _ _ Hq) as [Hf _]. congruence.
    - destruct (Hfr _ _ _ Hq) as [Hf _].
      apply (onSessionError_keeps_idle _ _ _ _ _ H). congruence.
    - injection H as _ <-. destruct (Hfr _ _ _ Hq) as [Hf _]. congruence. }
  assert (forall started dir w0 w1,
            try_catch
              (_ <- monitorMeeting fuel ;;
               sleep 2000 ;;
               stopped <- stopScreenRecording ;;
               try_catch
                 (quitZoom ;;
                  verifyRecording config stopped ;;
                  postProcessAndReport fuel config stopped dir)
                 (onSessionError stopped))
              (onSessionError (Some started)) w0 = (Ok tt, w1) ->
            ffmpegProcess w1 = None) as Hrecorded.
  { intros started dir w0 w1 H.
    apply try_catch_ok in H as [H|[e [wt [Hthrow H]]]].
    - apply bind_ok in H as [status [wm [Hmon H]]].
      apply bind_ok in H as [u [ws [Hsleep H]]].
      apply bind_ok in H as [stopped [wp [Hstop H]]].
      destruct (stopScreenRecording_settled _ _ _ Hstop) as [Hnone _];
        [discriminate|].
      exact (Hafter stopped dir wp _ w1 H Hnone).
    - apply bind_throw in Hthrow as [Hmon|[status [wm [Hmon Hthrow]]]].
      { now elim (monitorMeeting_no_throw fuel _ _ _ Hmon). }
      apply bind_throw in Hthrow as [Hsleep|[u [ws [Hsleep Hthrow]]]].
      { discriminate. }
      apply bind_throw in Hthrow as [Hstop|[stopped [wp [Hstop Hthrow]]]].
      + destruct (stopScreenRecording_settled _ _ _ Hstop) as [Hnone _];
          [discriminate|].
        apply (onSessionError_keeps_idle _ _ _ _ _ H Hnone).
      + destruct (stopScreenRecording_settled _ _ _ Hstop) as [Hnone _];
          [discriminate|].
        assert (ffmpegProcess wt = None) as Hwt
          by exact (Hafter stopped dir wp _ wt Hthrow Hnone).
        apply (onSessionError_keeps_idle _ _ _ _ _ H Hwt). }
  apply try_catch_ok in Hrun as [Hrun|[e [wt [Hthrow Hrun]]]].
  - apply bind_ok in Hrun as [recording [w1 [H1 Hrun]]].
    apply bind_ok in Hrun as [outputDir [w2 [H2 Hrun]]]. cbv zeta in Hrun.
    apply bind_ok in Hrun as [u3 [w3 [H3 Hrun]]].
    apply bind_ok in Hrun as [u4 [w4 [H4 Hrun]]].
    apply bind_ok in Hrun as [id [w5 [H5 Hrun]]].
    apply bind_ok in Hrun as [started [w6 [H6 Hrun]]].
    exact (Hrecorded started _ w6 w' Hrun).
  - assert (ffmpegProcess wt = None) as Hwt.
    { apply bind_throw in Hthrow as [H1|[recording [w1 [H1 Hthrow]]]].
      { destruct (frames_lift _ _ _ _ H1) as [Hf _]. congruence. }
      destruct (frames_lift _ _ _ _ H1) as [Hf1 _].
      apply bind_throw in Hthrow as [H2|[outputDir [w2 [H2 Hthrow]]]].
      { destruct (frames_lift _ _ _ _ H2) as [Hf _]. congruence. }
      destruct (frames_lift _ _ _ _ H2) as [Hf2 _]. cbv zeta in Hthrow.
      apply bind_throw in Hthrow as [H3|[u3 [w3 [H3 Hthrow]]]].
      { destruct (frames_call_unit _ _ _ _ _ H3) as [Hf _]. congruence. }
      destruct (frames_call_unit _ _ _ _ _ H3) as [Hf3 _].
      apply bind_throw in Hthrow as [H4|[u4 [w4 [H4 Hthrow]]]].
      { destruct (frames_call_unit _ _ _ _ _ H4) as [Hf _]. congruence. }
      destruct (frames_call_unit _ _ _ _ _ H4) as [Hf4 _].
      apply bind_throw in Hthrow as [H5|[id [w5 [H5 Hthrow]]]].
      { destruct (joinZoomMeeting_frames _ _ _ _ H5) as [Hf _]. congruence. }
      destruct (joinZoomMeeting_frames _ _ _ _ H5) as [Hf5 _].
      apply bind_throw in Hthrow as [H6|[started [w6 [H6 Hthrow]]]].
      { rewrite (startScreenRecording_throw_handle _ _ _ _ _ H6). congruence. }
      exfalso. revert Hthrow. apply no_throw_try_catch.
      intros e0. apply onSessionError_no_throw. }
    apply (onSessionError_keeps_idle _ _ _ _ _ Hrun Hwt).
Qed.

Lemma session_leaves_the_recorder_idle_witness :
  ffmpegProcess (snd (runRecordingSession (E := sampleEnv happy) 3 happyConfig w0))
    = None.
Proof.
  apply (session_leaves_the_recorder_idle (E := sampleEnv happy) 3 happyConfig w0
           (snd (runRecordingSession (E := sampleEnv happy) 3 happyConfig w0))
           ltac:(vm_compute; reflexivity) eq_refl).
Defined.
